(** * policygopher: hierarchy traversal, policy flattening and role resolution

    A shallow embedding of [resourcemanager.go] and of the driver
    [printToCsv], and the properties of the design document checked
    against it.

    Conventions of the embedding.
    - A Go [string] is a [string]; a Go [error] is the text of its message.
    - A Go function returning [(T, error)] returns a pair whose second
      component is [option error] ([None] is Go's [nil] error).
    - A pointer that the code may find [nil] is an [option]; slices hold
      non-nil elements, as the API client libraries produce them.
    - The collaborating services (resource manager v1beta1 and v2beta1, IAM,
      credential discovery, the file system, the buffered writer) are the
      fields of a record [Cloud]: deterministic oracles answering each call.
    - Everything the program does to the outside is appended to a trace of
      [Event]s kept in the [World]; the world also holds the one
      [resourceManager] of the run and what the writer has accepted.
    - A run-time panic (nil dereference, index out of range) is the outcome
      [Panic]; it is never confused with a returned error. *)

From Stdlib Require Import String List ZArith Lia Bool.
From stdpp Require Import base option list gmap strings.

Local Open Scope string_scope.
Local Open Scope list_scope.

Definition error : Type := string.

(** Answer of a collaborator: a value, or the error of the failed call. *)
Inductive Reply (A : Type) : Type :=
| OK (a : A)
| Fail (e : error).
Arguments OK {A} a.
Arguments Fail {A} e.

(** ** The API packages *)

Module iam.
Record Role : Type := mkRole {
  Role_Name : string;
  Role_Title : string;
  Role_Description : string;
  Role_IncludedPermissions : list string
}.
Definition zeroRole : Role := mkRole "" "" "" [].
End iam.

Module v1beta1.
Record Expr : Type := mkExpr {
  Expr_Description : string;
  Expr_Expression : string;
  Expr_Location : string;
  Expr_Title : string
}.
Record Binding : Type := mkBinding {
  Binding_Condition : option Expr;
  Binding_Members : list string;
  Binding_Role : string
}.
Record Policy : Type := mkPolicy {
  Policy_Bindings : list Binding;
  Policy_Etag : string
}.
Record ResourceId : Type := mkResourceId {
  ResourceId_Id : string;
  ResourceId_Type : string
}.
Record Ancestor : Type := mkAncestor {
  Ancestor_ResourceId : option ResourceId
}.
Record Project : Type := mkProject {
  Project_Name : string;
  Project_ProjectId : string
}.
End v1beta1.

Module v2beta1.
Record Expr : Type := mkExpr {
  Expr_Description : string;
  Expr_Expression : string;
  Expr_Location : string;
  Expr_Title : string
}.
Record Binding : Type := mkBinding {
  Binding_Condition : option Expr;
  Binding_Members : list string;
  Binding_Role : string
}.
Record Policy : Type := mkPolicy {
  Policy_Bindings : list Binding;
  Policy_Etag : string
}.
Record Folder : Type := mkFolder {
  Folder_Name : string;
  Folder_DisplayName : string
}.
End v2beta1.

Module google.
Record Credentials : Type := mkCredentials {
  Credentials_ProjectID : string
}.
End google.

(** The dynamic value behind the [interface{}] that [convertAncestors]
    receives: the one slice type it recognises, or a value of another type. *)
Inductive AncestorsValue : Type :=
| AncestorsV1 (v1 : list v1beta1.Ancestor)
| AncestorsOther (typeName : string).

(** ** The types of package main *)

Record Row : Type := mkRow {
  Row_Resource : string;
  Row_Type : string;
  Row_Role : string;
  Row_Member : string
}.

Record resourceManager : Type := mkResourceManager {
  rm_orgId : string;
  rm_roleMap : gmap string iam.Role
}.

Record Project : Type := mkProject {
  Project_Name : string;
  Project_ProjectId : string
}.

Record ResourceId : Type := mkResourceId {
  ResourceId_Id : string;
  ResourceId_Type : string
}.

Record Ancestor : Type := mkAncestor {
  Ancestor_ResourceId : option ResourceId
}.

Record Expr : Type := mkExpr {
  Expr_Description : string;
  Expr_Expression : string;
  Expr_Location : string;
  Expr_Title : string
}.

Record Binding : Type := mkBinding {
  Binding_Condition : option Expr;
  Binding_Members : list string;
  Binding_Role : string
}.

Record Policy : Type := mkPolicy {
  Policy_Bindings : list Binding;
  Policy_Etag : string
}.

Definition zeroExpr : Expr := mkExpr "" "" "" "".
Definition zeroBinding : Binding := mkBinding None [] "".
Definition zeroPolicy : Policy := mkPolicy [] "".
Definition zeroResourceManager : resourceManager := mkResourceManager "" ∅.

(** ** Effects *)

Inductive Event : Type :=
| EvNewService (api : string)
| EvFindDefaultCredentials
| EvStat (path : string)
| EvReadFile (path : string)
| EvCredentialsFromJSON (data : string)
| EvGetAncestry (projectId : string)
| EvOrganizationsGetIamPolicy (resource : string)
| EvProjectsGetIamPolicy (resource : string)
| EvFoldersGetIamPolicy (resource : string)
| EvFoldersList (parent : string)
| EvProjectsList (filter : string)
| EvRolesGet (uri : string)
| EvCreate (path : string)
| EvRename (oldpath newpath : string)
| EvFlush
| EvClose
| EvStdout (text : string)
| EvLog (text : string)
| EvLogErr (text : string).

Record Cloud : Type := mkCloud {
  NewService_v1beta1 : option error;
  NewService_v2beta1 : option error;
  NewService_iam : option error;
  FindDefaultCredentials : Reply google.Credentials;
  Stat : string -> option error;
  ReadFile : string -> Reply string;
  CredentialsFromJSON : string -> Reply google.Credentials;
  Projects_GetAncestry : string -> Reply AncestorsValue;
  Organizations_GetIamPolicy : string -> Reply v1beta1.Policy;
  Projects_GetIamPolicy : string -> Reply v1beta1.Policy;
  Folders_GetIamPolicy : string -> Reply v2beta1.Policy;
  (* a paginated listing: the pages delivered, then the error that stopped
     the iteration, if any *)
  Folders_List : string -> list (list v2beta1.Folder) * option error;
  Projects_List : string -> list (list v1beta1.Project) * option error;
  Roles_Get : string -> Reply iam.Role;
  Create : string -> option error;
  Rename : string -> string -> option error;
  (* the buffered writer: given the lines accepted so far, does it refuse
     the next one? *)
  Fprintf : list string -> string -> option error;
  Flush : list string -> option error;
  Close : option error;
  (* fmt's %#v rendering of a row *)
  SprintfGoSyntax : Row -> string
}.

Record World : Type := mkWorld {
  rm : resourceManager;
  written : list string;
  trace : list Event
}.

Inductive Outcome (A : Type) : Type :=
| Done (a : A) (w : World)
| Panic (msg : string) (w : World).
Arguments Done {A} a w.
Arguments Panic {A} msg w.

Definition M (A : Type) : Type := World -> Outcome A.

#[export] Instance M_ret : MRet M := fun A (a : A) w => Done a w.

#[export] Instance M_bind : MBind M := fun A B (k : A -> M B) (m : M A) w =>
  match m w with
  | Done a w' => k a w'
  | Panic msg w' => Panic msg w'
  end.

Definition ret {A} (a : A) : M A := mret a.

Definition panic {A} (msg : string) : M A := fun w => Panic msg w.

Definition emit (e : Event) : M unit :=
  fun w => Done tt (mkWorld (rm w) (written w) (trace w ++ [e])).

Definition getRm : M resourceManager := fun w => Done (rm w) w.

Definition putRm (r : resourceManager) : M unit :=
  fun w => Done tt (mkWorld r (written w) (trace w)).

Definition set_orgId (o : string) : M unit :=
  r ← getRm; putRm (mkResourceManager o (rm_roleMap r)).

Definition set_roleMap (uri : string) (role : iam.Role) : M unit :=
  r ← getRm; putRm (mkResourceManager (rm_orgId r) (<[uri := role]> (rm_roleMap r))).

Definition nl : string := String (Ascii.ascii_of_nat 10) EmptyString.

(** [for _, x := range xs { ... }] with a body that returns a value for the
    slot of [x]. *)
Fixpoint forM {A B} (f : A -> M B) (xs : list A) : M (list B) :=
  match xs with
  | [] => ret []
  | x :: xs' => y ← f x; ys ← forM f xs'; ret (y :: ys)
  end.

(** [xs[i]] with Go's bounds check. *)
Definition index {A} (xs : list A) (i : Z) : M A :=
  if (i <? 0)%Z then panic "index out of range"
  else match xs !! Z.to_nat i with
       | Some x => ret x
       | None => panic "index out of range"
       end.

(** [logerr] is [log.New(os.Stderr, "Error: ", 0)]. *)
Definition logerr_Printf (text : string) : M unit := emit (EvLogErr ("Error: " +:+ text)).
Definition fmt_Println (text : string) : M unit := emit (EvStdout (text +:+ nl)).
Definition fmt_Printf (text : string) : M unit := emit (EvStdout text).

Section Program.

Variable cloud : Cloud.

(** ** Role resolution *)

Definition _getRoleByUri (uri : string) : M (option iam.Role * option error) :=
  r ← getRm;
  match rm_roleMap r !! uri with
  | Some role => ret (Some role, None)
  | None =>
      emit (EvRolesGet uri);;
      match Roles_Get cloud uri with
      | Fail err => ret (None, Some ("uri[" +:+ uri +:+ "]: " +:+ err))
      | OK role => set_roleMap uri role;; ret (Some role, None)
      end
  end.

Definition try_uri_of (row : Row) : string :=
  Row_Type row +:+ "s/" +:+ Row_Resource row +:+ "/" +:+ Row_Role row.

Definition GetRole (row : Row) : M (option iam.Role * option error) :=
  let verbatim : M (option iam.Role * option error) :=
    '(role, err) ← _getRoleByUri (Row_Role row);
    match err with
    | Some e => ret (Some iam.zeroRole, Some e)
    | None => ret (role, None)
    end in
  if String.eqb (Row_Type row) "project" || String.eqb (Row_Type row) "organization" then
    '(role, err) ← _getRoleByUri (try_uri_of row);
    match err with
    | None => ret (role, None)
    | Some _ => verbatim
    end
  else verbatim.

Definition GetRolePermissions (row : Row) : M (list string * option error) :=
  '(role, err) ← GetRole row;
  match err with
  | Some e => ret ([], Some ("row: " +:+ SprintfGoSyntax cloud row +:+ ", " +:+ e))
  | None =>
      match role with
      | Some ro => ret (iam.Role_IncludedPermissions ro, None)
      | None => panic "invalid memory address or nil pointer dereference"
      end
  end.

(** ** Deriving the organization id *)

Definition getProjectIdFromCredentials (credentialsPath : string) : M (string * option error) :=
  emit EvFindDefaultCredentials;;
  let fromFile : M (string * option error) :=
    if String.eqb credentialsPath "" then
      ret ("", Some "unable to get application default credentials, please specify credentials json")
    else
      emit (EvStat credentialsPath);;
      match Stat cloud credentialsPath with
      | Some err =>
          ret ("", Some ("Unable to stat credential file " +:+ credentialsPath +:+ ": " +:+ err))
      | None =>
          emit (EvReadFile credentialsPath);;
          match ReadFile cloud credentialsPath with
          | Fail err => ret ("", Some ("Error opening " +:+ credentialsPath +:+ ": " +:+ err))
          | OK data =>
              emit (EvCredentialsFromJSON data);;
              match CredentialsFromJSON cloud data with
              | Fail err =>
                  ret ("", Some ("Error getting credentials from data in " +:+ credentialsPath
                                 +:+ ": " +:+ err))
              | OK credentials =>
                  if String.eqb (google.Credentials_ProjectID credentials) "" then
                    ret ("", Some "no project found in either application default credentials or json file")
                  else
                    fmt_Printf ("Project ID found from supplied credentials: "
                                +:+ google.Credentials_ProjectID credentials +:+ nl);;
                    ret (google.Credentials_ProjectID credentials, None)
              end
          end
      end in
  match FindDefaultCredentials cloud with
  | OK credentials =>
      if negb (String.eqb (google.Credentials_ProjectID credentials) "") then
        fmt_Printf ("Project ID found from default credentials: "
                    +:+ google.Credentials_ProjectID credentials +:+ nl);;
        ret (google.Credentials_ProjectID credentials, None)
      else fromFile
  | Fail _ => fromFile
  end.

Definition convertAncestors (ancestors : AncestorsValue) : M (list Ancestor) :=
  match ancestors with
  | AncestorsV1 v1 =>
      forM (fun a =>
              match v1beta1.Ancestor_ResourceId a with
              | Some rid =>
                  ret (mkAncestor (Some (mkResourceId (v1beta1.ResourceId_Id rid)
                                                      (v1beta1.ResourceId_Type rid))))
              | None => panic "invalid memory address or nil pointer dereference"
              end) v1
  | AncestorsOther _ => ret []
  end.

Definition GetAncestryForProject (projectId : string) : M (list Ancestor * option error) :=
  emit (EvGetAncestry projectId);;
  match Projects_GetAncestry cloud projectId with
  | Fail err => ret ([], Some err)
  | OK garesp => results ← convertAncestors garesp; ret (results, None)
  end.

Definition GetOrgIdFromProjectId (projectId : string) : M (option error) :=
  '(thisProjectAncestry, err) ← GetAncestryForProject projectId;
  match err with
  | Some e => ret (Some ("Unable to get org for project " +:+ projectId +:+ ": " +:+ e))
  | None =>
      a ← index thisProjectAncestry (Z.of_nat (length thisProjectAncestry) - 1);
      match Ancestor_ResourceId a with
      | None => panic "invalid memory address or nil pointer dereference"
      | Some rid =>
          set_orgId (ResourceId_Id rid);;
          fmt_Printf ("OrgId of " +:+ ResourceId_Id rid +:+ " found from Project ID "
                      +:+ projectId +:+ nl);;
          ret None
      end
  end.

Definition NewService (api : string) (answer : option error) : M (option error) :=
  emit (EvNewService api);; ret answer.

(** The manager the caller receives is the one left in the world: the
    freshly built [r] on success, the empty [&resourceManager{}] on error. *)
Definition NewResourceManager (credentialsPath orgId projectId : string) : M (option error) :=
  err ← NewService "cloudresourcemanager/v1beta1" (NewService_v1beta1 cloud);
  match err with
  | Some e => putRm zeroResourceManager;; ret (Some e)
  | None =>
  err ← NewService "cloudresourcemanager/v2beta1" (NewService_v2beta1 cloud);
  match err with
  | Some e => putRm zeroResourceManager;; ret (Some e)
  | None =>
  err ← NewService "iam/v1" (NewService_iam cloud);
  match err with
  | Some e => putRm zeroResourceManager;; ret (Some e)
  | None =>
      putRm (mkResourceManager orgId ∅);;
      if String.eqb orgId "" then
        fmt_Println "OrgId not specified, checking by ProjectId";;
        let derive (p projectId : string) : M (option error) :=
          err ← GetOrgIdFromProjectId projectId;
          match err with
          | Some e =>
              putRm zeroResourceManager;;
              ret (Some ("Error getting OrgId from ProjectId " +:+ p +:+ ": " +:+ e))
          | None => ret None
          end in
        if String.eqb projectId "" then
          fmt_Println "ProjectId not specified, getting ProjectId from credentials";;
          '(p, err) ← getProjectIdFromCredentials credentialsPath;
          match err with
          | Some e =>
              putRm zeroResourceManager;;
              ret (Some ("Unable to identify OrgId, please specify on CLI or gcloud credentials: "
                         +:+ e))
          | None => derive p p
          end
        else derive "" projectId
      else ret None
  end end end.

(** ** Listing the hierarchy *)

(** The callback given to [Pages]: append every element of the page. *)
Definition appendPage {A B} (conv : A -> B) (acc : list B) (page : list A) : list B :=
  fold_left (fun acc x => acc ++ [conv x]) page acc.

(** The filter (for folders, the parent) is set on the request only when it
    is not empty; the listing oracle is asked with the string either way. *)
Definition ProjectsListByFilter (filter : string) : M (list Project * option error) :=
  emit (EvProjectsList filter);;
  let '(pages, err) := Projects_List cloud filter in
  let projects :=
    fold_left (appendPage (fun p => mkProject (v1beta1.Project_Name p)
                                              (v1beta1.Project_ProjectId p))) pages [] in
  match err with
  | Some e => ret ([], Some e)
  | None => ret (projects, None)
  end.

Definition ProjectsList : M (list Project * option error) :=
  r ← getRm;
  ProjectsListByFilter ("parent.type:organization parent.id:" +:+ rm_orgId r).

Definition FoldersList (parent : string) : M (list v2beta1.Folder * option error) :=
  emit (EvFoldersList parent);;
  let '(pages, err) := Folders_List cloud parent in
  let folders := fold_left (appendPage (fun f => f)) pages [] in
  match err with
  | Some e => ret ([], Some e)
  | None => ret (folders, None)
  end.

(** ** Normalizing policies *)

Definition Expr_convertV1 (e : Expr) (expr : option v1beta1.Expr) : M Expr :=
  match expr with
  | None => panic "invalid memory address or nil pointer dereference"
  | Some x => ret (mkExpr (v1beta1.Expr_Description x) (v1beta1.Expr_Expression x)
                          (v1beta1.Expr_Location x) (v1beta1.Expr_Title x))
  end.

Definition Expr_convertV2 (e : Expr) (expr : option v2beta1.Expr) : M Expr :=
  match expr with
  | None => panic "invalid memory address or nil pointer dereference"
  | Some x => ret (mkExpr (v2beta1.Expr_Description x) (v2beta1.Expr_Expression x)
                          (v2beta1.Expr_Location x) (v2beta1.Expr_Title x))
  end.

(** The test is on the receiver's own [Condition], as in the source. *)
Definition Binding_convertV1 (b : Binding) (binding : v1beta1.Binding) : M Binding :=
  let b := mkBinding (Binding_Condition b) (v1beta1.Binding_Members binding)
                     (v1beta1.Binding_Role binding) in
  match Binding_Condition b with
  | Some _ =>
      c ← Expr_convertV1 zeroExpr (v1beta1.Binding_Condition binding);
      ret (mkBinding (Some c) (Binding_Members b) (Binding_Role b))
  | None => ret b
  end.

Definition Binding_convertV2 (b : Binding) (binding : v2beta1.Binding) : M Binding :=
  let b := mkBinding (Binding_Condition b) (v2beta1.Binding_Members binding)
                     (v2beta1.Binding_Role binding) in
  match Binding_Condition b with
  | Some _ =>
      c ← Expr_convertV2 zeroExpr (v2beta1.Binding_Condition binding);
      ret (mkBinding (Some c) (Binding_Members b) (Binding_Role b))
  | None => ret b
  end.

Definition Policy_convertBindingsV1 (p : Policy) (bindings : list v1beta1.Binding) : M Policy :=
  bs ← forM (Binding_convertV1 zeroBinding) bindings;
  ret (mkPolicy bs (Policy_Etag p)).

Definition Policy_convertBindingsV2 (p : Policy) (bindings : list v2beta1.Binding) : M Policy :=
  bs ← forM (Binding_convertV2 zeroBinding) bindings;
  ret (mkPolicy bs (Policy_Etag p)).

Definition Policy_convertV1 (p : Policy) (policy : v1beta1.Policy) : M Policy :=
  Policy_convertBindingsV1 (mkPolicy (Policy_Bindings p) (v1beta1.Policy_Etag policy))
                           (v1beta1.Policy_Bindings policy).

Definition Policy_convertV2 (p : Policy) (policy : v2beta1.Policy) : M Policy :=
  Policy_convertBindingsV2 (mkPolicy (Policy_Bindings p) (v2beta1.Policy_Etag policy))
                           (v2beta1.Policy_Bindings policy).

Definition GetIamPolicyForProject (projectId : string) : M (Policy * option error) :=
  emit (EvProjectsGetIamPolicy projectId);;
  match Projects_GetIamPolicy cloud projectId with
  | Fail err => ret (zeroPolicy, Some err)
  | OK policyResponse => policy ← Policy_convertV1 zeroPolicy policyResponse; ret (policy, None)
  end.

Definition GetIamPolicyForOrganization : M (Policy * option error) :=
  r ← getRm;
  emit (EvOrganizationsGetIamPolicy ("organizations/" +:+ rm_orgId r));;
  match Organizations_GetIamPolicy cloud ("organizations/" +:+ rm_orgId r) with
  | Fail err => ret (zeroPolicy, Some err)
  | OK policyResponse => policy ← Policy_convertV1 zeroPolicy policyResponse; ret (policy, None)
  end.

Definition GetIamPolicyForFolder (folderId : string) : M (Policy * option error) :=
  emit (EvFoldersGetIamPolicy folderId);;
  match Folders_GetIamPolicy cloud folderId with
  | Fail err => ret (zeroPolicy, Some err)
  | OK policyResponse => policy ← Policy_convertV2 zeroPolicy policyResponse; ret (policy, None)
  end.

(** ** Flattening *)

Definition addBindings (bindings : list Binding) (rows : list Row)
    (resource resType : string) : list Row :=
  fold_left
    (fun rows b =>
       fold_left (fun rows m => rows ++ [mkRow resource resType (Binding_Role b) m])
                 (Binding_Members b) rows)
    bindings rows.

Fixpoint folderLoop (folders : list v2beta1.Folder) (rows : list Row)
    : M (list Row * option error) :=
  match folders with
  | [] => ret (rows, None)
  | f :: folders' =>
      '(policy, err) ← GetIamPolicyForFolder (v2beta1.Folder_Name f);
      match err with
      | Some e =>
          logerr_Printf ("Unable to get more info on folder " +:+ v2beta1.Folder_Name f
                         +:+ ": " +:+ e +:+ nl);;
          ret (rows, Some e)
      | None =>
          folderLoop folders'
            (addBindings (Policy_Bindings policy) rows (v2beta1.Folder_Name f) "folder")
      end
  end.

Definition GetFolderPolicyRows : M (list Row * option error) :=
  r ← getRm;
  '(folders, err) ← FoldersList ("organizations/" +:+ rm_orgId r);
  match err with
  | Some e => ret ([], Some e)
  | None => folderLoop folders []
  end.

Fixpoint projectLoop (projects : list Project) (rows : list Row)
    : M (list Row * option error) :=
  match projects with
  | [] => ret (rows, None)
  | p :: projects' =>
      '(policy, err) ← GetIamPolicyForProject (Project_ProjectId p);
      match err with
      | Some e =>
          logerr_Printf ("Unable to get more info on project " +:+ Project_Name p
                         +:+ ": " +:+ e +:+ nl);;
          ret (rows, Some e)
      | None =>
          projectLoop projects'
            (addBindings (Policy_Bindings policy) rows (Project_Name p) "project")
      end
  end.

Definition GetProjectPolicyRows : M (list Row * option error) :=
  '(projects, err) ← ProjectsList;
  match err with
  | Some e => ret ([], Some e)
  | None => projectLoop projects []
  end.

Definition GetOrgPolicyRows : M (list Row * option error) :=
  '(orgPolicy, err) ← GetIamPolicyForOrganization;
  match err with
  | Some e => ret ([], Some e)
  | None =>
      r ← getRm;
      ret (addBindings (Policy_Bindings orgPolicy) [] (rm_orgId r) "organization", None)
  end.

(** ** Aggregation *)

Definition GetAllPolicyRows : M (option (list Row) * option error) :=
  let allRows : list Row := [] in
  '(newRows, err) ← GetOrgPolicyRows;
  match err with
  | Some e => ret (None, Some e)
  | None =>
  let allRows := allRows ++ newRows in
  '(newRows, err) ← GetFolderPolicyRows;
  match err with
  | Some e => ret (None, Some e)
  | None =>
  let allRows := allRows ++ newRows in
  '(newRows, err) ← GetProjectPolicyRows;
  match err with
  | Some e => ret (None, Some e)
  | None =>
  let allRows := allRows ++ newRows in
  ret (Some allRows, None)
  end end end.

(** ** Output *)

Definition fmt_Fprintf (line : string) : M (option error) :=
  fun w => match Fprintf cloud (written w) line with
           | None => Done None (mkWorld (rm w) (written w ++ [line]) (trace w))
           | Some e => Done (Some e) w
           end.

Definition csvLine (a b c d e : string) : string :=
  a +:+ "," +:+ b +:+ "," +:+ c +:+ "," +:+ d +:+ "," +:+ e +:+ nl.

(** The loop of [Print]: its [err] is a variable of the loop body, so a
    refused write only leaves the loop. *)
Fixpoint printLines (r : Row) (permissions : list string) : M unit :=
  match permissions with
  | [] => ret tt
  | p :: permissions' =>
      err ← fmt_Fprintf (csvLine (Row_Resource r) (Row_Type r) (Row_Member r) (Row_Role r) p);
      match err with
      | Some _ => ret tt
      | None => printLines r permissions'
      end
  end.

Definition Row_Print (r : Row) : M (option error) :=
  '(permissions, err) ← GetRolePermissions r;
  permissions ← match err with
                | Some _ =>
                    logerr_Printf ("Error getting permissions for " +:+ Row_Role r +:+ nl);;
                    ret ["UNKNOWN"]
                | None => ret permissions
                end;
  printLines r permissions;;
  ret err.

Fixpoint printRows (allRows : list Row) : M unit :=
  match allRows with
  | [] => ret tt
  | row :: allRows' =>
      err ← Row_Print row;
      match err with
      | Some e => logerr_Printf (e +:+ nl)
      | None => ret tt
      end;;
      printRows allRows'
  end.

(** [timeTrack]: the elapsed time is not part of the model. *)
Definition timeTrack (name : string) : M unit := emit (EvLog (name +:+ " took")).

Definition printToCsv (filename credentialsPath orgId projectId : string) : M (option error) :=
  emit (EvStat filename);;
  match Stat cloud filename with
  | None =>
      emit (EvLog ("Fils " +:+ filename +:+ " found, skipping export roles"));;
      ret None
  | Some _ =>
  emit (EvCreate ("tmp." +:+ filename));;
  match Create cloud ("tmp." +:+ filename) with
  | Some e => ret (Some e)
  | None =>
  err ← fmt_Fprintf (csvLine "Resource" "Type" "Member" "Role" "Permission");
  match err with
  | Some e => ret (Some e)
  | None =>
  err ← NewResourceManager credentialsPath orgId projectId;
  match err with
  | Some e => ret (Some e)
  | None =>
  '(allRows, err) ← GetAllPolicyRows;
  match err with
  | Some e => ret (Some e)
  | None =>
  match allRows with
  | None => panic "invalid memory address or nil pointer dereference"
  | Some allRows =>
  fmt_Println "Printing CSV";;
  printRows allRows;;
  res ← (emit (EvRename ("tmp." +:+ filename) filename);;
         match Rename cloud ("tmp." +:+ filename) filename with
         | Some e =>
             ret (Some ("Unable to move tmp." +:+ filename +:+ " to " +:+ filename
                        +:+ ": " +:+ e))
         | None =>
             emit EvFlush;;
             w ← (fun w => Done (written w) w);
             match Flush cloud w with
             | Some e => ret (Some ("Error flushing writer: " +:+ e))
             | None =>
                 emit EvClose;;
                 match Close cloud with
                 | Some e => ret (Some ("Error closing file: " +:+ e))
                 | None => ret None
                 end
             end
         end);
  timeTrack "Printing CSV";;
  ret res
  end end end end end end.

End Program.

(** * Vocabulary of the properties *)

Definition outWorld {A} (o : Outcome A) : World :=
  match o with
  | Done _ w => w
  | Panic _ w => w
  end.

Definition rowsOfBinding (resource resType : string) (b : Binding) : list Row :=
  map (fun m => mkRow resource resType (Binding_Role b) m) (Binding_Members b).

Definition memberCount (bindings : list Binding) : nat :=
  list_sum (map (fun b => length (Binding_Members b)) bindings).

Definition emptyWorld : World := mkWorld zeroResourceManager [] [].

(** What flattening can see of a raw binding: the condition is gone. *)
Definition projectV1 (b : v1beta1.Binding) : Binding :=
  mkBinding None (v1beta1.Binding_Members b) (v1beta1.Binding_Role b).

Definition projectV2 (b : v2beta1.Binding) : Binding :=
  mkBinding None (v2beta1.Binding_Members b) (v2beta1.Binding_Role b).

(** A cloud in which every call fails; the examples override fields of it. *)
Definition deadCloud : Cloud := {|
  NewService_v1beta1 := None;
  NewService_v2beta1 := None;
  NewService_iam := None;
  FindDefaultCredentials := Fail "no default credentials";
  Stat := fun _ => Some "no such file or directory";
  ReadFile := fun _ => Fail "no such file or directory";
  CredentialsFromJSON := fun _ => Fail "invalid character";
  Projects_GetAncestry := fun _ => Fail "403";
  Organizations_GetIamPolicy := fun _ => Fail "403";
  Projects_GetIamPolicy := fun _ => Fail "403";
  Folders_GetIamPolicy := fun _ => Fail "403";
  Folders_List := fun _ => ([], Some "403");
  Projects_List := fun _ => ([], Some "403");
  Roles_Get := fun _ => Fail "404";
  Create := fun _ => None;
  Rename := fun _ _ => None;
  Fprintf := fun _ _ => None;
  Flush := fun _ => None;
  Close := None;
  SprintfGoSyntax := fun r => "&main.Row{}"
|}.

Definition withAncestry (f : string -> Reply AncestorsValue) (c : Cloud) : Cloud :=
  mkCloud (NewService_v1beta1 c) (NewService_v2beta1 c) (NewService_iam c)
          (FindDefaultCredentials c) (Stat c) (ReadFile c) (CredentialsFromJSON c)
          f (Organizations_GetIamPolicy c) (Projects_GetIamPolicy c)
          (Folders_GetIamPolicy c) (Folders_List c) (Projects_List c) (Roles_Get c)
          (Create c) (Rename c) (Fprintf c) (Flush c) (Close c) (SprintfGoSyntax c).

Definition unknownShapeCloud : Cloud :=
  withAncestry (fun _ => OK (AncestorsOther "[]*v3.Ancestor")) deadCloud.

Section RoleVocabulary.

Variable cloud : Cloud.

(** The answer of one lookup attempt in world [w]: the memoized role, or
    else what the role service says. *)
Definition lookupRole (w : World) (uri : string) : Reply iam.Role :=
  match rm_roleMap (rm w) !! uri with
  | Some role => OK role
  | None => Roles_Get cloud uri
  end.

(** The calls to the role service that one lookup attempt issues. *)
Definition lookupCalls (w : World) (uri : string) : list Event :=
  match rm_roleMap (rm w) !! uri with
  | Some _ => []
  | None => [EvRolesGet uri]
  end.

(** The world after one lookup attempt. *)
Definition afterLookup (w : World) (uri : string) : World :=
  match rm_roleMap (rm w) !! uri with
  | Some _ => w
  | None =>
      match Roles_Get cloud uri with
      | OK role =>
          mkWorld (mkResourceManager (rm_orgId (rm w)) (<[uri := role]> (rm_roleMap (rm w))))
                  (written w) (trace w ++ [EvRolesGet uri])
      | Fail _ => mkWorld (rm w) (written w) (trace w ++ [EvRolesGet uri])
      end
  end.

Definition lookupError (uri : string) (e : error) : error := "uri[" +:+ uri +:+ "]: " +:+ e.

Definition scopedKind (row : Row) : Prop :=
  Row_Type row = "project" \/ Row_Type row = "organization".

(** Both candidate URIs of a row fail (only the verbatim one exists for a
    row that is neither of a project nor of an organization). *)
Definition unresolvable (w : World) (row : Row) : Prop :=
  (scopedKind row ->
   exists e, lookupRole w (Row_Type row +:+ "s/" +:+ Row_Resource row +:+ "/" +:+ Row_Role row)
             = Fail e)
  /\ exists e, lookupRole w (Row_Role row) = Fail e.

(** The world in which the verbatim attempt of [GetRole] runs. *)
Definition beforeVerbatim (row : Row) (w : World) : World :=
  if String.eqb (Row_Type row) "project" || String.eqb (Row_Type row) "organization"
  then afterLookup w (try_uri_of row) else w.

End RoleVocabulary.

(** The scenario of the design document: organization [O] with one binding,
    folder [F] without bindings, project [P] with one binding, the two
    predefined roles, and the custom role [myrole] of project [P]. *)
Definition viewerRole : iam.Role := iam.mkRole "roles/viewer" "Viewer" "" ["permA"; "permB"].
Definition editorRole : iam.Role := iam.mkRole "roles/editor" "Editor" "" ["permC"].
Definition customRole : iam.Role :=
  iam.mkRole "projects/P/roles/myrole" "My role" "" ["permX"].

Definition demoRoles (uri : string) : Reply iam.Role :=
  if String.eqb uri "roles/viewer" then OK viewerRole
  else if String.eqb uri "roles/editor" then OK editorRole
  else if String.eqb uri "projects/P/roles/myrole" then OK customRole
  else Fail "404".

Definition demoCloud : Cloud := {|
  NewService_v1beta1 := None;
  NewService_v2beta1 := None;
  NewService_iam := None;
  FindDefaultCredentials := OK (google.mkCredentials "P");
  Stat := fun _ => Some "no such file or directory";
  ReadFile := fun _ => Fail "no such file or directory";
  CredentialsFromJSON := fun _ => Fail "invalid character";
  Projects_GetAncestry := fun projectId =>
    if String.eqb projectId "P"
    then OK (AncestorsV1
               [v1beta1.mkAncestor (Some (v1beta1.mkResourceId "P" "project"));
                v1beta1.mkAncestor (Some (v1beta1.mkResourceId "O" "organization"))])
    else Fail "403";
  Organizations_GetIamPolicy := fun resource =>
    if String.eqb resource "organizations/O"
    then OK (v1beta1.mkPolicy
               [v1beta1.mkBinding None ["user:a@x.com"; "group:g@x.com"] "roles/viewer"] "BwWW")
    else Fail "403";
  Projects_GetIamPolicy := fun resource =>
    if String.eqb resource "P"
    then OK (v1beta1.mkPolicy [v1beta1.mkBinding None ["user:b@x.com"] "roles/editor"] "BwXX")
    else Fail "403";
  Folders_GetIamPolicy := fun resource =>
    if String.eqb resource "F" then OK (v2beta1.mkPolicy [] "BwYY") else Fail "403";
  Folders_List := fun parent =>
    if String.eqb parent "organizations/O" then ([[v2beta1.mkFolder "F" "f"]], None)
    else ([], Some "403");
  Projects_List := fun filter =>
    if String.eqb filter "parent.type:organization parent.id:O"
    then ([[v1beta1.mkProject "P" "P"]], None)
    else ([], Some "403");
  Roles_Get := demoRoles;
  Create := fun _ => None;
  Rename := fun _ _ => None;
  Fprintf := fun _ _ => None;
  Flush := fun _ => None;
  Close := None;
  SprintfGoSyntax := fun r => "&main.Row{}"
|}.

Definition worldOfOrg (orgId : string) : World :=
  mkWorld (mkResourceManager orgId ∅) [] [].

(** Later in the same run: the memo table keeps every entry, and an entry
    that appears is an answer of the role service for that very URI. *)
Definition cacheGrows (cloud : Cloud) (w w' : World) : Prop :=
  forall u,
    (forall r, rm_roleMap (rm w) !! u = Some r -> rm_roleMap (rm w') !! u = Some r)
    /\ (rm_roleMap (rm w) !! u = None ->
        forall r, rm_roleMap (rm w') !! u = Some r -> Roles_Get cloud u = OK r).

(** ** Classes of events and the outcome of the derivation *)

Definition isCredentialEvent (ev : Event) : bool :=
  match ev with
  | EvFindDefaultCredentials | EvStat _ | EvReadFile _ | EvCredentialsFromJSON _ => true
  | _ => false
  end.

Definition isAncestryEvent (ev : Event) : bool :=
  match ev with
  | EvGetAncestry _ => true
  | _ => false
  end.

(** Listing a tier or retrieving the policy of one of its resources. *)
Definition isListingEvent (ev : Event) : bool :=
  match ev with
  | EvFoldersList _ | EvProjectsList _
  | EvOrganizationsGetIamPolicy _ | EvProjectsGetIamPolicy _ | EvFoldersGetIamPolicy _ => true
  | _ => false
  end.

Section DerivationVocabulary.

Variable cloud : Cloud.

Definition servicesUp : Prop :=
  NewService_v1beta1 cloud = None /\ NewService_v2beta1 cloud = None
  /\ NewService_iam cloud = None.

(** The project id that the default credentials give, if any. *)
Definition defaultProject : option string :=
  match FindDefaultCredentials cloud with
  | OK credentials =>
      if String.eqb (google.Credentials_ProjectID credentials) "" then None
      else Some (google.Credentials_ProjectID credentials)
  | Fail _ => None
  end.

(** The project id that the credentials file gives, if any. *)
Definition fileProject (credentialsPath : string) : option string :=
  if String.eqb credentialsPath "" then None
  else match Stat cloud credentialsPath with
       | Some _ => None
       | None =>
           match ReadFile cloud credentialsPath with
           | Fail _ => None
           | OK data =>
               match CredentialsFromJSON cloud data with
               | Fail _ => None
               | OK credentials =>
                   if String.eqb (google.Credentials_ProjectID credentials) "" then None
                   else Some (google.Credentials_ProjectID credentials)
               end
           end
       end.

Definition discoveredProject (credentialsPath : string) : option string :=
  match defaultProject with
  | Some p => Some p
  | None => fileProject credentialsPath
  end.

(** The project whose ancestry is asked for when no organization id is given. *)
Definition chosenProject (credentialsPath projectId : string) : option string :=
  if String.eqb projectId "" then discoveredProject credentialsPath else Some projectId.

Definition ancestryFails (projectId : string) : Prop :=
  exists e, Projects_GetAncestry cloud projectId = Fail e.

(** Every way to an organization id is closed: none is given, and either no
    project id is found or the ancestry of the project cannot be fetched. *)
Definition derivationFails (credentialsPath orgId projectId : string) : Prop :=
  orgId = ""
  /\ match chosenProject credentialsPath projectId with
     | None => True
     | Some p => ancestryFails p
     end.

(** The events allowed when the organization id has to be derived: no
    listing, no credential lookup when a project id is given, and no ancestry
    lookup but that of the chosen project. *)
Definition derivationEvent (credentialsPath projectId : string) (ev : Event) : Prop :=
  isListingEvent ev = false
  /\ (projectId <> "" -> isCredentialEvent ev = false)
  /\ (isAncestryEvent ev = true ->
      exists p, chosenProject credentialsPath projectId = Some p /\ ev = EvGetAncestry p).

(** The identifier of the outermost (last) ancestor that the resource manager
    reports for a project, when the ancestry is well formed. *)
Definition outermostAncestor (projectId : string) : option string :=
  match Projects_GetAncestry cloud projectId with
  | OK (AncestorsV1 v1) =>
      if forallb (fun a => match v1beta1.Ancestor_ResourceId a with
                           | Some _ => true
                           | None => false
                           end) v1
      then match last v1 with
           | Some a => option_map v1beta1.ResourceId_Id (v1beta1.Ancestor_ResourceId a)
           | None => None
           end
      else None
  | _ => None
  end.

End DerivationVocabulary.

(** What [convertAncestors] makes of one ancestor that has a resource id. *)
Definition convertOrNil (a : v1beta1.Ancestor) : Ancestor :=
  mkAncestor (option_map (fun rid => mkResourceId (v1beta1.ResourceId_Id rid)
                                                  (v1beta1.ResourceId_Type rid))
                         (v1beta1.Ancestor_ResourceId a)).

(** [spec P R panicOk m]: from any world, [m] only adds events satisfying [P]
    to the trace, a returned value satisfies [R], and [m] may panic only if
    [panicOk]. *)
Definition spec {A} (P : Event -> Prop) (R : A -> Prop) (panicOk : Prop) (m : M A) : Prop :=
  forall w, exists evs,
    trace (outWorld (m w)) = trace w ++ evs
    /\ Forall P evs
    /\ match m w with
       | Done a _ => R a
       | Panic _ _ => panicOk
       end.

Definition credentialsFileCloud : Cloud := {|
  NewService_v1beta1 := None;
  NewService_v2beta1 := None;
  NewService_iam := None;
  FindDefaultCredentials := OK (google.mkCredentials "");
  Stat := fun path => if String.eqb path "creds.json" then None
                      else Some "no such file or directory";
  ReadFile := fun path => if String.eqb path "creds.json" then OK "{}"
                          else Fail "no such file or directory";
  CredentialsFromJSON := fun _ => OK (google.mkCredentials "");
  Projects_GetAncestry := fun _ => Fail "403";
  Organizations_GetIamPolicy := fun _ => Fail "403";
  Projects_GetIamPolicy := fun _ => Fail "403";
  Folders_GetIamPolicy := fun _ => Fail "403";
  Folders_List := fun _ => ([], Some "403");
  Projects_List := fun _ => ([], Some "403");
  Roles_Get := fun _ => Fail "404";
  Create := fun _ => None;
  Rename := fun _ _ => None;
  Fprintf := fun _ _ => None;
  Flush := fun _ => None;
  Close := None;
  SprintfGoSyntax := fun r => "&main.Row{}"
|}.

(** ** Failures of the listing and policy services *)

Section AggregationVocabulary.

Variable cloud : Cloud.

(** The error, if any, with which the collaborator answers the call that the
    event records (the collaborators are deterministic). *)
Definition callError (ev : Event) : option error :=
  match ev with
  | EvOrganizationsGetIamPolicy resource =>
      match Organizations_GetIamPolicy cloud resource with
      | Fail e => Some e
      | OK _ => None
      end
  | EvProjectsGetIamPolicy resource =>
      match Projects_GetIamPolicy cloud resource with
      | Fail e => Some e
      | OK _ => None
      end
  | EvFoldersGetIamPolicy resource =>
      match Folders_GetIamPolicy cloud resource with
      | Fail e => Some e
      | OK _ => None
      end
  | EvFoldersList parent => snd (Folders_List cloud parent)
  | EvProjectsList filter => snd (Projects_List cloud filter)
  | _ => None
  end.

(** [failFast R m]: [m] returns; its result satisfies [R]; if it returns no
    error, no call it made failed; if it returns the error [e], some call it
    made failed with [e] and no call failed otherwise. *)
Definition failFast {A} (R : A * option error -> Prop) (m : M (A * option error)) : Prop :=
  forall w, exists res w' evs,
    m w = Done res w'
    /\ trace w' = trace w ++ evs
    /\ R res
    /\ match snd res with
       | None => Forall (fun ev => callError ev = None) evs
       | Some e =>
           Forall (fun ev => callError ev = None \/ callError ev = Some e) evs
           /\ Exists (fun ev => callError ev = Some e) evs
       end.

(** [failTail R e m]: [m] hands the error [e] on, making no failing call. *)
Definition failTail {A} (R : A * option error -> Prop) (e : error) (m : M (A * option error))
    : Prop :=
  forall w, exists a w' evs,
    m w = Done (a, Some e) w'
    /\ trace w' = trace w ++ evs
    /\ R (a, Some e)
    /\ Forall (fun ev => callError ev = None) evs.

End AggregationVocabulary.

(** Rows in tier order: those of the organization, then those of the folders,
    then those of the projects. *)
Definition tierOrdered (rows : list Row) : Prop :=
  exists orgRows folderRows projectRows,
    rows = orgRows ++ folderRows ++ projectRows
    /\ Forall (fun r => Row_Type r = "organization") orgRows
    /\ Forall (fun r => Row_Type r = "folder") folderRows
    /\ Forall (fun r => Row_Type r = "project") projectRows.

(** The rows that a tier returns all carry the type of the tier. *)
Definition rowsOfType (resType : string) (res : list Row * option error) : Prop :=
  Forall (fun r => Row_Type r = resType) (fst res).

(** What the aggregation returns: all the rows in tier order, or no rows and
    an error. *)
Definition aggregated (res : option (list Row) * option error) : Prop :=
  match res with
  | (Some rows, None) => tierOrdered rows
  | (None, Some _) => True
  | _ => False
  end.

(** Three folders, the policy of the second of which cannot be retrieved. *)
Definition brokenFolderCloud : Cloud := {|
  NewService_v1beta1 := None;
  NewService_v2beta1 := None;
  NewService_iam := None;
  FindDefaultCredentials := Fail "no default credentials";
  Stat := fun _ => Some "no such file or directory";
  ReadFile := fun _ => Fail "no such file or directory";
  CredentialsFromJSON := fun _ => Fail "invalid character";
  Projects_GetAncestry := fun _ => Fail "403";
  Organizations_GetIamPolicy := fun _ =>
    OK (v1beta1.mkPolicy [v1beta1.mkBinding None ["user:a@x.com"] "roles/viewer"] "BwWW");
  Projects_GetIamPolicy := fun _ =>
    OK (v1beta1.mkPolicy [v1beta1.mkBinding None ["user:b@x.com"] "roles/editor"] "BwXX");
  Folders_GetIamPolicy := fun resource =>
    if String.eqb resource "F2" then Fail "503"
    else OK (v2beta1.mkPolicy [v2beta1.mkBinding None ["user:c@x.com"] "roles/viewer"] "BwYY");
  Folders_List := fun _ =>
    ([[v2beta1.mkFolder "F1" "one"; v2beta1.mkFolder "F2" "two"]; [v2beta1.mkFolder "F3" "three"]],
     None);
  Projects_List := fun _ => ([[v1beta1.mkProject "P" "P"]], None);
  Roles_Get := demoRoles;
  Create := fun _ => None;
  Rename := fun _ _ => None;
  Fprintf := fun _ _ => None;
  Flush := fun _ => None;
  Close := None;
  SprintfGoSyntax := fun r => "&main.Row{}"
|}.


(** * Vocabulary of the further properties *)

Definition hasResourceId (a : v1beta1.Ancestor) : bool :=
  match v1beta1.Ancestor_ResourceId a with
  | Some _ => true
  | None => false
  end.

(** The canonical binding with the role and members of a raw one and a
    given condition. *)
Definition canonicalExprV1 (x : v1beta1.Expr) : Expr :=
  mkExpr (v1beta1.Expr_Description x) (v1beta1.Expr_Expression x)
         (v1beta1.Expr_Location x) (v1beta1.Expr_Title x).

Definition canonicalExprV2 (x : v2beta1.Expr) : Expr :=
  mkExpr (v2beta1.Expr_Description x) (v2beta1.Expr_Expression x)
         (v2beta1.Expr_Location x) (v2beta1.Expr_Title x).

(** A project that has no organization above it: it is its own only ancestor. *)
Definition orphanProjectCloud : Cloud :=
  withAncestry (fun _ => OK (AncestorsV1
                               [v1beta1.mkAncestor (Some (v1beta1.mkResourceId "P" "project"))]))
               deadCloud.

(** An ancestry one element of which has no resource id. *)
Definition holeAncestryCloud : Cloud :=
  withAncestry (fun _ => OK (AncestorsV1
                               [v1beta1.mkAncestor (Some (v1beta1.mkResourceId "P" "project"));
                                v1beta1.mkAncestor None]))
               deadCloud.

(** A cloud where much goes wrong: the IAM client cannot be built, the
    temporary file cannot be created, and the listings break after the pages
    they have delivered. *)
Definition brokenListingCloud : Cloud := {|
  NewService_v1beta1 := None;
  NewService_v2beta1 := None;
  NewService_iam := Some "iam: no credentials";
  FindDefaultCredentials := Fail "no default credentials";
  Stat := fun _ => Some "no such file or directory";
  ReadFile := fun _ => Fail "no such file or directory";
  CredentialsFromJSON := fun _ => Fail "invalid character";
  Projects_GetAncestry := fun _ => Fail "403";
  Organizations_GetIamPolicy := fun _ => Fail "403";
  Projects_GetIamPolicy := fun _ => Fail "403";
  Folders_GetIamPolicy := fun _ => Fail "403";
  Folders_List := fun _ =>
    ([[v2beta1.mkFolder "F1" "one"]; [v2beta1.mkFolder "F2" "two"]], Some "503");
  Projects_List := fun _ => ([[v1beta1.mkProject "P" "P"]], Some "503");
  Roles_Get := fun _ => Fail "404";
  Create := fun _ => Some "permission denied";
  Rename := fun _ _ => Some "cross-device link";
  Fprintf := fun _ _ => Some "short write";
  Flush := fun _ => Some "short write";
  Close := Some "bad file descriptor";
  SprintfGoSyntax := fun r => "&main.Row{}"
|}.

(** What one step of the credential lookup presupposes: the file is only
    looked at when a path is given and the default credentials name no
    project, it is read only once [Stat] has succeeded, and only what was
    read is parsed. *)
Definition credentialStep (cloud : Cloud) (credentialsPath : string) (ev : Event) : Prop :=
  match ev with
  | EvFindDefaultCredentials => True
  | EvStat path =>
      path = credentialsPath /\ credentialsPath <> "" /\ defaultProject cloud = None
  | EvReadFile path => path = credentialsPath /\ Stat cloud credentialsPath = None
  | EvCredentialsFromJSON data => ReadFile cloud credentialsPath = OK data
  | EvStdout _ => True
  | _ => False
  end.

(** Default credentials without a project, and a credentials file naming the
    project [Q], whose ancestry cannot be fetched. *)
Definition fileProjectCloud : Cloud := {|
  NewService_v1beta1 := None;
  NewService_v2beta1 := None;
  NewService_iam := None;
  FindDefaultCredentials := OK (google.mkCredentials "");
  Stat := fun path => if String.eqb path "creds.json" then None
                      else Some "no such file or directory";
  ReadFile := fun path => if String.eqb path "creds.json" then OK "{...}"
                          else Fail "no such file or directory";
  CredentialsFromJSON := fun _ => OK (google.mkCredentials "Q");
  Projects_GetAncestry := fun _ => Fail "403";
  Organizations_GetIamPolicy := fun _ => Fail "403";
  Projects_GetIamPolicy := fun _ => Fail "403";
  Folders_GetIamPolicy := fun _ => Fail "403";
  Folders_List := fun _ => ([], Some "403");
  Projects_List := fun _ => ([], Some "403");
  Roles_Get := fun _ => Fail "404";
  Create := fun _ => None;
  Rename := fun _ _ => None;
  Fprintf := fun _ _ => None;
  Flush := fun _ => None;
  Close := None;
  SprintfGoSyntax := fun r => "&main.Row{}"
|}.

Section OutputVocabulary.

Variable cloud : Cloud.

(** Every memoized role is the answer of the role service for its key. *)
Definition cacheSound (w : World) : Prop :=
  forall u r, rm_roleMap (rm w) !! u = Some r -> Roles_Get cloud u = OK r.

(** The resolution of a row by the role service alone, without a memo table. *)
Definition resolveRole (row : Row) : Reply iam.Role :=
  if String.eqb (Row_Type row) "project" || String.eqb (Row_Type row) "organization" then
    match Roles_Get cloud (try_uri_of row) with
    | OK role => OK role
    | Fail _ => Roles_Get cloud (Row_Role row)
    end
  else Roles_Get cloud (Row_Role row).

(** The permissions printed for a row. *)
Definition printedPermissions (row : Row) : list string :=
  match resolveRole row with
  | OK role => iam.Role_IncludedPermissions role
  | Fail _ => ["UNKNOWN"]
  end.

(** The lines of a row. *)
Definition rowLines (row : Row) : list string :=
  map (csvLine (Row_Resource row) (Row_Type row) (Row_Member row) (Row_Role row))
      (printedPermissions row).

(** The lines that the writer takes, up to the first one it refuses. *)
Fixpoint acceptedLines (accepted : list string) (lines : list string) : list string :=
  match lines with
  | [] => []
  | line :: lines' =>
      match Fprintf cloud accepted line with
      | None => line :: acceptedLines (accepted ++ [line]) lines'
      | Some _ => []
      end
  end.

Definition writerAccepts : Prop := forall accepted line, Fprintf cloud accepted line = None.

End OutputVocabulary.

(** A writer with room for two lines, and a role without permissions. *)
Definition smallWriterCloud : Cloud := {|
  NewService_v1beta1 := None;
  NewService_v2beta1 := None;
  NewService_iam := None;
  FindDefaultCredentials := Fail "no default credentials";
  Stat := fun _ => Some "no such file or directory";
  ReadFile := fun _ => Fail "no such file or directory";
  CredentialsFromJSON := fun _ => Fail "invalid character";
  Projects_GetAncestry := fun _ => Fail "403";
  Organizations_GetIamPolicy := fun _ => Fail "403";
  Projects_GetIamPolicy := fun _ => Fail "403";
  Folders_GetIamPolicy := fun _ => Fail "403";
  Folders_List := fun _ => ([], Some "403");
  Projects_List := fun _ => ([], Some "403");
  Roles_Get := fun uri =>
    if String.eqb uri "roles/three" then OK (iam.mkRole "roles/three" "" "" ["p1"; "p2"; "p3"])
    else if String.eqb uri "roles/none" then OK (iam.mkRole "roles/none" "" "" [])
    else Fail "404";
  Create := fun _ => None;
  Rename := fun _ _ => None;
  Fprintf := fun accepted _ => if Nat.ltb (length accepted) 2 then None else Some "short write";
  Flush := fun _ => None;
  Close := None;
  SprintfGoSyntax := fun r => "&main.Row{}"
|}.

Section TierVocabulary.

Variable cloud : Cloud.

(** The rows of the policy of a folder: resource and policy both go by the
    name of the folder. *)
Definition folderPolicyRows (f : v2beta1.Folder) : list Row :=
  match Folders_GetIamPolicy cloud (v2beta1.Folder_Name f) with
  | OK policy =>
      flat_map (rowsOfBinding (v2beta1.Folder_Name f) "folder")
               (map projectV2 (v2beta1.Policy_Bindings policy))
  | Fail _ => []
  end.

(** The rows of the policy of a project: the policy is that of the project
    id, the rows carry the name of the project. *)
Definition projectPolicyRows (p : Project) : list Row :=
  match Projects_GetIamPolicy cloud (Project_ProjectId p) with
  | OK policy =>
      flat_map (rowsOfBinding (Project_Name p) "project")
               (map projectV1 (v1beta1.Policy_Bindings policy))
  | Fail _ => []
  end.

Definition orgPolicyRows (orgId : string) : list Row :=
  match Organizations_GetIamPolicy cloud ("organizations/" +:+ orgId) with
  | OK policy =>
      flat_map (rowsOfBinding orgId "organization")
               (map projectV1 (v1beta1.Policy_Bindings policy))
  | Fail _ => []
  end.

Definition folderPolicyOK (f : v2beta1.Folder) : Prop :=
  exists policy, Folders_GetIamPolicy cloud (v2beta1.Folder_Name f) = OK policy.

Definition projectPolicyOK (p : Project) : Prop :=
  exists policy, Projects_GetIamPolicy cloud (Project_ProjectId p) = OK policy.

Definition folderPolicyCalls (folders : list v2beta1.Folder) : list Event :=
  map (fun f => EvFoldersGetIamPolicy (v2beta1.Folder_Name f)) folders.

Definition projectPolicyCalls (projects : list Project) : list Event :=
  map (fun p => EvProjectsGetIamPolicy (Project_ProjectId p)) projects.

(** The folders, and the projects, that the listings report for an
    organization. *)
Definition listedFolders (orgId : string) : list v2beta1.Folder :=
  concat (fst (Folders_List cloud ("organizations/" +:+ orgId))).

Definition listedProjects (orgId : string) : list Project :=
  map (fun p => mkProject (v1beta1.Project_Name p) (v1beta1.Project_ProjectId p))
      (concat (fst (Projects_List cloud ("parent.type:organization parent.id:" +:+ orgId)))).

End TierVocabulary.

(** [frames P m]: [m] leaves the manager and the writer as they are and adds
    only events satisfying [P] to the trace. *)
Definition frames {A} (P : Event -> Prop) (m : M A) : Prop :=
  forall w,
    rm (outWorld (m w)) = rm w
    /\ written (outWorld (m w)) = written w
    /\ exists evs, trace (outWorld (m w)) = trace w ++ evs /\ Forall P evs.

(** A call of the resource manager services, or a line of the error log. *)
Definition aggregationEvent (ev : Event) : Prop :=
  isListingEvent ev = true \/ exists text, ev = EvLogErr text.

(** A project whose name differs from its id. *)
Definition namedProjectCloud : Cloud := {|
  NewService_v1beta1 := None;
  NewService_v2beta1 := None;
  NewService_iam := None;
  FindDefaultCredentials := Fail "no default credentials";
  Stat := fun _ => Some "no such file or directory";
  ReadFile := fun _ => Fail "no such file or directory";
  CredentialsFromJSON := fun _ => Fail "invalid character";
  Projects_GetAncestry := fun _ => Fail "403";
  Organizations_GetIamPolicy := fun _ => OK (v1beta1.mkPolicy [] "BwWW");
  Projects_GetIamPolicy := fun resource =>
    if String.eqb resource "proj-123"
    then OK (v1beta1.mkPolicy [v1beta1.mkBinding None ["user:b@x.com"] "roles/editor"] "BwXX")
    else Fail "403";
  Folders_GetIamPolicy := fun _ => OK (v2beta1.mkPolicy [] "BwYY");
  Folders_List := fun _ => ([], None);
  Projects_List := fun _ => ([[v1beta1.mkProject "My Project" "proj-123"]], None);
  Roles_Get := demoRoles;
  Create := fun _ => None;
  Rename := fun _ _ => None;
  Fprintf := fun _ _ => None;
  Flush := fun _ => None;
  Close := None;
  SprintfGoSyntax := fun r => "&main.Row{}"
|}.

(** Two projects, the policy of the second of which cannot be retrieved. *)
Definition brokenProjectCloud : Cloud := {|
  NewService_v1beta1 := None;
  NewService_v2beta1 := None;
  NewService_iam := None;
  FindDefaultCredentials := Fail "no default credentials";
  Stat := fun _ => Some "no such file or directory";
  ReadFile := fun _ => Fail "no such file or directory";
  CredentialsFromJSON := fun _ => Fail "invalid character";
  Projects_GetAncestry := fun _ => Fail "403";
  Organizations_GetIamPolicy := fun _ => OK (v1beta1.mkPolicy [] "BwWW");
  Projects_GetIamPolicy := fun resource =>
    if String.eqb resource "alpha-1"
    then OK (v1beta1.mkPolicy [v1beta1.mkBinding None ["user:b@x.com"] "roles/editor"] "BwXX")
    else Fail "403";
  Folders_GetIamPolicy := fun _ => OK (v2beta1.mkPolicy [] "BwYY");
  Folders_List := fun _ => ([], None);
  Projects_List := fun _ =>
    ([[v1beta1.mkProject "Alpha" "alpha-1"; v1beta1.mkProject "Beta" "beta-2"]], None);
  Roles_Get := demoRoles;
  Create := fun _ => None;
  Rename := fun _ _ => None;
  Fprintf := fun _ _ => None;
  Flush := fun _ => None;
  Close := None;
  SprintfGoSyntax := fun r => "&main.Row{}"
|}.

Definition csvHeader : string := csvLine "Resource" "Type" "Member" "Role" "Permission".

(** The world in which the aggregation of [printToCsv] starts, when the
    organization id is given: the header is written and the manager built. *)
Definition afterSetup (filename orgId : string) (w : World) : World :=
  mkWorld (mkResourceManager orgId ∅) (written w ++ [csvHeader])
          (trace w ++ [EvStat filename; EvCreate ("tmp." +:+ filename);
                       EvNewService "cloudresourcemanager/v1beta1";
                       EvNewService "cloudresourcemanager/v2beta1";
                       EvNewService "iam/v1"]).

(** The output file can be created and closed, the temporary file renamed. *)
Definition fileSystemUp (cloud : Cloud) (filename : string) : Prop :=
  Stat cloud filename <> None
  /\ Create cloud ("tmp." +:+ filename) = None
  /\ Rename cloud ("tmp." +:+ filename) filename = None
  /\ (forall accepted, Flush cloud accepted = None)
  /\ Close cloud = None.

(** * Properties *)

(** ** Stepping through the monad *)

Lemma bind_Done {A B} (m : M A) (k : A -> M B) w a w' :
  m w = Done a w' -> (m ≫= k) w = k a w'.
Proof. intros H. unfold mbind, M_bind. now rewrite H. Qed.

Ltac munfold :=
  unfold mbind, M_bind, ret, mret, M_ret, panic, emit, getRm, putRm, set_orgId,
    set_roleMap, logerr_Printf, fmt_Println, fmt_Printf, timeTrack in *.

Ltac msimpl := munfold; cbn -[String.append printLines printRows].

(** ** Flattening (C3) *)

Section Flattening.

Lemma members_loop resource resType role members rows :
  fold_left (fun rows m => rows ++ [mkRow resource resType role m]) members rows
  = rows ++ map (fun m => mkRow resource resType role m) members.
Proof.
  revert rows. induction members as [|m members IH]; intros rows; simpl.
  - now rewrite app_nil_r.
  - rewrite IH. now rewrite <- app_assoc.
Qed.

Lemma addBindings_flat_map bindings rows resource resType :
  addBindings bindings rows resource resType
  = rows ++ flat_map (rowsOfBinding resource resType) bindings.
Proof.
  unfold addBindings. revert rows.
  induction bindings as [|b bindings IH]; intros rows; simpl.
  - now rewrite app_nil_r.
  - rewrite IH, members_loop. unfold rowsOfBinding. now rewrite <- app_assoc.
Qed.

Lemma addBindings_Type bindings rows resource resType :
  Forall (fun r => Row_Type r = resType) rows ->
  Forall (fun r => Row_Type r = resType) (addBindings bindings rows resource resType).
Proof.
  intros H. rewrite addBindings_flat_map. apply Forall_app. split; [exact H|].
  apply Forall_flat_map. apply Forall_forall. intros b _.
  unfold rowsOfBinding. apply Forall_map. now apply Forall_forall.
Qed.

Lemma length_flat_rows resource resType bindings :
  length (flat_map (rowsOfBinding resource resType) bindings) = memberCount bindings.
Proof.
  unfold memberCount. induction bindings as [|b bindings IH]; simpl; [reflexivity|].
  rewrite length_app, IH. unfold rowsOfBinding. now rewrite length_map.
Qed.

End Flattening.

(** C3. Flattening is a fan-out of the bindings in order: the rows added are,
    binding after binding, one row per member in member order; their number
    is the sum of the member counts; and nothing is deduplicated, so a
    binding that occurs twice contributes its rows twice. *)
Theorem addBindings_fan_out (bindings : list Binding) (rows : list Row)
    (resource resType : string) :
  addBindings bindings rows resource resType
  = rows ++ flat_map (fun b => map (fun m => mkRow resource resType (Binding_Role b) m)
                                   (Binding_Members b)) bindings
  /\ length (addBindings bindings [] resource resType)
     = list_sum (map (fun b => length (Binding_Members b)) bindings)
  /\ (forall b1 b2 m,
        Binding_Role b1 = Binding_Role b2 ->
        In m (Binding_Members b1) -> In m (Binding_Members b2) ->
        exists pre mid post,
          addBindings [b1; b2] [] resource resType
          = pre ++ mkRow resource resType (Binding_Role b1) m
                :: mid ++ mkRow resource resType (Binding_Role b1) m :: post).
Proof.
  split; [|split].
  - apply addBindings_flat_map.
  - rewrite addBindings_flat_map. simpl. apply length_flat_rows.
  - intros b1 b2 m Hrole H1 H2.
    rewrite addBindings_flat_map. simpl. rewrite app_nil_r.
    apply (in_map (fun m => mkRow resource resType (Binding_Role b1) m)) in H1.
    apply (in_map (fun m => mkRow resource resType (Binding_Role b2) m)) in H2.
    rewrite <- Hrole in H2.
    apply in_split in H1 as (p1 & q1 & E1). apply in_split in H2 as (p2 & q2 & E2).
    exists p1, (q1 ++ p2), q2. unfold rowsOfBinding. rewrite E1.
    rewrite <- Hrole, E2. rewrite <- !app_assoc. reflexivity.
Qed.

Lemma addBindings_fan_out_witness :
  addBindings [mkBinding None ["user:a"] "roles/viewer"; mkBinding None ["user:a"] "roles/viewer"]
              [] "O" "organization"
  = [mkRow "O" "organization" "roles/viewer" "user:a";
     mkRow "O" "organization" "roles/viewer" "user:a"]
  /\ exists pre mid post,
       addBindings [mkBinding None ["user:a"] "roles/viewer";
                    mkBinding None ["user:a"] "roles/viewer"] [] "O" "organization"
       = pre ++ mkRow "O" "organization" "roles/viewer" "user:a"
             :: mid ++ mkRow "O" "organization" "roles/viewer" "user:a" :: post.
Proof.
  split; [reflexivity|].
  apply (proj2 (proj2 (addBindings_fan_out
           [mkBinding None ["user:a"] "roles/viewer"; mkBinding None ["user:a"] "roles/viewer"]
           [] "O" "organization"))
         (mkBinding None ["user:a"] "roles/viewer") (mkBinding None ["user:a"] "roles/viewer")
         "user:a").
  - reflexivity.
  - simpl. left. reflexivity.
  - simpl. left. reflexivity.
Defined.

(** ** Normalizing (C2) *)

Section Normalizing.

Lemma forM_pure {A B} (f : A -> M B) (g : A -> B) (xs : list A) w :
  (forall x w, f x w = Done (g x) w) -> forM f xs w = Done (map g xs) w.
Proof.
  intros Hf. induction xs as [|x xs IH]; simpl; [reflexivity|].
  rewrite (bind_Done _ _ _ _ _ (Hf x w)). rewrite (bind_Done _ _ _ _ _ IH). reflexivity.
Qed.

Lemma Binding_convertV1_zero binding w :
  Binding_convertV1 zeroBinding binding w = Done (projectV1 binding) w.
Proof. reflexivity. Qed.

Lemma Binding_convertV2_zero binding w :
  Binding_convertV2 zeroBinding binding w = Done (projectV2 binding) w.
Proof. reflexivity. Qed.

Lemma Policy_convertV1_zero policy w :
  Policy_convertV1 zeroPolicy policy w
  = Done (mkPolicy (map projectV1 (v1beta1.Policy_Bindings policy)) (v1beta1.Policy_Etag policy)) w.
Proof.
  unfold Policy_convertV1, Policy_convertBindingsV1.
  rewrite (bind_Done _ _ _ _ _ (forM_pure _ projectV1 _ w Binding_convertV1_zero)).
  reflexivity.
Qed.

Lemma Policy_convertV2_zero policy w :
  Policy_convertV2 zeroPolicy policy w
  = Done (mkPolicy (map projectV2 (v2beta1.Policy_Bindings policy)) (v2beta1.Policy_Etag policy)) w.
Proof.
  unfold Policy_convertV2, Policy_convertBindingsV2.
  rewrite (bind_Done _ _ _ _ _ (forM_pure _ projectV2 _ w Binding_convertV2_zero)).
  reflexivity.
Qed.

End Normalizing.

(** C2. What the code does with a source condition: every binding of a
    policy is converted into a fresh [Binding], whose own condition is nil,
    and the test that guards the copy looks at that fresh condition; so the
    canonical binding never carries a condition, whether the source binding
    has one or not, for both schema variants. *)
Theorem convert_drops_condition (p1 : v1beta1.Policy) (p2 : v2beta1.Policy) (w : World) :
  (exists bs, Policy_convertV1 zeroPolicy p1 w = Done (mkPolicy bs (v1beta1.Policy_Etag p1)) w
              /\ Forall (fun b => Binding_Condition b = None) bs
              /\ length bs = length (v1beta1.Policy_Bindings p1))
  /\ (exists bs, Policy_convertV2 zeroPolicy p2 w = Done (mkPolicy bs (v2beta1.Policy_Etag p2)) w
                 /\ Forall (fun b => Binding_Condition b = None) bs
                 /\ length bs = length (v2beta1.Policy_Bindings p2))
  /\ Binding_convertV1 zeroBinding
       (v1beta1.mkBinding (Some (v1beta1.mkExpr "d" "request.time < t" "l" "expires")) ["user:a"]
                          "roles/viewer") w
     = Done (mkBinding None ["user:a"] "roles/viewer") w.
Proof.
  split; [|split].
  - eexists. split; [apply Policy_convertV1_zero|]. split.
    + apply Forall_map. now apply Forall_forall.
    + apply length_map.
  - eexists. split; [apply Policy_convertV2_zero|]. split.
    + apply Forall_map. now apply Forall_forall.
    + apply length_map.
  - reflexivity.
Qed.

(** ** Role resolution (C1, C5, C6) *)

Section Resolution.

Variable cloud : Cloud.

Lemma _getRoleByUri_spec uri w :
  _getRoleByUri cloud uri w
  = Done (match lookupRole cloud w uri with
          | OK role => (Some role, None)
          | Fail e => (None, Some (lookupError uri e))
          end) (afterLookup cloud w uri).
Proof.
  unfold _getRoleByUri, lookupRole, afterLookup, lookupError. munfold. simpl.
  destruct (rm_roleMap (rm w) !! uri) as [role|]; [reflexivity|].
  destruct (Roles_Get cloud uri); reflexivity.
Qed.

Lemma afterLookup_Fail w uri e :
  lookupRole cloud w uri = Fail e ->
  rm (afterLookup cloud w uri) = rm w
  /\ written (afterLookup cloud w uri) = written w
  /\ trace (afterLookup cloud w uri) = trace w ++ [EvRolesGet uri].
Proof.
  unfold lookupRole, afterLookup.
  destruct (rm_roleMap (rm w) !! uri); [discriminate|].
  destruct (Roles_Get cloud uri); [discriminate|]. intros _. now simpl.
Qed.

Lemma afterLookup_trace w uri :
  trace (afterLookup cloud w uri) = trace w ++ lookupCalls w uri.
Proof.
  unfold afterLookup, lookupCalls.
  destruct (rm_roleMap (rm w) !! uri); [now rewrite app_nil_r|].
  destruct (Roles_Get cloud uri); reflexivity.
Qed.

Lemma afterLookup_written w uri : written (afterLookup cloud w uri) = written w.
Proof.
  unfold afterLookup.
  destruct (rm_roleMap (rm w) !! uri); [reflexivity|].
  destruct (Roles_Get cloud uri); reflexivity.
Qed.

(** A successful lookup leaves the role under the URI that was looked up,
    and touches no other key. *)
Lemma afterLookup_OK w uri role :
  lookupRole cloud w uri = OK role ->
  rm_roleMap (rm (afterLookup cloud w uri)) !! uri = Some role
  /\ forall u, u <> uri ->
       rm_roleMap (rm (afterLookup cloud w uri)) !! u = rm_roleMap (rm w) !! u.
Proof.
  unfold lookupRole, afterLookup.
  destruct (rm_roleMap (rm w) !! uri) as [r|] eqn:E.
  - intros [= ->]. now split.
  - intros ->. simpl. split; [apply lookup_insert_eq|].
    intros u Hu. now apply lookup_insert_ne.
Qed.

Lemma lookupRole_same_map w w' uri :
  rm w' = rm w -> lookupRole cloud w' uri = lookupRole cloud w uri.
Proof. unfold lookupRole. now intros ->. Qed.

Lemma lookupCalls_same_map w w' uri : rm w' = rm w -> lookupCalls w' uri = lookupCalls w uri.
Proof. unfold lookupCalls. now intros ->. Qed.

Lemma scopedKind_test row :
  (String.eqb (Row_Type row) "project" || String.eqb (Row_Type row) "organization" = true)
  <-> scopedKind row.
Proof.
  unfold scopedKind. rewrite orb_true_iff, !String.eqb_eq. reflexivity.
Qed.

Lemma GetRole_scoped_OK row w role :
  scopedKind row ->
  lookupRole cloud w (try_uri_of row) = OK role ->
  GetRole cloud row w = Done (Some role, None) (afterLookup cloud w (try_uri_of row)).
Proof.
  intros Hk Hl. apply scopedKind_test in Hk. unfold GetRole. rewrite Hk.
  rewrite (bind_Done _ _ _ _ _ (_getRoleByUri_spec _ w)). now rewrite Hl.
Qed.

Lemma GetRole_verbatim row w :
  (scopedKind row -> exists e, lookupRole cloud w (try_uri_of row) = Fail e) ->
  GetRole cloud row w
  = Done (match lookupRole cloud w (Row_Role row) with
          | OK role => (Some role, None)
          | Fail e => (Some iam.zeroRole, Some (lookupError (Row_Role row) e))
          end) (afterLookup cloud (beforeVerbatim cloud row w) (Row_Role row)).
Proof.
  intros Hs. unfold GetRole, beforeVerbatim.
  destruct (String.eqb (Row_Type row) "project" || String.eqb (Row_Type row) "organization")
    eqn:Hk.
  - apply scopedKind_test in Hk. destruct (Hs Hk) as [e He].
    rewrite (bind_Done _ _ _ _ _ (_getRoleByUri_spec _ w)). rewrite He.
    rewrite (bind_Done _ _ _ _ _ (_getRoleByUri_spec _ _)).
    destruct (afterLookup_Fail _ _ _ He) as (Hrm & _ & _).
    rewrite (lookupRole_same_map _ _ _ Hrm).
    destruct (lookupRole cloud w (Row_Role row)); reflexivity.
  - rewrite (bind_Done _ _ _ _ _ (_getRoleByUri_spec _ w)).
    destruct (lookupRole cloud w (Row_Role row)); reflexivity.
Qed.

Lemma length_append (s1 s2 : string) :
  String.length (s1 +:+ s2) = String.length s1 + String.length s2.
Proof. induction s1 as [|c s1 IH]; simpl; [reflexivity|]. now rewrite IH. Qed.

Lemma try_uri_not_verbatim row : try_uri_of row <> Row_Role row.
Proof.
  intros H. apply (f_equal String.length) in H. unfold try_uri_of in H.
  rewrite !length_append in H. simpl in H. lia.
Qed.

End Resolution.

(** C5. [GetRole] always returns. For a row of a project or an organization
    the scoped lookup comes first: if it succeeds its role is the result and
    nothing else is asked of the role service; if it fails, the resolution
    goes on with the verbatim lookup, whose answer decides the result. For
    any other kind of row (a folder) the verbatim lookup is the only one.
    The resolution returns an error exactly when every lookup it attempted
    failed. *)
Theorem GetRole_lookup_order (cloud : Cloud) (row : Row) (w : World) :
  exists res w',
    GetRole cloud row w = Done res w'
    /\ (scopedKind row ->
        forall role, lookupRole cloud w (try_uri_of row) = OK role ->
          res = (Some role, None)
          /\ trace w' = trace w ++ lookupCalls w (try_uri_of row))
    /\ (scopedKind row ->
        forall e, lookupRole cloud w (try_uri_of row) = Fail e ->
          trace w' = trace w ++ [EvRolesGet (try_uri_of row)] ++ lookupCalls w (Row_Role row)
          /\ (forall role, lookupRole cloud w (Row_Role row) = OK role ->
                res = (Some role, None))
          /\ (snd res <> None <-> exists e', lookupRole cloud w (Row_Role row) = Fail e'))
    /\ (~ scopedKind row ->
        trace w' = trace w ++ lookupCalls w (Row_Role row)
        /\ (forall role, lookupRole cloud w (Row_Role row) = OK role -> res = (Some role, None))
        /\ (snd res <> None <-> exists e', lookupRole cloud w (Row_Role row) = Fail e')).
Proof.
  destruct (lookupRole cloud w (try_uri_of row)) as [role|e] eqn:Hs.
  - destruct (String.eqb (Row_Type row) "project" || String.eqb (Row_Type row) "organization")
      eqn:Hk.
    + apply scopedKind_test in Hk. eexists _, _. split; [eapply GetRole_scoped_OK; eassumption|].
      split; [|split].
      * intros _ role' [= <-]. split; [reflexivity|]. apply afterLookup_trace.
      * intros _ e [=].
      * intros Hn. now destruct Hn.
    + assert (Hn : ~ scopedKind row).
      { intros H. apply scopedKind_test in H. congruence. }
      eexists _, _. split; [apply GetRole_verbatim; intros H; now destruct Hn|].
      split; [|split]; try (intros H; now destruct Hn). intros _.
      unfold beforeVerbatim. rewrite Hk. split; [apply afterLookup_trace|].
      destruct (lookupRole cloud w (Row_Role row)) as [r|e']; simpl.
      * split; [now intros ? [= <-]|]. split; [congruence|]. now intros [? [=]].
      * split; [now intros ? [=]|]. split; [eauto|congruence].
  - eexists _, _. split; [apply GetRole_verbatim; eauto|].
    unfold beforeVerbatim.
    destruct (String.eqb (Row_Type row) "project" || String.eqb (Row_Type row) "organization")
      eqn:Hk.
    + destruct (afterLookup_Fail _ _ _ _ Hs) as (Hrm & _ & Htr).
      split; [|split].
      * intros _ role [=].
      * intros _ e0 _. rewrite afterLookup_trace, Htr, (lookupCalls_same_map _ _ _ Hrm).
        split; [now rewrite <- app_assoc|].
        destruct (lookupRole cloud w (Row_Role row)) as [r|e']; simpl.
        -- split; [now intros ? [= <-]|]. split; [congruence|]. now intros [? [=]].
        -- split; [now intros ? [=]|]. split; [eauto|congruence].
      * intros Hn. apply scopedKind_test in Hk. now destruct Hn.
    + assert (Hn : ~ scopedKind row).
      { intros H. apply scopedKind_test in H. congruence. }
      split; [|split]; try (intros H; now destruct Hn). intros _.
      split; [apply afterLookup_trace|].
      destruct (lookupRole cloud w (Row_Role row)) as [r|e']; simpl.
      * split; [now intros ? [= <-]|]. split; [congruence|]. now intros [? [=]].
      * split; [now intros ? [=]|]. split; [eauto|congruence].
Qed.

Lemma GetRole_lookup_order_witness :
  exists w',
    GetRole demoCloud (mkRow "P" "project" "roles/myrole" "user:a") emptyWorld
    = Done (Some customRole, None) w'
    /\ trace w' = [EvRolesGet "projects/P/roles/myrole"].
Proof.
  destruct (GetRole_lookup_order demoCloud (mkRow "P" "project" "roles/myrole" "user:a")
              emptyWorld) as (res & w' & Hrun & Hscoped & _ & _).
  destruct (Hscoped (or_introl eq_refl) customRole eq_refl) as [-> Htr].
  exists w'. split; [exact Hrun | exact Htr].
Defined.

(** C1. For a row of a project or an organization, the scoped candidate is
    the kind followed by [s/], the resource id, [/] and the role reference as
    it stands (no [roles/] segment is put in between). When the lookup of
    that URI succeeds, its role is the result, the bare role reference is
    neither asked of the role service nor memoized, and when the scoped URI
    is not memoized yet it is the first call made to the role service. *)
Theorem GetRole_scoped_first (cloud : Cloud) (row : Row) (w : World) :
  scopedKind row ->
  let scoped := Row_Type row +:+ "s/" +:+ Row_Resource row +:+ "/" +:+ Row_Role row in
  (forall role, lookupRole cloud w scoped = OK role ->
     exists w', GetRole cloud row w = Done (Some role, None) w'
                /\ trace w' = trace w ++ lookupCalls w scoped
                /\ ~ In (EvRolesGet (Row_Role row)) (lookupCalls w scoped)
                /\ rm_roleMap (rm w') !! Row_Role row = rm_roleMap (rm w) !! Row_Role row)
  /\ (rm_roleMap (rm w) !! scoped = None ->
      exists res w' rest, GetRole cloud row w = Done res w'
                          /\ trace w' = trace w ++ EvRolesGet scoped :: rest).
Proof.
  intros Hk scoped. fold (try_uri_of row) in scoped. subst scoped. split.
  - intros role Hl. eexists. split; [now apply GetRole_scoped_OK|].
    split; [apply afterLookup_trace|]. split.
    + unfold lookupCalls. destruct (rm_roleMap (rm w) !! try_uri_of row); simpl; [tauto|].
      intros [[= H]|[]]. now apply (try_uri_not_verbatim row).
    + apply (afterLookup_OK _ _ _ _ Hl). intros H. now apply (try_uri_not_verbatim row).
  - intros Hnone.
    destruct (lookupRole cloud w (try_uri_of row)) as [role|e] eqn:Hl.
    + eexists _, _, []. split; [eapply GetRole_scoped_OK; eassumption|].
      rewrite afterLookup_trace. unfold lookupCalls. now rewrite Hnone.
    + eexists _, _, _. split; [apply GetRole_verbatim; eauto|].
      rewrite afterLookup_trace. unfold beforeVerbatim.
      rewrite (proj2 (scopedKind_test row) Hk).
      destruct (afterLookup_Fail _ _ _ _ Hl) as (_ & _ & ->).
      rewrite <- app_assoc. reflexivity.
Qed.

Lemma GetRole_scoped_first_witness :
  exists w',
    GetRole demoCloud (mkRow "P" "project" "roles/myrole" "user:a") emptyWorld
    = Done (Some customRole, None) w'
    /\ trace w' = [EvRolesGet "projects/P/roles/myrole"]
    /\ rm_roleMap (rm w') !! "roles/myrole" = None.
Proof.
  destruct (proj1 (GetRole_scoped_first demoCloud (mkRow "P" "project" "roles/myrole" "user:a")
                     emptyWorld (or_introl eq_refl)) customRole eq_refl)
    as (w' & Hrun & Htr & _ & Hmap).
  exists w'. split; [exact Hrun|]. split; [exact Htr | exact Hmap].
Defined.

(** The candidate of C1 with a [roles/] segment is not the one the code
    tries: with the custom role [myrole] of project [P] known to the role
    service as [projects/P/roles/myrole], the row (project, [P], [myrole])
    is looked up as [projects/P/myrole], then as [myrole], and fails. *)
Lemma GetRole_scoped_first_counterexample :
  Roles_Get demoCloud "projects/P/roles/myrole" = OK customRole
  /\ try_uri_of (mkRow "P" "project" "myrole" "user:a") <> "projects/P/roles/myrole"
  /\ exists w',
       GetRole demoCloud (mkRow "P" "project" "myrole" "user:a") emptyWorld
       = Done (Some iam.zeroRole, Some "uri[myrole]: 404") w'
       /\ trace w' = [EvRolesGet "projects/P/myrole"; EvRolesGet "myrole"].
Proof.
  split; [reflexivity|]. split; [discriminate|].
  eexists. split; reflexivity.
Qed.

(** ** Memoization (C6) and printing (C9) *)

Section Memoization.

Variable cloud : Cloud.

Lemma cacheGrows_refl w : cacheGrows cloud w w.
Proof. intros u. split; [auto|]. intros H r Hr. congruence. Qed.

Lemma cacheGrows_same w w' : rm w' = rm w -> cacheGrows cloud w w'.
Proof. intros H u. rewrite H. apply cacheGrows_refl. Qed.

Lemma cacheGrows_trans w1 w2 w3 :
  cacheGrows cloud w1 w2 -> cacheGrows cloud w2 w3 -> cacheGrows cloud w1 w3.
Proof.
  intros H12 H23 u. destruct (H12 u) as [K12 N12]. destruct (H23 u) as [K23 N23].
  split; [auto|]. intros Hn r Hr.
  destruct (rm_roleMap (rm w2) !! u) as [r2|] eqn:E2.
  - rewrite (K23 r2 eq_refl) in Hr. injection Hr as <-. now apply N12.
  - now apply N23.
Qed.

Lemma afterLookup_grows w uri : cacheGrows cloud w (afterLookup cloud w uri).
Proof.
  unfold afterLookup. destruct (rm_roleMap (rm w) !! uri) as [r0|] eqn:E.
  - apply cacheGrows_refl.
  - destruct (Roles_Get cloud uri) as [role|e] eqn:Hg; [|now apply cacheGrows_same].
    intros u. simpl. destruct (decide (uri = u)) as [->|Hne].
    + rewrite lookup_insert_eq. split; [congruence|]. now intros _ r [= <-].
    + rewrite lookup_insert_ne by exact Hne. apply cacheGrows_refl.
Qed.

(** The two ways [GetRole] can go. *)
Lemma GetRole_shape row w :
  (exists role, scopedKind row
                /\ lookupRole cloud w (try_uri_of row) = OK role
                /\ GetRole cloud row w
                   = Done (Some role, None) (afterLookup cloud w (try_uri_of row)))
  \/ ((scopedKind row -> exists e, lookupRole cloud w (try_uri_of row) = Fail e)
      /\ GetRole cloud row w
         = Done (match lookupRole cloud w (Row_Role row) with
                 | OK role => (Some role, None)
                 | Fail e => (Some iam.zeroRole, Some (lookupError (Row_Role row) e))
                 end) (afterLookup cloud (beforeVerbatim cloud row w) (Row_Role row))).
Proof.
  destruct (String.eqb (Row_Type row) "project" || String.eqb (Row_Type row) "organization")
    eqn:Hk.
  - apply scopedKind_test in Hk.
    destruct (lookupRole cloud w (try_uri_of row)) as [role|e] eqn:Hl.
    + left. exists role. repeat split; [exact Hk|]. now apply GetRole_scoped_OK.
    + right. split; [eauto|]. apply GetRole_verbatim. eauto.
  - assert (Hn : ~ scopedKind row).
    { intros H. apply scopedKind_test in H. congruence. }
    right. split; [intros H; now destruct Hn|]. apply GetRole_verbatim.
    intros H; now destruct Hn.
Qed.

Lemma beforeVerbatim_grows row w : cacheGrows cloud w (beforeVerbatim cloud row w).
Proof.
  unfold beforeVerbatim.
  destruct (String.eqb (Row_Type row) "project" || String.eqb (Row_Type row) "organization").
  - apply afterLookup_grows.
  - apply cacheGrows_refl.
Qed.

Lemma beforeVerbatim_written row w : written (beforeVerbatim cloud row w) = written w.
Proof.
  unfold beforeVerbatim.
  destruct (String.eqb (Row_Type row) "project" || String.eqb (Row_Type row) "organization");
    [apply afterLookup_written | reflexivity].
Qed.

Lemma GetRole_total row w :
  exists res w',
    GetRole cloud row w = Done res w'
    /\ cacheGrows cloud w w'
    /\ written w' = written w
    /\ (exists role, fst res = Some role).
Proof.
  destruct (GetRole_shape row w) as [(role & _ & _ & ->)|[_ ->]].
  - eexists _, _. split; [reflexivity|]. split; [apply afterLookup_grows|].
    split; [apply afterLookup_written|]. now exists role.
  - eexists _, _. split; [reflexivity|]. split.
    { eapply cacheGrows_trans; [apply beforeVerbatim_grows | apply afterLookup_grows]. }
    split; [now rewrite afterLookup_written, beforeVerbatim_written|].
    destruct (lookupRole cloud w (Row_Role row)); simpl; eauto.
Qed.

Lemma GetRolePermissions_of_GetRole row w res w' :
  GetRole cloud row w = Done res w' ->
  GetRolePermissions cloud row w
  = match res with
    | (_, Some e) => Done ([], Some ("row: " +:+ SprintfGoSyntax cloud row +:+ ", " +:+ e)) w'
    | (Some role, None) => Done (iam.Role_IncludedPermissions role, None) w'
    | (None, None) => Panic "invalid memory address or nil pointer dereference" w'
    end.
Proof.
  intros H. unfold GetRolePermissions. rewrite (bind_Done _ _ _ _ _ H).
  destruct res as [[role|] [e|]]; reflexivity.
Qed.

Lemma GetRolePermissions_total row w :
  exists perms err w',
    GetRolePermissions cloud row w = Done (perms, err) w'
    /\ cacheGrows cloud w w'
    /\ written w' = written w.
Proof.
  destruct (GetRole_total row w) as ([r err] & w' & Hrun & Hg & Hw & role & Hrole).
  simpl in Hrole. subst r. rewrite (GetRolePermissions_of_GetRole _ _ _ _ Hrun).
  destruct err; eexists _, _, _; eauto.
Qed.

Lemma printLines_total r perms w :
  exists w', printLines cloud r perms w = Done tt w'
             /\ rm w' = rm w /\ trace w' = trace w.
Proof.
  revert w. induction perms as [|p perms IH]; intros w; simpl.
  - now exists w.
  - unfold mbind, M_bind, fmt_Fprintf.
    destruct (Fprintf cloud (written w) _).
    + now exists w.
    + match goal with
      | |- exists w', printLines _ _ _ ?W = _ /\ _ => destruct (IH W) as (w' & H1 & H2 & H3)
      end.
      exists w'. split; [exact H1|]. split; [exact H2 | exact H3].
Qed.

Lemma Row_Print_total row w :
  exists err w', Row_Print cloud row w = Done err w' /\ cacheGrows cloud w w'.
Proof.
  destruct (GetRolePermissions_total row w) as (perms & err & w1 & Hrun & Hg & _).
  unfold Row_Print. rewrite (bind_Done _ _ _ _ _ Hrun).
  destruct err as [e|]; msimpl;
    match goal with
    | |- context [printLines _ ?r ?p ?W] =>
        destruct (printLines_total r p W) as (w2 & -> & Hrm & _)
    end;
    (eexists _, _; split; [reflexivity|]);
    (eapply cacheGrows_trans; [exact Hg|]); now apply cacheGrows_same.
Qed.

Lemma printRows_step row rows w err w1 :
  Row_Print cloud row w = Done err w1 ->
  printRows cloud (row :: rows) w
  = printRows cloud rows
      (match err with
       | Some e => mkWorld (rm w1) (written w1) (trace w1 ++ [EvLogErr ("Error: " +:+ e +:+ nl)])
       | None => w1
       end).
Proof.
  intros Hrun. cbn [printRows].
  rewrite (bind_Done _ _ _ _ _ Hrun).
  destruct err; reflexivity.
Qed.

Lemma printRows_total rows w :
  exists w', printRows cloud rows w = Done tt w' /\ cacheGrows cloud w w'.
Proof.
  revert w. induction rows as [|row rows IH]; intros w.
  - exists w. split; [reflexivity | apply cacheGrows_refl].
  - destruct (Row_Print_total row w) as (err & w1 & Hrun & Hg).
    rewrite (printRows_step _ _ _ _ _ Hrun).
    match goal with |- context [printRows _ _ ?W] => destruct (IH W) as (w2 & -> & Hg2) end.
    exists w2. split; [reflexivity|].
    eapply cacheGrows_trans; [exact Hg|].
    eapply cacheGrows_trans; [|exact Hg2]. destruct err; now apply cacheGrows_same.
Qed.

Lemma printRows_app rows1 rows2 w w1 :
  printRows cloud rows1 w = Done tt w1 ->
  printRows cloud (rows1 ++ rows2) w = printRows cloud rows2 w1.
Proof.
  revert w. induction rows1 as [|row rows1 IH]; intros w H.
  - simpl in H. now injection H as ->.
  - destruct (Row_Print_total row w) as (err & w' & Hrun & _).
    simpl app. rewrite (printRows_step _ _ _ _ _ Hrun) in H.
    rewrite (printRows_step _ _ _ _ _ Hrun). now apply IH.
Qed.

Lemma lookupRole_Fail_inv w u e :
  lookupRole cloud w u = Fail e -> rm_roleMap (rm w) !! u = None /\ Roles_Get cloud u = Fail e.
Proof. unfold lookupRole. destruct (rm_roleMap (rm w) !! u); [discriminate|auto]. Qed.

Lemma lookupRole_cached w u r :
  rm_roleMap (rm w) !! u = Some r -> lookupRole cloud w u = OK r /\ afterLookup cloud w u = w.
Proof. unfold lookupRole, afterLookup. now intros ->. Qed.

Lemma beforeVerbatim_failed row w :
  (scopedKind row -> exists e, lookupRole cloud w (try_uri_of row) = Fail e) ->
  rm (beforeVerbatim cloud row w) = rm w
  /\ (trace (beforeVerbatim cloud row w) = trace w
      \/ trace (beforeVerbatim cloud row w) = trace w ++ [EvRolesGet (try_uri_of row)]).
Proof.
  intros Hs. unfold beforeVerbatim.
  destruct (String.eqb (Row_Type row) "project" || String.eqb (Row_Type row) "organization")
    eqn:Hk; [|auto].
  apply scopedKind_test in Hk. destruct (Hs Hk) as [e He].
  destruct (afterLookup_Fail _ _ _ _ He) as (Hrm & _ & Htr). auto.
Qed.




End Memoization.




Section Printing.

Variable cloud : Cloud.

Lemma GetRolePermissions_unresolved row w :
  unresolvable cloud w row ->
  exists e w1,
    GetRolePermissions cloud row w = Done ([], Some e) w1
    /\ written w1 = written w.
Proof.
  intros [Hs [e He]]. fold (try_uri_of row) in Hs.
  pose proof (GetRole_verbatim cloud row w Hs) as Hget. rewrite He in Hget.
  rewrite (GetRolePermissions_of_GetRole _ _ _ _ _ Hget).
  eexists _, _. split; [reflexivity|].
  now rewrite afterLookup_written, beforeVerbatim_written.
Qed.

End Printing.

(** C9. A row whose candidate URIs all fail is still printed: [Print] writes
    the single line of the row with the permission [UNKNOWN] (the writer
    accepting it), logs the failure with the role reference of the row, and
    returns; the loop of [printToCsv] logs the returned error and goes on
    with the rows that follow, up to the last one. *)
Theorem Row_Print_unresolved (cloud : Cloud) (pre : list Row) (row : Row) (rest : list Row)
    (w0 w : World) :
  printRows cloud pre w0 = Done tt w ->
  unresolvable cloud w row ->
  Fprintf cloud (written w)
    (csvLine (Row_Resource row) (Row_Type row) (Row_Member row) (Row_Role row) "UNKNOWN") = None ->
  exists e w1 w2,
    Row_Print cloud row w = Done (Some e) w1
    /\ written w1
       = written w ++ [csvLine (Row_Resource row) (Row_Type row) (Row_Member row)
                               (Row_Role row) "UNKNOWN"]
    /\ In (EvLogErr ("Error: Error getting permissions for " +:+ Row_Role row +:+ nl)) (trace w1)
    /\ printRows cloud (pre ++ row :: rest) w0
       = printRows cloud rest
           (mkWorld (rm w1) (written w1) (trace w1 ++ [EvLogErr ("Error: " +:+ e +:+ nl)]))
    /\ printRows cloud (pre ++ row :: rest) w0 = Done tt w2.
Proof.
  intros Hpre Hun Hwr.
  destruct (GetRolePermissions_unresolved cloud row w Hun) as (e & w1 & Hrun & Hw).
  assert (Hprint : Row_Print cloud row w
                   = Done (Some e)
                       (mkWorld (rm w1)
                          (written w1 ++ [csvLine (Row_Resource row) (Row_Type row)
                                                  (Row_Member row) (Row_Role row) "UNKNOWN"])
                          (trace w1 ++ [EvLogErr ("Error: Error getting permissions for "
                                                  +:+ Row_Role row +:+ nl)]))).
  { unfold Row_Print. rewrite (bind_Done _ _ _ _ _ Hrun). msimpl.
    cbn [printLines]. unfold mbind, M_bind, fmt_Fprintf. cbn [written].
    rewrite Hw, Hwr. reflexivity. }
  destruct (printRows_total cloud (pre ++ row :: rest) w0) as (w2 & Hall & _).
  eexists e, _, w2. split; [exact Hprint|]. cbn [written trace rm].
  split; [now rewrite Hw|]. split; [apply in_or_app; right; now left|].
  split; [|exact Hall].
  rewrite (printRows_app _ _ _ _ _ Hpre). now rewrite (printRows_step _ _ _ _ _ _ Hprint).
Qed.

Lemma Row_Print_unresolved_witness :
  exists e w1,
    Row_Print demoCloud (mkRow "P" "project" "roles/nope" "user:a") emptyWorld = Done (Some e) w1
    /\ written w1 = [csvLine "P" "project" "user:a" "roles/nope" "UNKNOWN"].
Proof.
  destruct (Row_Print_unresolved demoCloud [] (mkRow "P" "project" "roles/nope" "user:a")
              [mkRow "P" "project" "roles/editor" "user:b@x.com"] emptyWorld emptyWorld)
    as (e & w1 & _ & Hrun & Hw & _).
  - reflexivity.
  - split.
    + intros _. exists "404". reflexivity.
    + exists "404". reflexivity.
  - reflexivity.
  - exists e, w1. split; [exact Hrun | exact Hw].
Defined.

(** ** Deriving the organization id (C8, C10) *)

Section Derivation.

Variable cloud : Cloud.

Lemma GetAncestryForProject_OK projectId garesp w :
  Projects_GetAncestry cloud projectId = OK garesp ->
  GetAncestryForProject cloud projectId w
  = (results ← convertAncestors garesp; ret (results, None))
      (mkWorld (rm w) (written w) (trace w ++ [EvGetAncestry projectId])).
Proof. intros H. unfold GetAncestryForProject. msimpl. now rewrite H. Qed.

Lemma spec_ret {A} (P : Event -> Prop) (R : A -> Prop) panicOk (a : A) :
  R a -> spec P R panicOk (ret a).
Proof. intros H w. exists []. simpl. rewrite app_nil_r. auto. Qed.

Lemma spec_panic {A} (P : Event -> Prop) (R : A -> Prop) (panicOk : Prop) msg :
  panicOk -> spec P R panicOk (panic msg).
Proof. intros H w. exists []. simpl. rewrite app_nil_r. auto. Qed.

Lemma spec_emit (P : Event -> Prop) (R : unit -> Prop) panicOk ev :
  P ev -> R tt -> spec P R panicOk (emit ev).
Proof. intros H HR w. exists [ev]. simpl. auto. Qed.

Lemma spec_bind {A B} (P : Event -> Prop) (R : A -> Prop) (R' : B -> Prop) panicOk
    (m : M A) (k : A -> M B) :
  spec P R panicOk m -> (forall a, R a -> spec P R' panicOk (k a)) ->
  spec P R' panicOk (m ≫= k).
Proof.
  intros Hm Hk w. destruct (Hm w) as (evs & Htr & HP & HR).
  unfold mbind, M_bind. destruct (m w) as [a w1|msg w1]; simpl in Htr.
  - destruct (Hk a HR w1) as (evs' & Htr' & HP' & HR').
    exists (evs ++ evs'). rewrite Htr', Htr, app_assoc. split; [reflexivity|].
    split; [now apply Forall_app|exact HR'].
  - exists evs. auto.
Qed.

Lemma spec_weaken {A} (P P' : Event -> Prop) (R R' : A -> Prop) (panicOk panicOk' : Prop)
    (m : M A) :
  spec P R panicOk m -> (forall ev, P ev -> P' ev) -> (forall a, R a -> R' a) ->
  (panicOk -> panicOk') -> spec P' R' panicOk' m.
Proof.
  intros Hm HP HR Hp w. destruct (Hm w) as (evs & Htr & HF & Hres).
  exists evs. split; [exact Htr|]. split.
  - eapply Forall_impl; [exact HF | exact HP].
  - destruct (m w); auto.
Qed.

Lemma spec_getRm (P : Event -> Prop) (R : resourceManager -> Prop) panicOk :
  (forall r, R r) -> spec P R panicOk getRm.
Proof. intros H w. exists []. simpl. rewrite app_nil_r. auto. Qed.

Lemma spec_putRm (P : Event -> Prop) (R : unit -> Prop) panicOk r :
  R tt -> spec P R panicOk (putRm r).
Proof. intros H w. exists []. simpl. rewrite app_nil_r. auto. Qed.

Lemma spec_forM {A B} (P : Event -> Prop) panicOk (f : A -> M B) xs :
  (forall x, spec P (fun _ => True) panicOk (f x)) ->
  spec P (fun ys => length ys = length xs) panicOk (forM f xs).
Proof.
  intros Hf. induction xs as [|x xs IH]; simpl.
  - now apply spec_ret.
  - eapply spec_bind; [apply Hf|]. intros y _.
    eapply spec_bind; [apply IH|]. intros ys Hys. apply spec_ret. simpl. now rewrite Hys.
Qed.

Lemma spec_say (P : Event -> Prop) {B} (R : B -> Prop) panicOk ev (k : M B) :
  P ev -> spec P R panicOk k -> spec P R panicOk (emit ev;; k).
Proof.
  intros Hev Hk. eapply spec_bind; [apply (spec_emit P (fun _ => True)); [exact Hev | exact I]|].
  intros _ _. exact Hk.
Qed.

(** The credentials are looked up without touching ancestry or listings, and
    the lookup yields a project id exactly when [discoveredProject] does. *)
Lemma getProjectIdFromCredentials_spec credentialsPath :
  spec (fun ev => isAncestryEvent ev = false /\ isListingEvent ev = false)
       (fun res => match discoveredProject cloud credentialsPath with
                   | Some q => fst res = q /\ snd res = None
                   | None => snd res <> None
                   end)
       False (getProjectIdFromCredentials cloud credentialsPath).
Proof.
  unfold getProjectIdFromCredentials, discoveredProject, defaultProject, fileProject, fmt_Printf.
  apply spec_say; [now split|].
  destruct (FindDefaultCredentials cloud) as [c|e];
    [destruct (String.eqb (google.Credentials_ProjectID c) ""); simpl;
       [|apply spec_say; [now split|]; apply spec_ret; now split]|];
    (destruct (String.eqb credentialsPath ""); [now apply spec_ret|];
     apply spec_say; [now split|];
     destruct (Stat cloud credentialsPath); [now apply spec_ret|];
     apply spec_say; [now split|];
     destruct (ReadFile cloud credentialsPath) as [data|e']; [|now apply spec_ret];
     apply spec_say; [now split|];
     destruct (CredentialsFromJSON cloud data) as [c'|e']; [|now apply spec_ret];
     destruct (String.eqb (google.Credentials_ProjectID c') ""); [now apply spec_ret|];
     apply spec_say; [now split|]; apply spec_ret; now split).
Qed.

Lemma convertAncestors_spec (P : Event -> Prop) ancestors :
  spec P (fun _ => True) True (convertAncestors ancestors).
Proof.
  destruct ancestors as [v1|t]; simpl; [|now apply spec_ret].
  eapply spec_weaken; [apply (spec_forM P True)| auto | auto | auto].
  intros a. destruct (v1beta1.Ancestor_ResourceId a); [now apply spec_ret | now apply spec_panic].
Qed.

Lemma GetAncestryForProject_spec projectId :
  spec (fun ev => ev = EvGetAncestry projectId)
       (fun res => ancestryFails cloud projectId -> snd res <> None)
       (~ ancestryFails cloud projectId) (GetAncestryForProject cloud projectId).
Proof.
  unfold GetAncestryForProject, ancestryFails. apply spec_say; [reflexivity|].
  destruct (Projects_GetAncestry cloud projectId) as [garesp|e].
  - eapply spec_bind.
    + eapply spec_weaken; [apply (convertAncestors_spec (fun ev => ev = EvGetAncestry projectId))
                          | auto | intros a H; exact H |]. now intros _ [e [=]].
    + intros results _. apply spec_ret. now intros [e [=]].
  - apply spec_ret. discriminate.
Qed.

Lemma index_spec {A} (P : Event -> Prop) (xs : list A) i :
  spec P (fun _ => True) True (index xs i).
Proof.
  unfold index. destruct (i <? 0)%Z; [now apply spec_panic|].
  destruct (xs !! Z.to_nat i); [now apply spec_ret | now apply spec_panic].
Qed.

Lemma GetOrgIdFromProjectId_spec projectId :
  spec (fun ev => ev = EvGetAncestry projectId \/ exists text, ev = EvStdout text)
       (fun err => ancestryFails cloud projectId -> err <> None)
       (~ ancestryFails cloud projectId) (GetOrgIdFromProjectId cloud projectId).
Proof.
  unfold GetOrgIdFromProjectId.
  eapply spec_bind.
  { eapply spec_weaken; [apply GetAncestryForProject_spec | | intros a H; exact H | auto].
    intros ev ->. now left. }
  intros [anc [e|]] Hres; simpl in *.
  - apply spec_ret. discriminate.
  - assert (Hn : ~ ancestryFails cloud projectId) by (intros H; now apply (Hres H)).
    eapply spec_bind.
    { eapply spec_weaken; [apply (index_spec (fun _ => False)) | | intros a H; exact H | auto].
      intros ev []. }
    intros a _. destruct (Ancestor_ResourceId a) as [rid|]; [|now apply spec_panic].
    unfold set_orgId, fmt_Printf.
    eapply spec_bind; [eapply spec_bind; [apply spec_getRm; intros; exact I|]|].
    { intros r _. apply (spec_putRm _ (fun _ => True)). exact I. }
    intros _ _. apply spec_say; [right; eauto|]. apply spec_ret. intros H. now destruct Hn.
Qed.

Lemma NewService_spec (P : Event -> Prop) api answer :
  P (EvNewService api) -> spec P (fun err => err = answer) False (NewService api answer).
Proof. intros H. unfold NewService. apply spec_say; [exact H|]. now apply spec_ret. Qed.

Lemma spec_refuse (P : Event -> Prop) (R : option error -> Prop) panicOk (e : error) :
  R (Some e) -> spec P R panicOk (putRm zeroResourceManager;; ret (Some e)).
Proof.
  intros H. eapply spec_bind; [apply (spec_putRm P (fun _ => True)); exact I|].
  intros _ _. now apply spec_ret.
Qed.

(** With an organization id given, only the three API clients are built. *)
Lemma NewResourceManager_given credentialsPath orgId projectId :
  orgId <> "" ->
  spec (fun ev => exists api, ev = EvNewService api)
       (fun err => servicesUp cloud -> err = None)
       False (NewResourceManager cloud credentialsPath orgId projectId).
Proof.
  intros Horg. apply String.eqb_neq in Horg. unfold NewResourceManager, servicesUp.
  rewrite Horg.
  eapply spec_bind; [apply NewService_spec; eauto|]. intros err ->.
  destruct (NewService_v1beta1 cloud); [apply spec_refuse; now intros [[=] _]|].
  eapply spec_bind; [apply NewService_spec; eauto|]. intros err ->.
  destruct (NewService_v2beta1 cloud); [apply spec_refuse; now intros (_ & [=] & _)|].
  eapply spec_bind; [apply NewService_spec; eauto|]. intros err ->.
  destruct (NewService_iam cloud); [apply spec_refuse; now intros (_ & _ & [=])|].
  eapply spec_bind; [apply (spec_putRm _ (fun _ => True)); exact I|]. intros _ _.
  now apply spec_ret.
Qed.

Lemma derive_spec credentialsPath projectId chosen (p : string) :
  chosenProject cloud credentialsPath projectId = Some chosen ->
  spec (derivationEvent cloud credentialsPath projectId)
       (fun err => derivationFails cloud credentialsPath "" projectId -> err <> None)
       (~ derivationFails cloud credentialsPath "" projectId)
       (err ← GetOrgIdFromProjectId cloud chosen;
        match err with
        | Some e =>
            putRm zeroResourceManager;;
            ret (Some ("Error getting OrgId from ProjectId " +:+ p +:+ ": " +:+ e))
        | None => ret None
        end).
Proof.
  intros Hc.
  assert (Hiff : derivationFails cloud credentialsPath "" projectId -> ancestryFails cloud chosen).
  { unfold derivationFails. rewrite Hc. tauto. }
  eapply spec_bind.
  { eapply spec_weaken; [apply GetOrgIdFromProjectId_spec | | intros a H; exact H | tauto].
    intros ev [->|[text ->]]; repeat split; try discriminate. intros _. eauto. }
  intros [e|] Hres.
  - apply spec_refuse. discriminate.
  - apply spec_ret. auto.
Qed.

Lemma NewResourceManager_derived credentialsPath projectId :
  spec (fun ev => (exists api, ev = EvNewService api) \/ (exists text, ev = EvStdout text)
                  \/ derivationEvent cloud credentialsPath projectId ev)
       (fun err => derivationFails cloud credentialsPath "" projectId -> err <> None)
       (~ derivationFails cloud credentialsPath "" projectId)
       (NewResourceManager cloud credentialsPath "" projectId).
Proof.
  unfold NewResourceManager, fmt_Println. rewrite String.eqb_refl.
  eapply spec_bind; [apply NewService_spec; eauto|]. intros [e|] _; [now apply spec_refuse|].
  eapply spec_bind; [apply NewService_spec; eauto|]. intros [e|] _; [now apply spec_refuse|].
  eapply spec_bind; [apply NewService_spec; eauto|]. intros [e|] _; [now apply spec_refuse|].
  eapply spec_bind; [apply (spec_putRm _ (fun _ => True)); exact I|]. intros _ _.
  apply spec_say; [eauto|]. cbv zeta.
  destruct (String.eqb projectId "") eqn:Hp.
  - apply String.eqb_eq in Hp. subst projectId.
    apply spec_say; [eauto|].
    eapply spec_bind.
    { eapply spec_weaken; [apply getProjectIdFromCredentials_spec | | intros a H; exact H | tauto].
      intros ev [Ha Hl]. right. right. repeat split; [exact Hl | tauto | congruence]. }
    intros [p err] Hres. simpl in Hres.
    destruct (discoveredProject cloud credentialsPath) as [q|] eqn:Hd.
    + destruct Hres as [-> ->].
      eapply spec_weaken; [apply (derive_spec credentialsPath "" q q) | | auto | auto].
      * unfold chosenProject. now rewrite Hd.
      * intros ev H. right. right. exact H.
    + destruct err as [e|]; [|now destruct Hres]. now apply spec_refuse.
  - eapply spec_weaken; [apply (derive_spec credentialsPath projectId projectId "") | | auto | auto].
    + unfold chosenProject. now rewrite Hp.
    + intros ev H. right. right. exact H.
Qed.

Lemma forM_pure_in {A B} (f : A -> M B) (g : A -> B) (xs : list A) w :
  (forall x, In x xs -> f x w = Done (g x) w) -> forM f xs w = Done (map g xs) w.
Proof.
  induction xs as [|x xs IH]; intros Hf; simpl; [reflexivity|].
  rewrite (bind_Done _ _ _ _ _ (Hf x (or_introl eq_refl))).
  rewrite (bind_Done _ _ _ _ _ (IH (fun y Hy => Hf y (or_intror Hy)))). reflexivity.
Qed.

Lemma index_last {A} (xs : list A) x w :
  last xs = Some x -> index xs (Z.of_nat (length xs) - 1) w = Done x w.
Proof.
  intros Hlast. unfold index. rewrite last_lookup in Hlast.
  destruct xs as [|y ys]; [discriminate|].
  replace (Z.of_nat (length (y :: ys)) - 1)%Z with (Z.of_nat (length ys))
    by (cbn [length]; lia).
  destruct (Z.of_nat (length ys) <? 0)%Z eqn:Hneg; [apply Z.ltb_lt in Hneg; lia|].
  rewrite Nat2Z.id. simpl pred in Hlast. now rewrite Hlast.
Qed.

(** With a well-formed ancestry, the organization id becomes the identifier
    of the outermost ancestor. *)
Lemma GetOrgIdFromProjectId_OK projectId orgId w :
  outermostAncestor cloud projectId = Some orgId ->
  exists w', GetOrgIdFromProjectId cloud projectId w = Done None w'
             /\ rm_orgId (rm w') = orgId.
Proof.
  unfold outermostAncestor.
  destruct (Projects_GetAncestry cloud projectId) as [[v1|t]|e] eqn:Hg; try discriminate.
  destruct (forallb _ v1) eqn:Hall; [|discriminate].
  destruct (last v1) as [a|] eqn:Hlast; [|discriminate].
  destruct (v1beta1.Ancestor_ResourceId a) as [rid|] eqn:Hrid; [|discriminate].
  intros [= <-].
  assert (Hanc : GetAncestryForProject cloud projectId w
                 = Done (convertOrNil <$> v1, None)
                     (mkWorld (rm w) (written w) (trace w ++ [EvGetAncestry projectId]))).
  { rewrite (GetAncestryForProject_OK _ _ w Hg). unfold convertAncestors.
    erewrite bind_Done; [reflexivity|].
    apply (forM_pure_in _ convertOrNil). intros x Hx.
    rewrite forallb_forall in Hall. specialize (Hall x Hx). unfold convertOrNil.
    destruct (v1beta1.Ancestor_ResourceId x); [reflexivity | discriminate]. }
  unfold GetOrgIdFromProjectId. rewrite (bind_Done _ _ _ _ _ Hanc). cbn beta iota.
  assert (Hidx : last (convertOrNil <$> v1) = Some (convertOrNil a))
    by now rewrite fmap_last, Hlast.
  rewrite (bind_Done _ _ _ _ _ (index_last _ _ _ Hidx)).
  unfold convertOrNil. rewrite Hrid. msimpl. eexists. split; reflexivity.
Qed.

Lemma NewResourceManager_given_OK credentialsPath orgId projectId w :
  orgId <> "" -> servicesUp cloud ->
  NewResourceManager cloud credentialsPath orgId projectId w
  = Done None (mkWorld (mkResourceManager orgId ∅) (written w)
                 (trace w ++ [EvNewService "cloudresourcemanager/v1beta1";
                              EvNewService "cloudresourcemanager/v2beta1";
                              EvNewService "iam/v1"])).
Proof.
  intros Horg (H1 & H2 & H3). apply String.eqb_neq in Horg.
  unfold NewResourceManager, NewService. rewrite H1, H2, H3, Horg. msimpl.
  now rewrite <- !app_assoc.
Qed.

Lemma NewResourceManager_derived_OK credentialsPath projectId chosen orgId w :
  servicesUp cloud ->
  chosenProject cloud credentialsPath projectId = Some chosen ->
  outermostAncestor cloud chosen = Some orgId ->
  exists w', NewResourceManager cloud credentialsPath "" projectId w = Done None w'
             /\ rm_orgId (rm w') = orgId.
Proof.
  intros (H1 & H2 & H3) Hc Ho. unfold chosenProject in Hc.
  unfold NewResourceManager, NewService. rewrite H1, H2, H3, String.eqb_refl.
  munfold. cbn -[String.append GetOrgIdFromProjectId getProjectIdFromCredentials].
  destruct (String.eqb projectId "").
  - match goal with
    | |- context [getProjectIdFromCredentials _ _ ?W] =>
        destruct (getProjectIdFromCredentials_spec credentialsPath W) as (_ & _ & _ & HR);
        destruct (getProjectIdFromCredentials cloud credentialsPath W) as [[p err] W2|] eqn:E;
        [|contradiction]
    end.
    rewrite Hc in HR. simpl in HR. destruct HR as [-> ->].
    destruct (GetOrgIdFromProjectId_OK chosen orgId W2 Ho) as (w' & -> & Hid).
    now exists w'.
  - injection Hc as ->.
    match goal with
    | |- context [GetOrgIdFromProjectId _ _ ?W] =>
        destruct (GetOrgIdFromProjectId_OK chosen orgId W Ho) as (w' & -> & Hid)
    end.
    now exists w'.
Qed.

Lemma fmt_Fprintf_spec (P : Event -> Prop) line :
  spec P (fun _ => True) False (fmt_Fprintf cloud line).
Proof.
  intros w. exists []. unfold fmt_Fprintf.
  destruct (Fprintf cloud (written w) line); simpl; now rewrite app_nil_r.
Qed.

(** When no organization id can be derived, the run stops before any tier is
    listed. *)
Lemma printToCsv_derivation_fails filename credentialsPath projectId :
  derivationFails cloud credentialsPath "" projectId ->
  spec (fun ev => isListingEvent ev = false)
       (fun res => Stat cloud filename <> None -> res <> None)
       False (printToCsv cloud filename credentialsPath "" projectId).
Proof.
  intros Hfail. unfold printToCsv. apply spec_say; [reflexivity|].
  destruct (Stat cloud filename) as [e0|].
  - apply spec_say; [reflexivity|].
    destruct (Create cloud _); [now apply spec_ret|].
    eapply spec_bind; [apply fmt_Fprintf_spec|]. intros [e|] _; [now apply spec_ret|].
    eapply spec_bind.
    { eapply spec_weaken; [apply NewResourceManager_derived | | intros a H; exact (H Hfail) | tauto].
      intros ev [[api ->]|[[text ->]|[H _]]]; auto. }
    intros [e|] Herr; [now apply spec_ret | now destruct Herr].
  - apply spec_say; [reflexivity|]. apply spec_ret. intros H. now destruct H.
Qed.

End Derivation.

(** C10. An ancestor list of a shape other than the expected slice is
    converted to the empty sequence, without an error; and whenever the
    ancestry of the project comes back empty and without an error, deriving
    the organization id indexes it at position -1 and panics instead of
    returning an error. *)
Theorem GetOrgIdFromProjectId_empty_ancestry (cloud : Cloud) (projectId : string) (w : World) :
  (forall typeName w', convertAncestors (AncestorsOther typeName) w' = Done [] w')
  /\ (forall w', GetAncestryForProject cloud projectId w = Done ([], None) w' ->
        GetOrgIdFromProjectId cloud projectId w = Panic "index out of range" w')
  /\ (forall garesp,
        Projects_GetAncestry cloud projectId = OK garesp ->
        garesp = AncestorsV1 [] \/ (exists typeName, garesp = AncestorsOther typeName) ->
        exists w', GetOrgIdFromProjectId cloud projectId w = Panic "index out of range" w').
Proof.
  assert (Hidx : forall w', GetAncestryForProject cloud projectId w = Done ([], None) w' ->
                   GetOrgIdFromProjectId cloud projectId w = Panic "index out of range" w').
  { intros w' H. unfold GetOrgIdFromProjectId. now rewrite (bind_Done _ _ _ _ _ H). }
  split; [reflexivity|]. split; [exact Hidx|].
  intros garesp Hg Hshape. eexists. apply Hidx.
  rewrite (GetAncestryForProject_OK _ _ _ _ Hg).
  destruct Hshape as [->|[t ->]]; reflexivity.
Qed.

Lemma GetOrgIdFromProjectId_empty_ancestry_witness :
  exists w', GetOrgIdFromProjectId unknownShapeCloud "P" emptyWorld
             = Panic "index out of range" w'.
Proof.
  apply (proj2 (proj2 (GetOrgIdFromProjectId_empty_ancestry unknownShapeCloud "P" emptyWorld))
           (AncestorsOther "[]*v3.Ancestor")).
  - reflexivity.
  - right. exists "[]*v3.Ancestor". reflexivity.
Defined.

(** C8. With an organization id given, building the manager looks up no
    credentials and no ancestry, and lists nothing; the given id is kept.
    Without one, a given project id is used with no credential lookup, else
    the project id found in the credentials; the only ancestry asked for is
    that of the project so chosen, and the organization id becomes its
    outermost ancestor. When no project id is found or the ancestry cannot
    be fetched, the construction returns an error (it does not panic), and
    the run stops with an error before any listing or policy retrieval. *)
Theorem NewResourceManager_fallback_order (cloud : Cloud)
    (credentialsPath orgId projectId : string) :
  (orgId <> "" ->
   spec (fun ev => isCredentialEvent ev = false /\ isAncestryEvent ev = false
                   /\ isListingEvent ev = false)
        (fun err => servicesUp cloud -> err = None)
        False (NewResourceManager cloud credentialsPath orgId projectId)
   /\ (servicesUp cloud -> forall w, exists w',
         NewResourceManager cloud credentialsPath orgId projectId w = Done None w'
         /\ rm_orgId (rm w') = orgId))
  /\ (orgId = "" ->
      spec (fun ev => isListingEvent ev = false
                      /\ (projectId <> "" -> isCredentialEvent ev = false)
                      /\ (isAncestryEvent ev = true ->
                          exists p, chosenProject cloud credentialsPath projectId = Some p
                                    /\ ev = EvGetAncestry p))
           (fun err => derivationFails cloud credentialsPath orgId projectId -> err <> None)
           (~ derivationFails cloud credentialsPath orgId projectId)
           (NewResourceManager cloud credentialsPath orgId projectId))
  /\ (orgId = "" -> servicesUp cloud ->
      forall chosen derived,
        chosenProject cloud credentialsPath projectId = Some chosen ->
        outermostAncestor cloud chosen = Some derived ->
        forall w, exists w',
          NewResourceManager cloud credentialsPath orgId projectId w = Done None w'
          /\ rm_orgId (rm w') = derived)
  /\ (derivationFails cloud credentialsPath orgId projectId ->
      forall filename,
        spec (fun ev => isListingEvent ev = false)
             (fun res => Stat cloud filename <> None -> res <> None)
             False (printToCsv cloud filename credentialsPath orgId projectId)).
Proof.
  split; [|split; [|split]].
  - intros Horg. split.
    + eapply spec_weaken; [apply NewResourceManager_given; exact Horg | | auto | auto].
      now intros ev [api ->].
    + intros Hup w. rewrite (NewResourceManager_given_OK _ _ _ _ w Horg Hup). eauto.
  - intros ->.
    eapply spec_weaken; [apply NewResourceManager_derived | | auto | auto].
    intros ev [[api ->]|[[text ->]|H]]; [| |exact H]; repeat split; discriminate.
  - intros -> Hup chosen derived Hc Ho w.
    eapply NewResourceManager_derived_OK; eassumption.
  - intros Hfail filename. destruct Hfail as [-> Hfail].
    apply printToCsv_derivation_fails. now split.
Qed.

Lemma NewResourceManager_fallback_order_witness :
  (exists w', NewResourceManager demoCloud "" "" "" emptyWorld = Done None w'
              /\ rm_orgId (rm w') = "O")
  /\ spec (fun ev => isListingEvent ev = false)
          (fun res => Stat credentialsFileCloud "out.csv" <> None -> res <> None)
          False (printToCsv credentialsFileCloud "out.csv" "creds.json" "" "").
Proof.
  split.
  - apply (proj1 (proj2 (proj2 (NewResourceManager_fallback_order demoCloud "" "" "")))
             eq_refl (conj eq_refl (conj eq_refl eq_refl)) "P" "O" eq_refl eq_refl emptyWorld).
  - apply (proj2 (proj2 (proj2 (NewResourceManager_fallback_order credentialsFileCloud
                                  "creds.json" "" "")))).
    split; [reflexivity | exact I].
Defined.

(** ** Aggregation (C4, C7) *)

Section Aggregation.

Variable cloud : Cloud.

Lemma failFast_bind {A B} (R : A * option error -> Prop) (R' : B * option error -> Prop)
    (m : M (A * option error)) (k : A * option error -> M (B * option error)) :
  failFast cloud R m ->
  (forall a, R (a, None) -> failFast cloud R' (k (a, None))) ->
  (forall a e, R (a, Some e) -> failTail cloud R' e (k (a, Some e))) ->
  failFast cloud R' (m ≫= k).
Proof.
  intros Hm Hok Herr w.
  destruct (Hm w) as ([a err] & w1 & evs1 & Hrun & Htr & HR & Hev). simpl in Hev.
  rewrite (bind_Done _ _ _ _ _ Hrun). destruct err as [e|].
  - destruct (Herr a e HR w1) as (b & w2 & evs2 & Hrun2 & Htr2 & HR2 & Hev2).
    exists (b, Some e), w2, (evs1 ++ evs2). split; [exact Hrun2|].
    split; [now rewrite Htr2, Htr, app_assoc|]. split; [exact HR2|]. simpl.
    destruct Hev as [Hall Hex]. split.
    + apply Forall_app. split; [exact Hall|].
      eapply Forall_impl; [exact Hev2|]. intros ev H. now left.
    + apply Exists_app. now left.
  - destruct (Hok a HR w1) as ([b err2] & w2 & evs2 & Hrun2 & Htr2 & HR2 & Hev2).
    exists (b, err2), w2, (evs1 ++ evs2). split; [exact Hrun2|].
    split; [now rewrite Htr2, Htr, app_assoc|]. split; [exact HR2|]. simpl in *.
    destruct err2 as [e|].
    + destruct Hev2 as [Hall Hex]. split.
      * apply Forall_app. split; [|exact Hall].
        eapply Forall_impl; [exact Hev|]. intros ev H. now left.
      * apply Exists_app. now right.
    + apply Forall_app. now split.
Qed.

Lemma failFast_ret {A} (R : A * option error -> Prop) (a : A) :
  R (a, None) -> failFast cloud R (ret (a, None)).
Proof.
  intros HR w. exists (a, None), w, []. rewrite app_nil_r.
  split; [reflexivity|]. split; [reflexivity|]. split; [exact HR | constructor].
Qed.

Lemma failTail_ret {A} (R : A * option error -> Prop) (a : A) e :
  R (a, Some e) -> failTail cloud R e (ret (a, Some e)).
Proof.
  intros HR w. exists a, w, []. rewrite app_nil_r.
  split; [reflexivity|]. split; [reflexivity|]. split; [exact HR | constructor].
Qed.

Lemma failTail_log {A} (R : A * option error -> Prop) (a : A) e text :
  R (a, Some e) -> failTail cloud R e (logerr_Printf text;; ret (a, Some e)).
Proof.
  intros HR w. eexists a, _, [_]. split; [reflexivity|].
  split; [reflexivity|]. split; [exact HR|]. constructor; [reflexivity | constructor].
Qed.

Lemma failFast_getRm {A} (R : A * option error -> Prop) (k : resourceManager -> M (A * option error)) :
  (forall r, failFast cloud R (k r)) -> failFast cloud R (getRm ≫= k).
Proof. intros H w. apply (H (rm w) w). Qed.

(** One call to a collaborator, recorded as [ev]. *)
Lemma failFast_call {A B} (ev : Event) (reply : Reply B) (zero : A) (k : B -> M A) (g : B -> A) :
  callError cloud ev = match reply with Fail e => Some e | OK _ => None end ->
  (forall b w, k b w = Done (g b) w) ->
  failFast cloud (fun _ => True)
    (emit ev;;
     match reply with
     | Fail err => ret (zero, Some err)
     | OK response => x ← k response; ret (x, None)
     end).
Proof.
  intros Hce Hk w. destruct reply as [b|e].
  - exists (g b, None), (mkWorld (rm w) (written w) (trace w ++ [ev])), [ev].
    split.
    { unfold emit. unfold mbind at 1, M_bind at 1. rewrite (bind_Done _ _ _ _ _ (Hk b _)).
      reflexivity. }
    split; [reflexivity|]. split; [exact I|]. simpl. constructor; [exact Hce | constructor].
  - exists (zero, Some e), (mkWorld (rm w) (written w) (trace w ++ [ev])), [ev].
    split; [reflexivity|]. split; [reflexivity|]. split; [exact I|]. simpl. split.
    + constructor; [now right | constructor].
    + now constructor.
Qed.

Lemma GetIamPolicyForFolder_failFast folderId :
  failFast cloud (fun _ => True) (GetIamPolicyForFolder cloud folderId).
Proof.
  unfold GetIamPolicyForFolder. eapply failFast_call; [reflexivity|].
  intros b w. apply Policy_convertV2_zero.
Qed.

Lemma GetIamPolicyForProject_failFast projectId :
  failFast cloud (fun _ => True) (GetIamPolicyForProject cloud projectId).
Proof.
  unfold GetIamPolicyForProject. eapply failFast_call; [reflexivity|].
  intros b w. apply Policy_convertV1_zero.
Qed.

Lemma GetIamPolicyForOrganization_failFast :
  failFast cloud (fun _ => True) (GetIamPolicyForOrganization cloud).
Proof.
  unfold GetIamPolicyForOrganization. apply failFast_getRm. intros r.
  eapply failFast_call; [reflexivity|].
  intros b w. apply Policy_convertV1_zero.
Qed.

Lemma FoldersList_failFast parent :
  failFast cloud (fun _ => True) (FoldersList cloud parent).
Proof.
  intros w. unfold FoldersList.
  destruct (Folders_List cloud parent) as [pages err] eqn:Hl.
  assert (Hce : callError cloud (EvFoldersList parent) = err)
    by (unfold callError; now rewrite Hl).
  destruct err as [e|]; eexists (_, _), _, [EvFoldersList parent];
    (split; [reflexivity|]); (split; [reflexivity|]); (split; [exact I|]); simpl.
  - split; [constructor; [now right | constructor] | now constructor].
  - constructor; [exact Hce | constructor].
Qed.

Lemma ProjectsList_failFast :
  failFast cloud (fun _ => True) (ProjectsList cloud).
Proof.
  unfold ProjectsList. apply failFast_getRm. intros r w. unfold ProjectsListByFilter.
  destruct (Projects_List cloud _) as [pages err] eqn:Hl.
  assert (Hce : callError cloud
                  (EvProjectsList ("parent.type:organization parent.id:" +:+ rm_orgId r)) = err)
    by (unfold callError; now rewrite Hl).
  destruct err as [e|]; eexists (_, _), _, [EvProjectsList _];
    (split; [reflexivity|]); (split; [reflexivity|]); (split; [exact I|]); simpl.
  - split; [constructor; [now right | constructor] | now constructor].
  - constructor; [exact Hce | constructor].
Qed.

Lemma folderLoop_failFast folders rows :
  Forall (fun r => Row_Type r = "folder") rows ->
  failFast cloud (rowsOfType "folder") (folderLoop cloud folders rows).
Proof.
  revert rows. induction folders as [|f folders IH]; intros rows Hrows; simpl.
  - now apply failFast_ret.
  - eapply failFast_bind; [apply GetIamPolicyForFolder_failFast| |].
    + intros policy _. apply IH. now apply addBindings_Type.
    + intros policy e _. now apply failTail_log.
Qed.

Lemma projectLoop_failFast projects rows :
  Forall (fun r => Row_Type r = "project") rows ->
  failFast cloud (rowsOfType "project") (projectLoop cloud projects rows).
Proof.
  revert rows. induction projects as [|p projects IH]; intros rows Hrows; simpl.
  - now apply failFast_ret.
  - eapply failFast_bind; [apply GetIamPolicyForProject_failFast| |].
    + intros policy _. apply IH. now apply addBindings_Type.
    + intros policy e _. now apply failTail_log.
Qed.

Lemma GetFolderPolicyRows_failFast :
  failFast cloud (rowsOfType "folder") (GetFolderPolicyRows cloud).
Proof.
  unfold GetFolderPolicyRows. apply failFast_getRm. intros r.
  eapply failFast_bind; [apply FoldersList_failFast| |].
  - intros folders _. apply folderLoop_failFast. constructor.
  - intros folders e _. apply failTail_ret. constructor.
Qed.

Lemma GetProjectPolicyRows_failFast :
  failFast cloud (rowsOfType "project") (GetProjectPolicyRows cloud).
Proof.
  unfold GetProjectPolicyRows.
  eapply failFast_bind; [apply ProjectsList_failFast| |].
  - intros projects _. apply projectLoop_failFast. constructor.
  - intros projects e _. apply failTail_ret. constructor.
Qed.

Lemma GetOrgPolicyRows_failFast :
  failFast cloud (rowsOfType "organization") (GetOrgPolicyRows cloud).
Proof.
  unfold GetOrgPolicyRows.
  eapply failFast_bind; [apply GetIamPolicyForOrganization_failFast| |].
  - intros policy _. apply failFast_getRm. intros r. apply failFast_ret.
    apply addBindings_Type. constructor.
  - intros policy e _. apply failTail_ret. constructor.
Qed.

Lemma GetAllPolicyRows_failFast : failFast cloud aggregated (GetAllPolicyRows cloud).
Proof.
  unfold GetAllPolicyRows.
  eapply failFast_bind; [apply GetOrgPolicyRows_failFast| |];
    [|intros; now apply failTail_ret].
  intros orgRows Ho.
  eapply failFast_bind; [apply GetFolderPolicyRows_failFast| |];
    [|intros; now apply failTail_ret].
  intros folderRows Hf.
  eapply failFast_bind; [apply GetProjectPolicyRows_failFast| |];
    [|intros; now apply failTail_ret].
  intros projectRows Hp. apply failFast_ret.
  exists orgRows, folderRows, projectRows. rewrite app_nil_l, app_assoc. auto.
Qed.

End Aggregation.

(** C4. The aggregation always returns; whenever a listing or policy call
    made during the run fails, at whatever tier, it returns the error of
    that call and no rows at all (nil, not the rows of the tiers already
    processed); and an error is returned only for such a failed call. *)
Theorem GetAllPolicyRows_fail_fast (cloud : Cloud) (w : World) :
  exists rows err w' evs,
    GetAllPolicyRows cloud w = Done (rows, err) w'
    /\ trace w' = trace w ++ evs
    /\ (forall ev e, In ev evs -> callError cloud ev = Some e -> rows = None /\ err = Some e)
    /\ (forall e, err = Some e ->
          rows = None /\ exists ev, In ev evs /\ callError cloud ev = Some e).
Proof.
  destruct (GetAllPolicyRows_failFast cloud w) as ([rows err] & w' & evs & Hrun & Htr & HR & Hev).
  exists rows, err, w', evs. split; [exact Hrun|]. split; [exact Htr|].
  simpl in Hev. destruct err as [e0|].
  - destruct rows as [rows|]; [contradiction|]. destruct Hev as [Hall Hex]. split.
    + intros ev e Hin Hce. split; [reflexivity|].
      rewrite Forall_forall in Hall. apply list_elem_of_In in Hin.
      destruct (Hall ev Hin) as [Hn|Hs]; congruence.
    + intros e [= <-]. split; [reflexivity|].
      apply Exists_exists in Hex as (ev & Hin & Hce). exists ev.
      split; [now apply list_elem_of_In | exact Hce].
  - split; [|discriminate]. intros ev e Hin Hce.
    rewrite Forall_forall in Hev. apply list_elem_of_In in Hin.
    specialize (Hev ev Hin). congruence.
Qed.

Lemma GetAllPolicyRows_fail_fast_witness :
  exists w', GetAllPolicyRows brokenFolderCloud (worldOfOrg "O") = Done (None, Some "503") w'.
Proof.
  destruct (GetAllPolicyRows_fail_fast brokenFolderCloud (worldOfOrg "O"))
    as (rows & err & w' & evs & Hrun & Htr & Hfail & _).
  assert (Hin : In (EvFoldersGetIamPolicy "F2") evs).
  { vm_compute in Hrun. injection Hrun as _ _ <-. vm_compute in Htr. subst evs.
    simpl. tauto. }
  destruct (Hfail (EvFoldersGetIamPolicy "F2") "503" Hin eq_refl) as [-> ->].
  exists w'. exact Hrun.
Defined.

Section TierOrder.

Lemma tierOrdered_position rows orgRows folderRows projectRows i a :
  rows = orgRows ++ folderRows ++ projectRows ->
  Forall (fun r => Row_Type r = "organization") orgRows ->
  Forall (fun r => Row_Type r = "folder") folderRows ->
  Forall (fun r => Row_Type r = "project") projectRows ->
  rows !! i = Some a ->
  (i < length orgRows /\ Row_Type a = "organization")
  \/ (length orgRows <= i < length orgRows + length folderRows /\ Row_Type a = "folder")
  \/ (length orgRows + length folderRows <= i /\ Row_Type a = "project").
Proof.
  intros -> Ho Hf Hp Hi.
  apply lookup_app_Some in Hi as [Hi|[Hge Hi]].
  - left. split; [now apply lookup_lt_Some in Hi|].
    rewrite Forall_lookup in Ho. exact (Ho i a Hi).
  - apply lookup_app_Some in Hi as [Hi|[Hge2 Hi]].
    + right. left. split; [apply lookup_lt_Some in Hi; lia|].
      rewrite Forall_lookup in Hf. exact (Hf _ a Hi).
    + right. right. split; [lia|].
      rewrite Forall_lookup in Hp. exact (Hp _ a Hi).
Qed.

End TierOrder.

(** C7. The rows of a successful aggregation are those of the organization,
    followed by those of the folders, followed by those of the projects: a
    row of the organization stands before every row of another tier, and a
    row of a folder before every row of a project, whatever the listings
    returned. *)
Theorem GetAllPolicyRows_tier_order (cloud : Cloud) (w w' : World) (rows : list Row) :
  GetAllPolicyRows cloud w = Done (Some rows, None) w' ->
  tierOrdered rows
  /\ forall i j a b,
       rows !! i = Some a -> rows !! j = Some b ->
       (Row_Type a = "organization" /\ Row_Type b <> "organization")
       \/ (Row_Type a = "folder" /\ Row_Type b = "project") ->
       i < j.
Proof.
  intros Hrun.
  destruct (GetAllPolicyRows_failFast cloud w) as (res & w1 & evs & Hrun1 & _ & HR & _).
  rewrite Hrun in Hrun1. injection Hrun1 as <- <-. simpl in HR.
  split; [exact HR|]. destruct HR as (o & f & p & Heq & Ho & Hf & Hp).
  intros i j a b Hi Hj Hcase.
  pose proof (tierOrdered_position _ _ _ _ _ _ Heq Ho Hf Hp Hi) as Ha.
  pose proof (tierOrdered_position _ _ _ _ _ _ Heq Ho Hf Hp Hj) as Hb.
  destruct Hcase as [[Ta Tb]|[Ta Tb]]; rewrite Ta in Ha;
    destruct Ha as [[Ha _]|[[Ha Ea]|[Ha Ea]]]; try discriminate;
    destruct Hb as [[Hb Eb]|[[Hb Eb]|[Hb Eb]]]; try congruence; try lia.
Qed.

Lemma GetAllPolicyRows_tier_order_witness :
  tierOrdered [mkRow "O" "organization" "roles/viewer" "user:a@x.com";
               mkRow "O" "organization" "roles/viewer" "group:g@x.com";
               mkRow "P" "project" "roles/editor" "user:b@x.com"].
Proof.
  apply (GetAllPolicyRows_tier_order demoCloud (worldOfOrg "O")
           (outWorld (GetAllPolicyRows demoCloud (worldOfOrg "O")))).
  vm_compute. reflexivity.
Defined.

(** ** The scenario of the design document, run end to end *)

Example printToCsv_scenario :
  exists w',
    printToCsv demoCloud "out.csv" "" "O" "" emptyWorld = Done None w'
    /\ written w'
       = [csvLine "Resource" "Type" "Member" "Role" "Permission";
          csvLine "O" "organization" "user:a@x.com" "roles/viewer" "permA";
          csvLine "O" "organization" "user:a@x.com" "roles/viewer" "permB";
          csvLine "O" "organization" "group:g@x.com" "roles/viewer" "permA";
          csvLine "O" "organization" "group:g@x.com" "roles/viewer" "permB";
          csvLine "P" "project" "user:b@x.com" "roles/editor" "permC"].
Proof. eexists. split; vm_compute; reflexivity. Qed.

Example printToCsv_scenario_derived :
  exists w',
    printToCsv demoCloud "out.csv" "" "" "" emptyWorld = Done None w'
    /\ rm_orgId (rm w') = "O"
    /\ length (written w') = 6.
Proof. eexists. split; [vm_compute; reflexivity|]. split; reflexivity. Qed.

(** * Further properties of the code *)

(** ** Listings *)

Section Listings.

Variable cloud : Cloud.

Lemma appendPage_app {A B} (conv : A -> B) acc page :
  appendPage conv acc page = acc ++ map conv page.
Proof.
  unfold appendPage. revert acc. induction page as [|x page IH]; intros acc; simpl.
  - now rewrite app_nil_r.
  - rewrite IH. now rewrite <- app_assoc.
Qed.

Lemma drain_pages {A B} (conv : A -> B) pages acc :
  fold_left (appendPage conv) pages acc = acc ++ map conv (concat pages).
Proof.
  revert acc. induction pages as [|page pages IH]; intros acc; simpl.
  - now rewrite app_nil_r.
  - rewrite IH, appendPage_app, map_app. now rewrite <- app_assoc.
Qed.

End Listings.

(** X1. [FoldersList] makes one listing call and leaves the manager and the
    writer alone. When the iteration over the pages ends without an error it
    returns the folders of all pages, page after page, in order; when the
    iteration stops with an error it returns that error and an empty slice,
    dropping the folders of the pages already delivered. *)
Theorem FoldersList_drains (cloud : Cloud) (parent : string) (w : World) :
  FoldersList cloud parent w
  = Done (match snd (Folders_List cloud parent) with
          | Some e => ([], Some e)
          | None => (concat (fst (Folders_List cloud parent)), None)
          end)
         (mkWorld (rm w) (written w) (trace w ++ [EvFoldersList parent])).
Proof.
  unfold FoldersList. destruct (Folders_List cloud parent) as [pages err]. msimpl.
  destruct err; [reflexivity|]. rewrite drain_pages. simpl. now rewrite map_id.
Qed.

(** X2. [ProjectsList] asks for the projects whose parent is the organization
    of the manager, with the filter
    [parent.type:organization parent.id:<orgId>], in one listing call. On
    success it returns, in page order, the name and project id of every
    project listed; on an error it returns the error and no project. *)
Theorem ProjectsList_drains (cloud : Cloud) (w : World) :
  let filter := "parent.type:organization parent.id:" +:+ rm_orgId (rm w) in
  ProjectsList cloud w
  = Done (match snd (Projects_List cloud filter) with
          | Some e => ([], Some e)
          | None =>
              (map (fun p => mkProject (v1beta1.Project_Name p) (v1beta1.Project_ProjectId p))
                   (concat (fst (Projects_List cloud filter))), None)
          end)
         (mkWorld (rm w) (written w) (trace w ++ [EvProjectsList filter])).
Proof.
  intros filter. unfold ProjectsList, ProjectsListByFilter. msimpl. fold filter.
  destruct (Projects_List cloud filter) as [pages err]. simpl.
  destruct err; [reflexivity|]. now rewrite drain_pages.
Qed.

(** ** Ancestry *)

Section Ancestry.

Variable cloud : Cloud.

Lemma convertAncestors_all v1 w :
  forallb hasResourceId v1 = true ->
  convertAncestors (AncestorsV1 v1) w = Done (map convertOrNil v1) w.
Proof.
  intros Hall. unfold convertAncestors. apply (forM_pure_in _ convertOrNil).
  intros x Hx. rewrite forallb_forall in Hall. specialize (Hall x Hx).
  unfold hasResourceId, convertOrNil in *.
  destruct (v1beta1.Ancestor_ResourceId x); [reflexivity | discriminate].
Qed.

Lemma convertAncestors_hole v1 w :
  forallb hasResourceId v1 = false ->
  convertAncestors (AncestorsV1 v1) w
  = Panic "invalid memory address or nil pointer dereference" w.
Proof.
  unfold convertAncestors. induction v1 as [|a v1 IH]; [discriminate|].
  cbn [forallb forM]. unfold hasResourceId at 1.
  destruct (v1beta1.Ancestor_ResourceId a) as [rid|]; [|reflexivity].
  cbn [andb]. intros Hrest. unfold mbind at 1, M_bind at 1. cbn [ret mret M_ret].
  unfold mbind at 1, M_bind at 1. now rewrite (IH Hrest).
Qed.

Lemma GetOrgIdFromProjectId_exact projectId v1 a rid w :
  Projects_GetAncestry cloud projectId = OK (AncestorsV1 v1) ->
  forallb hasResourceId v1 = true ->
  last v1 = Some a ->
  v1beta1.Ancestor_ResourceId a = Some rid ->
  GetOrgIdFromProjectId cloud projectId w
  = Done None
      (mkWorld (mkResourceManager (v1beta1.ResourceId_Id rid) (rm_roleMap (rm w))) (written w)
         (trace w ++ [EvGetAncestry projectId;
                      EvStdout ("OrgId of " +:+ v1beta1.ResourceId_Id rid
                                +:+ " found from Project ID " +:+ projectId +:+ nl)])).
Proof.
  intros Hg Hall Hlast Hrid.
  assert (Hanc : GetAncestryForProject cloud projectId w
                 = Done (map convertOrNil v1, None)
                     (mkWorld (rm w) (written w) (trace w ++ [EvGetAncestry projectId]))).
  { rewrite (GetAncestryForProject_OK _ _ _ w Hg).
    erewrite bind_Done; [reflexivity|]. now apply convertAncestors_all. }
  unfold GetOrgIdFromProjectId. rewrite (bind_Done _ _ _ _ _ Hanc). cbn beta iota.
  assert (Hidx : last (map convertOrNil v1) = Some (convertOrNil a)).
  { change (map convertOrNil v1) with (convertOrNil <$> v1). now rewrite fmap_last, Hlast. }
  rewrite (bind_Done _ _ _ _ _ (index_last _ _ _ Hidx)).
  unfold convertOrNil. rewrite Hrid. msimpl. msimpl. now rewrite <- app_assoc.
Qed.

End Ancestry.

(** X3. [convertAncestors] on the slice it recognises: when every ancestor
    carries a resource id, the result has one canonical ancestor per input
    ancestor, in the same order, with the same id and type; when some
    ancestor has no resource id, the conversion dereferences nil and panics. *)
Theorem convertAncestors_slice (v1 : list v1beta1.Ancestor) (w : World) :
  (forallb hasResourceId v1 = true ->
   exists results,
     convertAncestors (AncestorsV1 v1) w = Done results w
     /\ length results = length v1
     /\ forall i a, v1 !! i = Some a ->
          exists rid, v1beta1.Ancestor_ResourceId a = Some rid
                      /\ results !! i = Some (mkAncestor
                                                (Some (mkResourceId (v1beta1.ResourceId_Id rid)
                                                                    (v1beta1.ResourceId_Type rid)))))
  /\ (forallb hasResourceId v1 = false ->
      convertAncestors (AncestorsV1 v1) w
      = Panic "invalid memory address or nil pointer dereference" w).
Proof.
  split; [|apply convertAncestors_hole].
  intros Hall. exists (map convertOrNil v1). split; [now apply convertAncestors_all|].
  split; [apply length_map|]. intros i a Hi.
  assert (Ha : hasResourceId a = true).
  { rewrite forallb_forall in Hall. apply Hall. apply list_elem_of_In.
    eapply list_elem_of_lookup_2. exact Hi. }
  unfold hasResourceId in Ha.
  destruct (v1beta1.Ancestor_ResourceId a) as [rid|] eqn:Hrid; [|discriminate].
  exists rid. split; [reflexivity|].
  change (map convertOrNil v1) with (convertOrNil <$> v1).
  rewrite list_lookup_fmap, Hi. simpl. unfold convertOrNil. now rewrite Hrid.
Qed.

Lemma convertAncestors_slice_witness :
  (exists results,
     convertAncestors
       (AncestorsV1 [v1beta1.mkAncestor (Some (v1beta1.mkResourceId "P" "project"));
                     v1beta1.mkAncestor (Some (v1beta1.mkResourceId "O" "organization"))])
       emptyWorld = Done results emptyWorld
     /\ length results = 2)
  /\ convertAncestors
       (AncestorsV1 [v1beta1.mkAncestor (Some (v1beta1.mkResourceId "P" "project"));
                     v1beta1.mkAncestor None]) emptyWorld
     = Panic "invalid memory address or nil pointer dereference" emptyWorld.
Proof.
  split.
  - destruct (proj1 (convertAncestors_slice
                       [v1beta1.mkAncestor (Some (v1beta1.mkResourceId "P" "project"));
                        v1beta1.mkAncestor (Some (v1beta1.mkResourceId "O" "organization"))]
                       emptyWorld) eq_refl) as (results & Hrun & Hlen & _).
    exists results. split; [exact Hrun | exact Hlen].
  - apply (proj2 (convertAncestors_slice
                    [v1beta1.mkAncestor (Some (v1beta1.mkResourceId "P" "project"));
                     v1beta1.mkAncestor None] emptyWorld)).
    reflexivity.
Defined.

(** X4. With a well-formed ancestry, [GetOrgIdFromProjectId] makes the id of
    the last ancestor the organization id of the manager, whatever the type
    of that ancestor (it is not checked to be an organization); the memo
    table and the writer are left alone, and the only call made is the
    ancestry call. *)
Theorem GetOrgIdFromProjectId_takes_last (cloud : Cloud) (projectId : string)
    (v1 : list v1beta1.Ancestor) (a : v1beta1.Ancestor) (rid : v1beta1.ResourceId) (w : World) :
  Projects_GetAncestry cloud projectId = OK (AncestorsV1 v1) ->
  forallb hasResourceId v1 = true ->
  last v1 = Some a ->
  v1beta1.Ancestor_ResourceId a = Some rid ->
  GetOrgIdFromProjectId cloud projectId w
  = Done None
      (mkWorld (mkResourceManager (v1beta1.ResourceId_Id rid) (rm_roleMap (rm w))) (written w)
         (trace w ++ [EvGetAncestry projectId;
                      EvStdout ("OrgId of " +:+ v1beta1.ResourceId_Id rid
                                +:+ " found from Project ID " +:+ projectId +:+ nl)])).
Proof. apply GetOrgIdFromProjectId_exact. Qed.

Lemma GetOrgIdFromProjectId_takes_last_witness :
  exists w', GetOrgIdFromProjectId orphanProjectCloud "P" emptyWorld = Done None w'
             /\ rm_orgId (rm w') = "P".
Proof.
  eexists. split.
  - apply (GetOrgIdFromProjectId_takes_last orphanProjectCloud "P"
             [v1beta1.mkAncestor (Some (v1beta1.mkResourceId "P" "project"))]
             (v1beta1.mkAncestor (Some (v1beta1.mkResourceId "P" "project")))
             (v1beta1.mkResourceId "P" "project") emptyWorld); reflexivity.
  - reflexivity.
Defined.

(** X5. When the ancestry call fails, [GetOrgIdFromProjectId] returns the
    error wrapped with the project id and leaves the manager as it was; when
    the ancestry has an element without a resource id, it panics. *)
Theorem GetOrgIdFromProjectId_failure (cloud : Cloud) (projectId : string) (w : World) :
  (forall e, Projects_GetAncestry cloud projectId = Fail e ->
     GetOrgIdFromProjectId cloud projectId w
     = Done (Some ("Unable to get org for project " +:+ projectId +:+ ": " +:+ e))
         (mkWorld (rm w) (written w) (trace w ++ [EvGetAncestry projectId])))
  /\ (forall v1, Projects_GetAncestry cloud projectId = OK (AncestorsV1 v1) ->
        forallb hasResourceId v1 = false ->
        GetOrgIdFromProjectId cloud projectId w
        = Panic "invalid memory address or nil pointer dereference"
            (mkWorld (rm w) (written w) (trace w ++ [EvGetAncestry projectId]))).
Proof.
  split.
  - intros e He. unfold GetOrgIdFromProjectId, GetAncestryForProject. msimpl.
    now rewrite He.
  - intros v1 Hg Hhole.
    assert (Hanc : GetAncestryForProject cloud projectId w
                   = Panic "invalid memory address or nil pointer dereference"
                       (mkWorld (rm w) (written w) (trace w ++ [EvGetAncestry projectId]))).
    { rewrite (GetAncestryForProject_OK _ _ _ w Hg).
      unfold mbind, M_bind. now rewrite (convertAncestors_hole v1 _ Hhole). }
    unfold GetOrgIdFromProjectId, mbind, M_bind. now rewrite Hanc.
Qed.

Lemma GetOrgIdFromProjectId_failure_witness :
  GetOrgIdFromProjectId deadCloud "P" emptyWorld
  = Done (Some "Unable to get org for project P: 403")
      (mkWorld zeroResourceManager [] [EvGetAncestry "P"])
  /\ GetOrgIdFromProjectId holeAncestryCloud "P" emptyWorld
     = Panic "invalid memory address or nil pointer dereference"
         (mkWorld zeroResourceManager [] [EvGetAncestry "P"]).
Proof.
  split.
  - apply (proj1 (GetOrgIdFromProjectId_failure deadCloud "P" emptyWorld) "403"). reflexivity.
  - apply (proj2 (GetOrgIdFromProjectId_failure holeAncestryCloud "P" emptyWorld)
             [v1beta1.mkAncestor (Some (v1beta1.mkResourceId "P" "project"));
              v1beta1.mkAncestor None]); reflexivity.
Defined.

(** ** Building the manager *)

(** X6. When building one of the three API clients fails,
    [NewResourceManager] returns that error as it is, hands back an empty
    manager, and does nothing after the failed constructor: no later client
    is built and nothing is looked up. *)
Theorem NewResourceManager_client_failure (cloud : Cloud)
    (credentialsPath orgId projectId : string) (w : World) :
  (forall e, NewService_v1beta1 cloud = Some e ->
     NewResourceManager cloud credentialsPath orgId projectId w
     = Done (Some e)
         (mkWorld zeroResourceManager (written w)
            (trace w ++ [EvNewService "cloudresourcemanager/v1beta1"])))
  /\ (forall e, NewService_v1beta1 cloud = None -> NewService_v2beta1 cloud = Some e ->
        NewResourceManager cloud credentialsPath orgId projectId w
        = Done (Some e)
            (mkWorld zeroResourceManager (written w)
               (trace w ++ [EvNewService "cloudresourcemanager/v1beta1";
                            EvNewService "cloudresourcemanager/v2beta1"])))
  /\ (forall e, NewService_v1beta1 cloud = None -> NewService_v2beta1 cloud = None ->
        NewService_iam cloud = Some e ->
        NewResourceManager cloud credentialsPath orgId projectId w
        = Done (Some e)
            (mkWorld zeroResourceManager (written w)
               (trace w ++ [EvNewService "cloudresourcemanager/v1beta1";
                            EvNewService "cloudresourcemanager/v2beta1";
                            EvNewService "iam/v1"]))).
Proof.
  split; [|split].
  - intros e H1. unfold NewResourceManager, NewService. rewrite H1. reflexivity.
  - intros e H1 H2. unfold NewResourceManager, NewService. rewrite H1, H2. msimpl.
    now rewrite <- !app_assoc.
  - intros e H1 H2 H3. unfold NewResourceManager, NewService. rewrite H1, H2, H3. msimpl.
    now rewrite <- !app_assoc.
Qed.

Lemma NewResourceManager_client_failure_witness :
  NewResourceManager brokenListingCloud "" "O" "" emptyWorld
  = Done (Some "iam: no credentials")
      (mkWorld zeroResourceManager []
         [EvNewService "cloudresourcemanager/v1beta1";
          EvNewService "cloudresourcemanager/v2beta1"; EvNewService "iam/v1"]).
Proof.
  apply (proj2 (proj2 (NewResourceManager_client_failure brokenListingCloud "" "O" ""
                         emptyWorld)) "iam: no credentials"); reflexivity.
Defined.

Section CredentialLookup.

Variable cloud : Cloud.

(** X7. The steps of [getProjectIdFromCredentials] presuppose one another:
    the credentials file is looked at only when a path is given and the
    default credentials name no project, it is read only after [Stat]
    succeeded, and only the data read is parsed; no other service is called.
    The lookup never panics; a project id returned without an error is never
    empty, and with an error the id returned is empty. *)
Theorem getProjectIdFromCredentials_steps credentialsPath :
  spec (credentialStep cloud credentialsPath)
       (fun res => (snd res = None -> fst res <> "") /\ (snd res <> None -> fst res = ""))
       False (getProjectIdFromCredentials cloud credentialsPath).
Proof.
  unfold getProjectIdFromCredentials, fmt_Printf.
  apply spec_say; [exact I|].
  destruct (FindDefaultCredentials cloud) as [c|e] eqn:Hfd;
    [destruct (String.eqb (google.Credentials_ProjectID c) "") eqn:Hc; simpl;
       [|apply String.eqb_neq in Hc; apply spec_say; [exact I|]; apply spec_ret; simpl;
         split; [auto | intros H; now destruct H]]|];
    (assert (Hdef : defaultProject cloud = None)
       by (unfold defaultProject; rewrite Hfd; try rewrite Hc; reflexivity);
     destruct (String.eqb credentialsPath "") eqn:Hp;
       [apply spec_ret; simpl; split; [discriminate | reflexivity]|];
     apply String.eqb_neq in Hp; apply spec_say; [simpl; auto|];
     destruct (Stat cloud credentialsPath) eqn:Hs;
       [apply spec_ret; simpl; split; [discriminate | reflexivity]|];
     apply spec_say; [simpl; auto|];
     destruct (ReadFile cloud credentialsPath) as [data|e'] eqn:Hr;
       [|apply spec_ret; simpl; split; [discriminate | reflexivity]];
     apply spec_say; [simpl; auto|];
     destruct (CredentialsFromJSON cloud data) as [c'|e'];
       [|apply spec_ret; simpl; split; [discriminate | reflexivity]];
     destruct (String.eqb (google.Credentials_ProjectID c') "") eqn:Hc';
       [apply spec_ret; simpl; split; [discriminate | reflexivity]|];
     apply String.eqb_neq in Hc';
     apply spec_say; [exact I|]; apply spec_ret; simpl;
     split; [auto | intros H; now destruct H]).
Qed.

End CredentialLookup.

(** X8. Default credentials that name a project win: the project id is
    returned after the one call that finds them, and the credentials file is
    neither looked at nor read, whatever path was given. *)
Theorem getProjectIdFromCredentials_default_first (cloud : Cloud) (credentialsPath p : string)
    (w : World) :
  defaultProject cloud = Some p ->
  getProjectIdFromCredentials cloud credentialsPath w
  = Done (p, None)
      (mkWorld (rm w) (written w)
         (trace w ++ [EvFindDefaultCredentials;
                      EvStdout ("Project ID found from default credentials: " +:+ p +:+ nl)])).
Proof.
  unfold defaultProject, getProjectIdFromCredentials.
  destruct (FindDefaultCredentials cloud) as [c|e]; [|discriminate].
  destruct (String.eqb (google.Credentials_ProjectID c) ""); [discriminate|].
  intros [= <-]. msimpl. now rewrite <- app_assoc.
Qed.

Lemma getProjectIdFromCredentials_default_first_witness :
  getProjectIdFromCredentials demoCloud "creds.json" emptyWorld
  = Done ("P", None)
      (mkWorld zeroResourceManager []
         [EvFindDefaultCredentials;
          EvStdout ("Project ID found from default credentials: " +:+ "P" +:+ nl)]).
Proof.
  apply (getProjectIdFromCredentials_default_first demoCloud "creds.json" "P" emptyWorld).
  reflexivity.
Defined.

Section DerivationErrors.

Variable cloud : Cloud.

Lemma GetOrgIdFromProjectId_Fail projectId e w :
  Projects_GetAncestry cloud projectId = Fail e ->
  GetOrgIdFromProjectId cloud projectId w
  = Done (Some ("Unable to get org for project " +:+ projectId +:+ ": " +:+ e))
      (mkWorld (rm w) (written w) (trace w ++ [EvGetAncestry projectId])).
Proof.
  intros He. unfold GetOrgIdFromProjectId, GetAncestryForProject. msimpl. now rewrite He.
Qed.

End DerivationErrors.

(** X9. When the ancestry of the chosen project cannot be fetched, the
    construction returns the error of the ancestry call, wrapped twice, and
    an empty manager. The outer wrapping names the project id found in the
    credentials; when the project id was given by the caller that slot of the
    message stays empty. *)
Theorem NewResourceManager_ancestry_error (cloud : Cloud) (credentialsPath projectId : string)
    (e : error) (w : World) :
  servicesUp cloud ->
  (projectId <> "" -> Projects_GetAncestry cloud projectId = Fail e ->
   NewResourceManager cloud credentialsPath "" projectId w
   = Done (Some ("Error getting OrgId from ProjectId " +:+ "" +:+ ": "
                 +:+ "Unable to get org for project " +:+ projectId +:+ ": " +:+ e))
       (mkWorld zeroResourceManager (written w)
          (trace w ++ [EvNewService "cloudresourcemanager/v1beta1";
                       EvNewService "cloudresourcemanager/v2beta1";
                       EvNewService "iam/v1";
                       EvStdout ("OrgId not specified, checking by ProjectId" +:+ nl);
                       EvGetAncestry projectId])))
  /\ (forall p, projectId = "" -> discoveredProject cloud credentialsPath = Some p ->
        Projects_GetAncestry cloud p = Fail e ->
        exists w',
          NewResourceManager cloud credentialsPath "" projectId w
          = Done (Some ("Error getting OrgId from ProjectId " +:+ p +:+ ": "
                        +:+ "Unable to get org for project " +:+ p +:+ ": " +:+ e)) w'
          /\ rm w' = zeroResourceManager).
Proof.
  intros (H1 & H2 & H3). split.
  - intros Hp He. apply String.eqb_neq in Hp.
    unfold NewResourceManager, NewService. rewrite H1, H2, H3, String.eqb_refl, Hp.
    munfold. cbn -[String.append GetOrgIdFromProjectId].
    rewrite (GetOrgIdFromProjectId_Fail cloud _ _ _ He). cbn -[String.append].
    now rewrite <- !app_assoc.
  - intros p -> Hd He.
    unfold NewResourceManager, NewService. rewrite H1, H2, H3, String.eqb_refl.
    munfold. cbn -[String.append GetOrgIdFromProjectId getProjectIdFromCredentials].
    match goal with
    | |- context [getProjectIdFromCredentials _ _ ?W] =>
        destruct (getProjectIdFromCredentials_spec cloud credentialsPath W) as (_ & _ & _ & HR);
        destruct (getProjectIdFromCredentials cloud credentialsPath W) as [[p' err] W2|] eqn:E;
        [|contradiction]
    end.
    rewrite Hd in HR. simpl in HR. destruct HR as [-> ->].
    rewrite (GetOrgIdFromProjectId_Fail cloud _ _ _ He). cbn -[String.append].
    eexists. split; reflexivity.
Qed.

Lemma NewResourceManager_ancestry_error_witness :
  NewResourceManager deadCloud "" "" "P" emptyWorld
  = Done (Some "Error getting OrgId from ProjectId : Unable to get org for project P: 403")
      (mkWorld zeroResourceManager []
         [EvNewService "cloudresourcemanager/v1beta1";
          EvNewService "cloudresourcemanager/v2beta1";
          EvNewService "iam/v1";
          EvStdout ("OrgId not specified, checking by ProjectId" +:+ nl);
          EvGetAncestry "P"])
  /\ exists w',
       NewResourceManager fileProjectCloud "creds.json" "" "" emptyWorld
       = Done (Some "Error getting OrgId from ProjectId Q: Unable to get org for project Q: 403")
           w'
       /\ rm w' = zeroResourceManager.
Proof.
  split.
  - apply (proj1 (NewResourceManager_ancestry_error deadCloud "" "P" "403" emptyWorld
                    (conj eq_refl (conj eq_refl eq_refl)))).
    + discriminate.
    + reflexivity.
  - apply (proj2 (NewResourceManager_ancestry_error fileProjectCloud "creds.json" "" "403"
                    emptyWorld (conj eq_refl (conj eq_refl eq_refl))) "Q");
      reflexivity.
Defined.

(** ** The memo table *)

Section MemoTable.

Variable cloud : Cloud.

Lemma cacheSound_lookup w u : cacheSound cloud w -> lookupRole cloud w u = Roles_Get cloud u.
Proof.
  intros Hs. unfold lookupRole. destruct (rm_roleMap (rm w) !! u) as [r|] eqn:E; [|reflexivity].
  now rewrite (Hs u r E).
Qed.

Lemma cacheSound_grows w w' : cacheSound cloud w -> cacheGrows cloud w w' -> cacheSound cloud w'.
Proof.
  intros Hs Hg u r Hr. destruct (Hg u) as [Hkeep Hnew].
  destruct (rm_roleMap (rm w) !! u) as [r0|] eqn:E.
  - rewrite (Hkeep r0 eq_refl) in Hr. injection Hr as <-. now apply Hs.
  - now apply Hnew.
Qed.

Lemma cacheSound_empty w : rm_roleMap (rm w) = ∅ -> cacheSound cloud w.
Proof. intros H u r. rewrite H, lookup_empty. discriminate. Qed.

Lemma resolveRole_lookup row w :
  cacheSound cloud w ->
  resolveRole cloud row
  = if String.eqb (Row_Type row) "project" || String.eqb (Row_Type row) "organization" then
      match lookupRole cloud w (try_uri_of row) with
      | OK role => OK role
      | Fail _ => lookupRole cloud w (Row_Role row)
      end
    else lookupRole cloud w (Row_Role row).
Proof. intros Hs. unfold resolveRole. now rewrite !(cacheSound_lookup _ _ Hs). Qed.

Lemma GetRole_sound row w :
  cacheSound cloud w ->
  exists w',
    GetRole cloud row w
    = Done (match resolveRole cloud row with
            | OK role => (Some role, None)
            | Fail e => (Some iam.zeroRole, Some (lookupError (Row_Role row) e))
            end) w'
    /\ cacheSound cloud w' /\ written w' = written w.
Proof.
  intros Hs. rewrite (resolveRole_lookup row w Hs).
  destruct (GetRole_total cloud row w) as (res & w' & Hrun & Hg & Hw & _).
  exists w'. split; [|split; [eapply cacheSound_grows; eassumption | exact Hw]].
  rewrite Hrun. f_equal.
  destruct (GetRole_shape cloud row w) as [(role & Hk & Hl & Heq)|[Hfail Heq]];
    rewrite Heq in Hrun; injection Hrun as <- _.
  - rewrite (proj2 (scopedKind_test row) Hk), Hl. reflexivity.
  - destruct (String.eqb (Row_Type row) "project" || String.eqb (Row_Type row) "organization")
      eqn:Hk; [|reflexivity].
    apply scopedKind_test in Hk. destruct (Hfail Hk) as [e ->]. reflexivity.
Qed.

Lemma GetRolePermissions_sound row w :
  cacheSound cloud w ->
  exists w',
    GetRolePermissions cloud row w
    = Done (match resolveRole cloud row with
            | OK role => (iam.Role_IncludedPermissions role, None)
            | Fail e =>
                ([], Some ("row: " +:+ SprintfGoSyntax cloud row +:+ ", "
                           +:+ lookupError (Row_Role row) e))
            end) w'
    /\ cacheSound cloud w' /\ written w' = written w.
Proof.
  intros Hs. destruct (GetRole_sound row w Hs) as (w' & Hrun & Hs' & Hw).
  exists w'. split; [|auto]. rewrite (GetRolePermissions_of_GetRole _ _ _ _ _ Hrun).
  destruct (resolveRole cloud row); reflexivity.
Qed.

End MemoTable.

(** X10. Looking a URI up twice: after a successful lookup, the second lookup
    returns the same role without calling the role service and changes
    nothing; after a failed lookup nothing has been memoized, and the second
    lookup calls the role service again and fails with the same error. *)
Theorem getRoleByUri_twice (cloud : Cloud) (uri : string) (w w1 : World)
    (res : option iam.Role * option error) :
  _getRoleByUri cloud uri w = Done res w1 ->
  (forall role, res = (Some role, None) ->
     _getRoleByUri cloud uri w1 = Done (Some role, None) w1)
  /\ (forall e, res = (None, Some e) ->
        rm w1 = rm w
        /\ _getRoleByUri cloud uri w1
           = Done (None, Some e) (mkWorld (rm w1) (written w1) (trace w1 ++ [EvRolesGet uri]))).
Proof.
  rewrite _getRoleByUri_spec. intros [= <- <-]. split.
  - intros role Hres.
    destruct (lookupRole cloud w uri) as [r|e] eqn:Hl; [|discriminate].
    injection Hres as ->.
    destruct (afterLookup_OK _ _ _ _ Hl) as [Hin _].
    destruct (lookupRole_cached cloud _ _ _ Hin) as [Hl2 Hw2].
    rewrite _getRoleByUri_spec, Hl2, Hw2. reflexivity.
  - intros e Hres.
    destruct (lookupRole cloud w uri) as [r|e0] eqn:Hl; [discriminate|].
    injection Hres as <-.
    destruct (afterLookup_Fail _ _ _ _ Hl) as (Hrm & _ & _). split; [exact Hrm|].
    rewrite _getRoleByUri_spec, (lookupRole_same_map _ _ _ _ Hrm), Hl.
    f_equal. unfold afterLookup at 1. rewrite Hrm.
    destruct (lookupRole_Fail_inv _ _ _ _ Hl) as [-> ->]. reflexivity.
Qed.

Lemma getRoleByUri_twice_witness :
  (exists w1, _getRoleByUri demoCloud "roles/viewer" emptyWorld = Done (Some viewerRole, None) w1
              /\ _getRoleByUri demoCloud "roles/viewer" w1 = Done (Some viewerRole, None) w1)
  /\ (exists w1, _getRoleByUri demoCloud "roles/nope" emptyWorld
                 = Done (None, Some "uri[roles/nope]: 404") w1
                 /\ rm w1 = rm emptyWorld).
Proof.
  split.
  - eexists. split; [reflexivity|].
    apply (proj1 (getRoleByUri_twice demoCloud "roles/viewer" emptyWorld _ _ eq_refl)).
    reflexivity.
  - eexists. split; [reflexivity|].
    apply (proj2 (getRoleByUri_twice demoCloud "roles/nope" emptyWorld _ _ eq_refl)
             "uri[roles/nope]: 404").
    reflexivity.
Defined.

(** X11. When the candidates of a row all fail, [GetRolePermissions] returns
    no permission and an error made of the rendering of the row and of the
    error of the verbatim lookup alone (the error of the scoped lookup is
    dropped); the manager and the writer are left as they were. *)
Theorem GetRolePermissions_error (cloud : Cloud) (row : Row) (w : World) (e : error) :
  (scopedKind row -> exists e', lookupRole cloud w (try_uri_of row) = Fail e') ->
  lookupRole cloud w (Row_Role row) = Fail e ->
  exists w1,
    GetRolePermissions cloud row w
    = Done ([], Some ("row: " +:+ SprintfGoSyntax cloud row +:+ ", "
                      +:+ "uri[" +:+ Row_Role row +:+ "]: " +:+ e)) w1
    /\ rm w1 = rm w /\ written w1 = written w.
Proof.
  intros Hs He. pose proof (GetRole_verbatim cloud row w Hs) as Hget. rewrite He in Hget.
  rewrite (GetRolePermissions_of_GetRole _ _ _ _ _ Hget). eexists. split; [reflexivity|].
  destruct (beforeVerbatim_failed cloud row w Hs) as [Hrm _].
  assert (He' : lookupRole cloud (beforeVerbatim cloud row w) (Row_Role row) = Fail e)
    by now rewrite (lookupRole_same_map _ _ _ _ Hrm).
  destruct (afterLookup_Fail _ _ _ _ He') as (Hrm' & _ & _).
  split; [now rewrite Hrm'|]. now rewrite afterLookup_written, beforeVerbatim_written.
Qed.

Lemma GetRolePermissions_error_witness :
  exists w1,
    GetRolePermissions demoCloud (mkRow "P" "project" "roles/nope" "user:a") emptyWorld
    = Done ([], Some "row: &main.Row{}, uri[roles/nope]: 404") w1
    /\ rm w1 = rm emptyWorld.
Proof.
  destruct (GetRolePermissions_error demoCloud (mkRow "P" "project" "roles/nope" "user:a")
              emptyWorld "404") as (w1 & Hrun & Hrm & _).
  - intros _. exists "404". reflexivity.
  - reflexivity.
  - exists w1. split; [exact Hrun | exact Hrm].
Defined.

(** X12. Memoization does not change what a resolution answers: in a world
    whose memo table holds only answers of the role service (as the table of
    a fresh manager, which is empty), [GetRolePermissions] returns what the
    role service alone would give for the row (the scoped URI first for a
    project or an organization, then the role reference as it stands), and
    the memo table it leaves again holds only answers of the role service. *)
Theorem GetRolePermissions_transparent (cloud : Cloud) (row : Row) (w : World) :
  cacheSound cloud w ->
  exists w',
    GetRolePermissions cloud row w
    = Done (match resolveRole cloud row with
            | OK role => (iam.Role_IncludedPermissions role, None)
            | Fail e =>
                ([], Some ("row: " +:+ SprintfGoSyntax cloud row +:+ ", "
                           +:+ "uri[" +:+ Row_Role row +:+ "]: " +:+ e))
            end) w'
    /\ cacheSound cloud w'.
Proof.
  intros Hs. destruct (GetRolePermissions_sound cloud row w Hs) as (w' & Hrun & Hs' & _).
  exists w'. split; [exact Hrun | exact Hs'].
Qed.

Lemma GetRolePermissions_transparent_witness :
  exists w',
    GetRolePermissions demoCloud (mkRow "P" "project" "roles/editor" "user:b@x.com") emptyWorld
    = Done (["permC"], None) w'
    /\ cacheSound demoCloud w'.
Proof.
  apply (GetRolePermissions_transparent demoCloud
           (mkRow "P" "project" "roles/editor" "user:b@x.com") emptyWorld).
  intros u r H. vm_compute in H. discriminate.
Defined.

(** ** Printing *)

Section PrintingRows.

Variable cloud : Cloud.

Lemma printLines_exact r permissions w :
  printLines cloud r permissions w
  = Done tt
      (mkWorld (rm w)
         (written w
          ++ acceptedLines cloud (written w)
               (map (csvLine (Row_Resource r) (Row_Type r) (Row_Member r) (Row_Role r))
                    permissions))
         (trace w)).
Proof.
  revert w. induction permissions as [|p permissions IH]; intros w.
  - simpl. rewrite app_nil_r. now destruct w.
  - cbn [printLines map acceptedLines]. unfold mbind, M_bind, fmt_Fprintf.
    destruct (Fprintf cloud (written w) _).
    + rewrite app_nil_r. now destruct w.
    + rewrite IH. cbn [rm written trace]. now rewrite <- app_assoc.
Qed.

Lemma acceptedLines_prefix accepted lines :
  exists k, acceptedLines cloud accepted lines = take k lines.
Proof.
  revert accepted. induction lines as [|line lines IH]; intros accepted; simpl.
  - now exists 0.
  - destruct (Fprintf cloud accepted line); [now exists 0|].
    destruct (IH (accepted ++ [line])) as [k ->]. now exists (S k).
Qed.

Lemma acceptedLines_all accepted lines :
  writerAccepts cloud -> acceptedLines cloud accepted lines = lines.
Proof.
  intros Hw. revert accepted. induction lines as [|line lines IH]; intros accepted; simpl.
  - reflexivity.
  - rewrite (Hw accepted line). now rewrite IH.
Qed.

Lemma Row_Print_exact row w permissions err w1 :
  GetRolePermissions cloud row w = Done (permissions, err) w1 ->
  Row_Print cloud row w
  = Done err
      (match err with
       | Some _ =>
           mkWorld (rm w1)
             (written w1
              ++ acceptedLines cloud (written w1)
                   [csvLine (Row_Resource row) (Row_Type row) (Row_Member row) (Row_Role row)
                            "UNKNOWN"])
             (trace w1 ++ [EvLogErr ("Error: Error getting permissions for "
                                     +:+ Row_Role row +:+ nl)])
       | None =>
           mkWorld (rm w1)
             (written w1
              ++ acceptedLines cloud (written w1)
                   (map (csvLine (Row_Resource row) (Row_Type row) (Row_Member row)
                                 (Row_Role row)) permissions))
             (trace w1)
       end).
Proof.
  intros Hrun. unfold Row_Print. rewrite (bind_Done _ _ _ _ _ Hrun).
  destruct err as [e|]; msimpl; rewrite printLines_exact; reflexivity.
Qed.

End PrintingRows.

(** X13. A row whose role resolves is printed as one line per permission of
    the role, in the order of the role, when the writer takes every line, and
    [Print] returns no error; the lines carry the resource, the type, the
    member and the role of the row. A role without permissions gives no line
    at all. *)
Theorem Row_Print_resolved (cloud : Cloud) (row : Row) (w w1 : World)
    (permissions : list string) :
  GetRolePermissions cloud row w = Done (permissions, None) w1 ->
  writerAccepts cloud ->
  Row_Print cloud row w
  = Done None
      (mkWorld (rm w1)
         (written w
          ++ map (csvLine (Row_Resource row) (Row_Type row) (Row_Member row) (Row_Role row))
                 permissions)
         (trace w1))
  /\ (permissions = [] -> written (outWorld (Row_Print cloud row w)) = written w).
Proof.
  intros Hrun Hw.
  destruct (GetRolePermissions_total cloud row w) as (p & e & w' & Hrun' & _ & Hwr).
  rewrite Hrun in Hrun'. injection Hrun' as <- <- <-.
  rewrite (Row_Print_exact cloud _ _ _ _ _ Hrun), (acceptedLines_all cloud _ _ Hw), Hwr.
  split; [reflexivity|]. intros ->. simpl. now rewrite app_nil_r.
Qed.

Lemma Row_Print_resolved_witness :
  written (outWorld (Row_Print demoCloud (mkRow "O" "organization" "roles/viewer" "user:a@x.com")
                       emptyWorld))
  = [csvLine "O" "organization" "user:a@x.com" "roles/viewer" "permA";
     csvLine "O" "organization" "user:a@x.com" "roles/viewer" "permB"].
Proof.
  pose (row := mkRow "O" "organization" "roles/viewer" "user:a@x.com").
  pose (w1 := outWorld (GetRolePermissions demoCloud row emptyWorld)).
  assert (H1 : GetRolePermissions demoCloud row emptyWorld = Done (["permA"; "permB"], None) w1)
    by (vm_compute; reflexivity).
  destruct (Row_Print_resolved demoCloud row emptyWorld w1 ["permA"; "permB"] H1
              (fun _ _ => eq_refl)) as [Hrun _].
  fold row. rewrite Hrun. reflexivity.
Defined.

(** X14. [Print] returns the error of the resolution and nothing else: a line
    that the writer refuses is not reported, it only ends the printing of the
    row, so that what is written is a prefix of the lines of the row (the
    line with [UNKNOWN] when the resolution failed). [Print] never panics. *)
Theorem Row_Print_swallows_write_errors (cloud : Cloud) (row : Row) (w : World) :
  exists permissions err w1 w' k,
    GetRolePermissions cloud row w = Done (permissions, err) w1
    /\ Row_Print cloud row w = Done err w'
    /\ rm w' = rm w1
    /\ written w'
       = written w
         ++ take k (map (csvLine (Row_Resource row) (Row_Type row) (Row_Member row)
                                 (Row_Role row))
                        (match err with
                         | Some _ => ["UNKNOWN"]
                         | None => permissions
                         end)).
Proof.
  destruct (GetRolePermissions_total cloud row w) as (p & e & w1 & Hrun & _ & Hwr).
  rewrite (Row_Print_exact cloud _ _ _ _ _ Hrun).
  destruct e as [e|].
  - destruct (acceptedLines_prefix cloud (written w1)
                [csvLine (Row_Resource row) (Row_Type row) (Row_Member row) (Row_Role row)
                         "UNKNOWN"]) as [k Hk].
    eexists p, _, w1, _, k. split; [exact Hrun|]. split; [reflexivity|].
    split; [reflexivity|]. cbn [written]. now rewrite Hk, Hwr.
  - destruct (acceptedLines_prefix cloud (written w1)
                (map (csvLine (Row_Resource row) (Row_Type row) (Row_Member row)
                              (Row_Role row)) p)) as [k Hk].
    eexists p, _, w1, _, k. split; [exact Hrun|]. split; [reflexivity|].
    split; [reflexivity|]. cbn [written]. now rewrite Hk, Hwr.
Qed.

Lemma Row_Print_swallows_write_errors_witness :
  exists w',
    Row_Print smallWriterCloud (mkRow "F" "folder" "roles/three" "user:a") emptyWorld
    = Done None w'
    /\ written w' = [csvLine "F" "folder" "user:a" "roles/three" "p1";
                     csvLine "F" "folder" "user:a" "roles/three" "p2"].
Proof.
  destruct (Row_Print_swallows_write_errors smallWriterCloud
              (mkRow "F" "folder" "roles/three" "user:a") emptyWorld)
    as (p & e & w1 & w' & k & Hget & Hrun & _ & _).
  exists w'. vm_compute in Hget. injection Hget as <- <- <-.
  split; [exact Hrun|]. vm_compute in Hrun. injection Hrun as <-. reflexivity.
Defined.

Section PrintingAll.

Variable cloud : Cloud.

Lemma Row_Print_output row w :
  cacheSound cloud w -> writerAccepts cloud ->
  exists err w',
    Row_Print cloud row w = Done err w'
    /\ written w' = written w ++ rowLines cloud row
    /\ cacheSound cloud w'
    /\ (err = None <-> exists role, resolveRole cloud row = OK role).
Proof.
  intros Hs Hw. destruct (GetRolePermissions_sound cloud row w Hs) as (w1 & Hrun & Hs1 & Hwr).
  unfold rowLines, printedPermissions.
  destruct (resolveRole cloud row) as [role|e];
    rewrite (Row_Print_exact cloud _ _ _ _ _ Hrun), (acceptedLines_all cloud _ _ Hw);
    eexists _, _; (split; [reflexivity|]); cbn [written rm]; rewrite Hwr;
    (split; [reflexivity|]); (split; [exact Hs1|]).
  - split; eauto.
  - split; [discriminate | now intros [? [=]]].
Qed.

Lemma printRows_output rows w :
  cacheSound cloud w -> writerAccepts cloud ->
  exists w',
    printRows cloud rows w = Done tt w'
    /\ written w' = written w ++ flat_map (rowLines cloud) rows
    /\ cacheSound cloud w'.
Proof.
  intros Hs Hw. revert w Hs. induction rows as [|row rows IH]; intros w Hs.
  - exists w. simpl. rewrite app_nil_r. auto.
  - destruct (Row_Print_output row w Hs Hw) as (err & w1 & Hrun & Hwr & Hs1 & _).
    rewrite (printRows_step cloud _ _ _ _ _ Hrun).
    destruct err as [e|].
    + destruct (IH (mkWorld (rm w1) (written w1) (trace w1 ++ [EvLogErr ("Error: " +:+ e +:+ nl)]))
                  Hs1) as (w' & -> & Hwr' & Hs').
      exists w'. split; [reflexivity|]. split; [|exact Hs'].
      rewrite Hwr'. cbn [written flat_map]. now rewrite Hwr, <- app_assoc.
    + destruct (IH w1 Hs1) as (w' & -> & Hwr' & Hs').
      exists w'. split; [reflexivity|]. split; [|exact Hs'].
      rewrite Hwr'. cbn [flat_map]. now rewrite Hwr, <- app_assoc.
Qed.

End PrintingAll.

(** X15. What the printing loop writes: starting from a memo table that holds
    only answers of the role service, with a writer that takes every line,
    the lines written are, row after row in the order of the rows, the lines
    of each row: one per permission of the role its reference resolves to, or
    the single line with [UNKNOWN] when it does not resolve. *)
Theorem printRows_writes (cloud : Cloud) (rows : list Row) (w : World) :
  cacheSound cloud w -> writerAccepts cloud ->
  exists w',
    printRows cloud rows w = Done tt w'
    /\ written w' = written w ++ flat_map (rowLines cloud) rows.
Proof.
  intros Hs Hw. destruct (printRows_output cloud rows w Hs Hw) as (w' & Hrun & Hwr & _).
  exists w'. auto.
Qed.

Lemma printRows_writes_witness :
  exists w',
    printRows demoCloud [mkRow "P" "project" "roles/nope" "user:a";
                         mkRow "P" "project" "roles/editor" "user:b@x.com"] emptyWorld
    = Done tt w'
    /\ written w' = [csvLine "P" "project" "user:a" "roles/nope" "UNKNOWN";
                     csvLine "P" "project" "user:b@x.com" "roles/editor" "permC"].
Proof.
  apply (printRows_writes demoCloud [mkRow "P" "project" "roles/nope" "user:a";
                                     mkRow "P" "project" "roles/editor" "user:b@x.com"]
           emptyWorld).
  - intros u r H. vm_compute in H. discriminate.
  - intros accepted line. reflexivity.
Defined.

(** ** The tiers *)

Section Tiers.

Variable cloud : Cloud.

Lemma GetIamPolicyForFolder_OK folderId policy w :
  Folders_GetIamPolicy cloud folderId = OK policy ->
  GetIamPolicyForFolder cloud folderId w
  = Done (mkPolicy (map projectV2 (v2beta1.Policy_Bindings policy)) (v2beta1.Policy_Etag policy),
          None)
      (mkWorld (rm w) (written w) (trace w ++ [EvFoldersGetIamPolicy folderId])).
Proof.
  intros H. unfold GetIamPolicyForFolder, emit. unfold mbind at 1, M_bind at 1. rewrite H.
  erewrite bind_Done; [reflexivity | apply Policy_convertV2_zero].
Qed.

Lemma GetIamPolicyForFolder_Fail folderId e w :
  Folders_GetIamPolicy cloud folderId = Fail e ->
  GetIamPolicyForFolder cloud folderId w
  = Done (zeroPolicy, Some e)
      (mkWorld (rm w) (written w) (trace w ++ [EvFoldersGetIamPolicy folderId])).
Proof. intros H. unfold GetIamPolicyForFolder. msimpl. now rewrite H. Qed.

Lemma GetIamPolicyForProject_OK projectId policy w :
  Projects_GetIamPolicy cloud projectId = OK policy ->
  GetIamPolicyForProject cloud projectId w
  = Done (mkPolicy (map projectV1 (v1beta1.Policy_Bindings policy)) (v1beta1.Policy_Etag policy),
          None)
      (mkWorld (rm w) (written w) (trace w ++ [EvProjectsGetIamPolicy projectId])).
Proof.
  intros H. unfold GetIamPolicyForProject, emit. unfold mbind at 1, M_bind at 1. rewrite H.
  erewrite bind_Done; [reflexivity | apply Policy_convertV1_zero].
Qed.

Lemma GetIamPolicyForProject_Fail projectId e w :
  Projects_GetIamPolicy cloud projectId = Fail e ->
  GetIamPolicyForProject cloud projectId w
  = Done (zeroPolicy, Some e)
      (mkWorld (rm w) (written w) (trace w ++ [EvProjectsGetIamPolicy projectId])).
Proof. intros H. unfold GetIamPolicyForProject. msimpl. now rewrite H. Qed.

Lemma folderLoop_prefix pre rest rows w :
  Forall (folderPolicyOK cloud) pre ->
  folderLoop cloud (pre ++ rest) rows w
  = folderLoop cloud rest (rows ++ flat_map (folderPolicyRows cloud) pre)
      (mkWorld (rm w) (written w) (trace w ++ folderPolicyCalls pre)).
Proof.
  intros Hok. revert rows w. induction Hok as [|f pre [policy Hf] _ IH]; intros rows w.
  - simpl. rewrite !app_nil_r. now destruct w.
  - cbn [app folderLoop]. rewrite (bind_Done _ _ _ _ _ (GetIamPolicyForFolder_OK _ _ w Hf)).
    cbn beta iota. rewrite IH. cbn [rm written trace Policy_Bindings].
    unfold folderPolicyCalls. cbn [flat_map map]. unfold folderPolicyRows at 2.
    rewrite Hf, addBindings_flat_map. now rewrite <- !app_assoc.
Qed.

Lemma projectLoop_prefix pre rest rows w :
  Forall (projectPolicyOK cloud) pre ->
  projectLoop cloud (pre ++ rest) rows w
  = projectLoop cloud rest (rows ++ flat_map (projectPolicyRows cloud) pre)
      (mkWorld (rm w) (written w) (trace w ++ projectPolicyCalls pre)).
Proof.
  intros Hok. revert rows w. induction Hok as [|p pre [policy Hp] _ IH]; intros rows w.
  - simpl. rewrite !app_nil_r. now destruct w.
  - cbn [app projectLoop]. rewrite (bind_Done _ _ _ _ _ (GetIamPolicyForProject_OK _ _ w Hp)).
    cbn beta iota. rewrite IH. cbn [rm written trace Policy_Bindings].
    unfold projectPolicyCalls. cbn [flat_map map]. unfold projectPolicyRows at 2.
    rewrite Hp, addBindings_flat_map. now rewrite <- !app_assoc.
Qed.

Lemma FoldersList_exact parent w :
  FoldersList cloud parent w
  = Done (match snd (Folders_List cloud parent) with
          | Some e => ([], Some e)
          | None => (concat (fst (Folders_List cloud parent)), None)
          end)
         (mkWorld (rm w) (written w) (trace w ++ [EvFoldersList parent])).
Proof.
  unfold FoldersList. destruct (Folders_List cloud parent) as [pages err]. msimpl.
  destruct err; [reflexivity|]. rewrite drain_pages. simpl. now rewrite map_id.
Qed.

Lemma ProjectsList_exact w :
  ProjectsList cloud w
  = Done (match snd (Projects_List cloud
                       ("parent.type:organization parent.id:" +:+ rm_orgId (rm w))) with
          | Some e => ([], Some e)
          | None => (listedProjects cloud (rm_orgId (rm w)), None)
          end)
         (mkWorld (rm w) (written w)
            (trace w ++ [EvProjectsList
                           ("parent.type:organization parent.id:" +:+ rm_orgId (rm w))])).
Proof.
  unfold ProjectsList, ProjectsListByFilter, listedProjects. msimpl.
  destruct (Projects_List cloud _) as [pages err]. simpl.
  destruct err; [reflexivity|]. now rewrite drain_pages.
Qed.

Lemma GetFolderPolicyRows_prefix pre rest w :
  snd (Folders_List cloud ("organizations/" +:+ rm_orgId (rm w))) = None ->
  listedFolders cloud (rm_orgId (rm w)) = pre ++ rest ->
  Forall (folderPolicyOK cloud) pre ->
  GetFolderPolicyRows cloud w
  = folderLoop cloud rest (flat_map (folderPolicyRows cloud) pre)
      (mkWorld (rm w) (written w)
         (trace w ++ EvFoldersList ("organizations/" +:+ rm_orgId (rm w))
                     :: folderPolicyCalls pre)).
Proof.
  intros Herr Hl Hok. unfold GetFolderPolicyRows, listedFolders in *.
  unfold mbind at 1, M_bind at 1, getRm.
  rewrite (bind_Done _ _ _ _ _ (FoldersList_exact _ w)). rewrite Herr, Hl.
  cbn beta iota. rewrite (folderLoop_prefix _ _ _ _ Hok). cbn [rm written trace app].
  now rewrite <- app_assoc.
Qed.

Lemma GetProjectPolicyRows_prefix pre rest w :
  snd (Projects_List cloud ("parent.type:organization parent.id:" +:+ rm_orgId (rm w))) = None ->
  listedProjects cloud (rm_orgId (rm w)) = pre ++ rest ->
  Forall (projectPolicyOK cloud) pre ->
  GetProjectPolicyRows cloud w
  = projectLoop cloud rest (flat_map (projectPolicyRows cloud) pre)
      (mkWorld (rm w) (written w)
         (trace w ++ EvProjectsList ("parent.type:organization parent.id:" +:+ rm_orgId (rm w))
                     :: projectPolicyCalls pre)).
Proof.
  intros Herr Hl Hok. unfold GetProjectPolicyRows.
  rewrite (bind_Done _ _ _ _ _ (ProjectsList_exact w)). rewrite Herr, Hl.
  cbn beta iota. rewrite (projectLoop_prefix _ _ _ _ Hok). cbn [rm written trace app].
  now rewrite <- app_assoc.
Qed.

Lemma GetOrgPolicyRows_exact w :
  GetOrgPolicyRows cloud w
  = Done (orgPolicyRows cloud (rm_orgId (rm w)),
          match Organizations_GetIamPolicy cloud ("organizations/" +:+ rm_orgId (rm w)) with
          | OK _ => None
          | Fail e => Some e
          end)
      (mkWorld (rm w) (written w)
         (trace w ++ [EvOrganizationsGetIamPolicy ("organizations/" +:+ rm_orgId (rm w))])).
Proof.
  unfold GetOrgPolicyRows, orgPolicyRows.
  assert (H : GetIamPolicyForOrganization cloud w
              = Done (match Organizations_GetIamPolicy cloud
                              ("organizations/" +:+ rm_orgId (rm w)) with
                      | OK policy =>
                          (mkPolicy (map projectV1 (v1beta1.Policy_Bindings policy))
                                    (v1beta1.Policy_Etag policy), None)
                      | Fail e => (zeroPolicy, Some e)
                      end)
                  (mkWorld (rm w) (written w)
                     (trace w ++ [EvOrganizationsGetIamPolicy
                                    ("organizations/" +:+ rm_orgId (rm w))]))).
  { unfold GetIamPolicyForOrganization. unfold mbind at 1, M_bind at 1, getRm.
    unfold emit. unfold mbind at 1, M_bind at 1.
    destruct (Organizations_GetIamPolicy cloud _) as [policy|e]; [|reflexivity].
    erewrite bind_Done; [reflexivity | apply Policy_convertV1_zero]. }
  rewrite (bind_Done _ _ _ _ _ H).
  destruct (Organizations_GetIamPolicy cloud _) as [policy|e]; [|reflexivity].
  unfold mbind, M_bind, getRm, ret, mret, M_ret. cbn [Policy_Bindings rm].
  now rewrite addBindings_flat_map.
Qed.

End Tiers.

(** X16. [GetOrgPolicyRows] asks once, for the policy of
    [organizations/<orgId>]. When the call fails it returns the error and no
    row; otherwise it returns one row per member of every binding, in order,
    each with the bare organization id as resource and the type
    [organization]. The manager and the writer are left alone. *)
Theorem GetOrgPolicyRows_rows (cloud : Cloud) (w : World) :
  GetOrgPolicyRows cloud w
  = Done (match Organizations_GetIamPolicy cloud ("organizations/" +:+ rm_orgId (rm w)) with
          | OK policy =>
              (flat_map (fun b => map (fun m => mkRow (rm_orgId (rm w)) "organization"
                                                      (v1beta1.Binding_Role b) m)
                                      (v1beta1.Binding_Members b))
                        (v1beta1.Policy_Bindings policy), None)
          | Fail e => ([], Some e)
          end)
      (mkWorld (rm w) (written w)
         (trace w ++ [EvOrganizationsGetIamPolicy ("organizations/" +:+ rm_orgId (rm w))])).
Proof.
  rewrite GetOrgPolicyRows_exact. unfold orgPolicyRows.
  destruct (Organizations_GetIamPolicy cloud _) as [policy|e]; [|reflexivity].
  do 2 f_equal. rewrite flat_map_concat_map, map_map, <- flat_map_concat_map. reflexivity.
Qed.

(** X17. When the folders are listed and the policy of every folder is
    retrieved, [GetFolderPolicyRows] returns the rows of the folders in the
    order of the listing, each folder contributing the rows of its policy
    under its own name, after one listing call for [organizations/<orgId>]
    followed by one policy call per folder, in order. *)
Theorem GetFolderPolicyRows_success (cloud : Cloud) (w : World) :
  snd (Folders_List cloud ("organizations/" +:+ rm_orgId (rm w))) = None ->
  Forall (folderPolicyOK cloud) (listedFolders cloud (rm_orgId (rm w))) ->
  GetFolderPolicyRows cloud w
  = Done (flat_map (folderPolicyRows cloud) (listedFolders cloud (rm_orgId (rm w))), None)
      (mkWorld (rm w) (written w)
         (trace w ++ EvFoldersList ("organizations/" +:+ rm_orgId (rm w))
                     :: folderPolicyCalls (listedFolders cloud (rm_orgId (rm w))))).
Proof.
  intros Herr Hok.
  rewrite (GetFolderPolicyRows_prefix cloud (listedFolders cloud (rm_orgId (rm w))) [] w Herr);
    [reflexivity | now rewrite app_nil_r | exact Hok].
Qed.

Lemma GetFolderPolicyRows_success_witness :
  GetFolderPolicyRows demoCloud (worldOfOrg "O")
  = Done ([], None)
      (mkWorld (mkResourceManager "O" ∅) []
         [EvFoldersList "organizations/O"; EvFoldersGetIamPolicy "F"]).
Proof.
  apply (GetFolderPolicyRows_success demoCloud (worldOfOrg "O")).
  - reflexivity.
  - constructor; [|constructor]. eexists. reflexivity.
Defined.

(** X18. When the policy of a folder cannot be retrieved,
    [GetFolderPolicyRows] returns the error together with the rows of the
    folders that came before it in the listing, logs the failure with the
    name of the folder, and asks for the policy of no later folder. *)
Theorem GetFolderPolicyRows_partial (cloud : Cloud) (w : World)
    (pre post : list v2beta1.Folder) (f : v2beta1.Folder) (e : error) :
  snd (Folders_List cloud ("organizations/" +:+ rm_orgId (rm w))) = None ->
  listedFolders cloud (rm_orgId (rm w)) = pre ++ f :: post ->
  Forall (folderPolicyOK cloud) pre ->
  Folders_GetIamPolicy cloud (v2beta1.Folder_Name f) = Fail e ->
  GetFolderPolicyRows cloud w
  = Done (flat_map (folderPolicyRows cloud) pre, Some e)
      (mkWorld (rm w) (written w)
         (trace w ++ EvFoldersList ("organizations/" +:+ rm_orgId (rm w))
                     :: folderPolicyCalls pre
                     ++ [EvFoldersGetIamPolicy (v2beta1.Folder_Name f);
                         EvLogErr ("Error: Unable to get more info on folder "
                                   +:+ v2beta1.Folder_Name f +:+ ": " +:+ e +:+ nl)])).
Proof.
  intros Herr Hl Hok Hf.
  rewrite (GetFolderPolicyRows_prefix cloud pre (f :: post) w Herr Hl Hok).
  cbn [folderLoop]. rewrite (bind_Done _ _ _ _ _ (GetIamPolicyForFolder_Fail cloud _ _ _ Hf)).
  msimpl. rewrite <- !app_assoc. reflexivity.
Qed.

Lemma GetFolderPolicyRows_partial_witness :
  GetFolderPolicyRows brokenFolderCloud (worldOfOrg "O")
  = Done ([mkRow "F1" "folder" "roles/viewer" "user:c@x.com"], Some "503")
      (mkWorld (mkResourceManager "O" ∅) []
         [EvFoldersList "organizations/O"; EvFoldersGetIamPolicy "F1";
          EvFoldersGetIamPolicy "F2";
          EvLogErr ("Error: Unable to get more info on folder F2: 503" +:+ nl)]).
Proof.
  apply (GetFolderPolicyRows_partial brokenFolderCloud (worldOfOrg "O")
           [v2beta1.mkFolder "F1" "one"] [v2beta1.mkFolder "F3" "three"]
           (v2beta1.mkFolder "F2" "two") "503").
  - reflexivity.
  - reflexivity.
  - constructor; [|constructor]. eexists. reflexivity.
  - reflexivity.
Defined.

(** X19. When the projects are listed and the policy of every project is
    retrieved, [GetProjectPolicyRows] returns the rows of the projects in
    the order of the listing. The policy of a project is asked for by its
    project id, while its rows carry its name as resource. *)
Theorem GetProjectPolicyRows_success (cloud : Cloud) (w : World) :
  snd (Projects_List cloud ("parent.type:organization parent.id:" +:+ rm_orgId (rm w))) = None ->
  Forall (projectPolicyOK cloud) (listedProjects cloud (rm_orgId (rm w))) ->
  GetProjectPolicyRows cloud w
  = Done (flat_map (fun p =>
                      match Projects_GetIamPolicy cloud (Project_ProjectId p) with
                      | OK policy =>
                          flat_map (fun b => map (fun m => mkRow (Project_Name p) "project"
                                                                 (v1beta1.Binding_Role b) m)
                                                 (v1beta1.Binding_Members b))
                                   (v1beta1.Policy_Bindings policy)
                      | Fail _ => []
                      end) (listedProjects cloud (rm_orgId (rm w))), None)
      (mkWorld (rm w) (written w)
         (trace w ++ EvProjectsList ("parent.type:organization parent.id:" +:+ rm_orgId (rm w))
                     :: map (fun p => EvProjectsGetIamPolicy (Project_ProjectId p))
                            (listedProjects cloud (rm_orgId (rm w))))).
Proof.
  intros Herr Hok.
  rewrite (GetProjectPolicyRows_prefix cloud (listedProjects cloud (rm_orgId (rm w))) [] w Herr);
    [|now rewrite app_nil_r | exact Hok].
  cbn [projectLoop]. unfold ret, mret, M_ret. do 2 f_equal.
  apply flat_map_ext. intros p. unfold projectPolicyRows.
  destruct (Projects_GetIamPolicy cloud (Project_ProjectId p)) as [policy|e]; [|reflexivity].
  rewrite flat_map_concat_map, map_map, <- flat_map_concat_map. reflexivity.
Qed.

Lemma GetProjectPolicyRows_success_witness :
  GetProjectPolicyRows namedProjectCloud (worldOfOrg "O")
  = Done ([mkRow "My Project" "project" "roles/editor" "user:b@x.com"], None)
      (mkWorld (mkResourceManager "O" ∅) []
         [EvProjectsList "parent.type:organization parent.id:O";
          EvProjectsGetIamPolicy "proj-123"]).
Proof.
  apply (GetProjectPolicyRows_success namedProjectCloud (worldOfOrg "O")).
  - reflexivity.
  - constructor; [|constructor]. eexists. reflexivity.
Defined.

(** X20. When the policy of a project cannot be retrieved,
    [GetProjectPolicyRows] returns the error together with the rows of the
    projects listed before it, logs the failure with the name of the project,
    and asks for the policy of no later project. *)
Theorem GetProjectPolicyRows_partial (cloud : Cloud) (w : World)
    (pre post : list Project) (p : Project) (e : error) :
  snd (Projects_List cloud ("parent.type:organization parent.id:" +:+ rm_orgId (rm w))) = None ->
  listedProjects cloud (rm_orgId (rm w)) = pre ++ p :: post ->
  Forall (projectPolicyOK cloud) pre ->
  Projects_GetIamPolicy cloud (Project_ProjectId p) = Fail e ->
  GetProjectPolicyRows cloud w
  = Done (flat_map (projectPolicyRows cloud) pre, Some e)
      (mkWorld (rm w) (written w)
         (trace w ++ EvProjectsList ("parent.type:organization parent.id:" +:+ rm_orgId (rm w))
                     :: projectPolicyCalls pre
                     ++ [EvProjectsGetIamPolicy (Project_ProjectId p);
                         EvLogErr ("Error: Unable to get more info on project "
                                   +:+ Project_Name p +:+ ": " +:+ e +:+ nl)])).
Proof.
  intros Herr Hl Hok Hp.
  rewrite (GetProjectPolicyRows_prefix cloud pre (p :: post) w Herr Hl Hok).
  cbn [projectLoop]. rewrite (bind_Done _ _ _ _ _ (GetIamPolicyForProject_Fail cloud _ _ _ Hp)).
  msimpl. rewrite <- !app_assoc. reflexivity.
Qed.

Lemma GetProjectPolicyRows_partial_witness :
  GetProjectPolicyRows brokenProjectCloud (worldOfOrg "O")
  = Done ([mkRow "Alpha" "project" "roles/editor" "user:b@x.com"], Some "403")
      (mkWorld (mkResourceManager "O" ∅) []
         [EvProjectsList "parent.type:organization parent.id:O";
          EvProjectsGetIamPolicy "alpha-1"; EvProjectsGetIamPolicy "beta-2";
          EvLogErr ("Error: Unable to get more info on project Beta: 403" +:+ nl)]).
Proof.
  apply (GetProjectPolicyRows_partial brokenProjectCloud (worldOfOrg "O")
           [mkProject "Alpha" "alpha-1"] [] (mkProject "Beta" "beta-2") "403").
  - reflexivity.
  - reflexivity.
  - constructor; [|constructor]. eexists. reflexivity.
  - reflexivity.
Defined.

(** ** The aggregation as a whole *)

Section WholeAggregation.

Variable cloud : Cloud.

Lemma GetFolderPolicyRows_all w :
  snd (Folders_List cloud ("organizations/" +:+ rm_orgId (rm w))) = None ->
  Forall (folderPolicyOK cloud) (listedFolders cloud (rm_orgId (rm w))) ->
  GetFolderPolicyRows cloud w
  = Done (flat_map (folderPolicyRows cloud) (listedFolders cloud (rm_orgId (rm w))), None)
      (mkWorld (rm w) (written w)
         (trace w ++ EvFoldersList ("organizations/" +:+ rm_orgId (rm w))
                     :: folderPolicyCalls (listedFolders cloud (rm_orgId (rm w))))).
Proof.
  intros Herr Hok.
  rewrite (GetFolderPolicyRows_prefix cloud (listedFolders cloud (rm_orgId (rm w))) [] w Herr);
    [reflexivity | now rewrite app_nil_r | exact Hok].
Qed.

Lemma GetProjectPolicyRows_all w :
  snd (Projects_List cloud ("parent.type:organization parent.id:" +:+ rm_orgId (rm w))) = None ->
  Forall (projectPolicyOK cloud) (listedProjects cloud (rm_orgId (rm w))) ->
  GetProjectPolicyRows cloud w
  = Done (flat_map (projectPolicyRows cloud) (listedProjects cloud (rm_orgId (rm w))), None)
      (mkWorld (rm w) (written w)
         (trace w ++ EvProjectsList ("parent.type:organization parent.id:" +:+ rm_orgId (rm w))
                     :: projectPolicyCalls (listedProjects cloud (rm_orgId (rm w))))).
Proof.
  intros Herr Hok.
  rewrite (GetProjectPolicyRows_prefix cloud (listedProjects cloud (rm_orgId (rm w))) [] w Herr);
    [reflexivity | now rewrite app_nil_r | exact Hok].
Qed.

Lemma frames_ret {A} (P : Event -> Prop) (a : A) : frames P (ret a).
Proof. intros w. simpl. repeat split. exists []. now rewrite app_nil_r. Qed.

Lemma frames_bind {A B} (P : Event -> Prop) (m : M A) (k : A -> M B) :
  frames P m -> (forall a, frames P (k a)) -> frames P (m ≫= k).
Proof.
  intros Hm Hk w. destruct (Hm w) as (Hrm & Hwr & evs & Htr & HP).
  unfold mbind, M_bind. destruct (m w) as [a w1|msg w1]; simpl in *.
  - destruct (Hk a w1) as (Hrm' & Hwr' & evs' & Htr' & HP').
    rewrite Hrm', Hwr', Htr', Hrm, Hwr, Htr. repeat split.
    exists (evs ++ evs'). split; [now rewrite app_assoc | now apply Forall_app].
  - repeat split; auto. now exists evs.
Qed.

Lemma frames_exact {A} (P : Event -> Prop) (m : M A) :
  (forall w, exists a evs,
     m w = Done a (mkWorld (rm w) (written w) (trace w ++ evs)) /\ Forall P evs) ->
  frames P m.
Proof.
  intros H w. destruct (H w) as (a & evs & -> & HP). simpl. repeat split. now exists evs.
Qed.

Lemma frames_getRm {A} (P : Event -> Prop) (k : resourceManager -> M A) :
  (forall r, frames P (k r)) -> frames P (getRm ≫= k).
Proof. intros H w. apply (H (rm w) w). Qed.

Lemma GetIamPolicyForFolder_frames folderId :
  frames aggregationEvent (GetIamPolicyForFolder cloud folderId).
Proof.
  apply frames_exact. intros w.
  destruct (Folders_GetIamPolicy cloud folderId) as [policy|e] eqn:H.
  - eexists _, _. split; [apply (GetIamPolicyForFolder_OK cloud _ _ w H)|].
    constructor; [now left | constructor].
  - eexists _, _. split; [apply (GetIamPolicyForFolder_Fail cloud _ _ w H)|].
    constructor; [now left | constructor].
Qed.

Lemma GetIamPolicyForProject_frames projectId :
  frames aggregationEvent (GetIamPolicyForProject cloud projectId).
Proof.
  apply frames_exact. intros w.
  destruct (Projects_GetIamPolicy cloud projectId) as [policy|e] eqn:H.
  - eexists _, _. split; [apply (GetIamPolicyForProject_OK cloud _ _ w H)|].
    constructor; [now left | constructor].
  - eexists _, _. split; [apply (GetIamPolicyForProject_Fail cloud _ _ w H)|].
    constructor; [now left | constructor].
Qed.

Lemma frames_log {A} (a : A) text :
  frames aggregationEvent (logerr_Printf text;; ret a).
Proof.
  apply frames_exact. intros w. eexists _, _. split; [reflexivity|].
  constructor; [right; eauto | constructor].
Qed.

Lemma folderLoop_frames folders rows :
  frames aggregationEvent (folderLoop cloud folders rows).
Proof.
  revert rows. induction folders as [|f folders IH]; intros rows; simpl.
  - apply frames_ret.
  - apply frames_bind; [apply GetIamPolicyForFolder_frames|].
    intros [policy [e|]]; [apply frames_log | apply IH].
Qed.

Lemma projectLoop_frames projects rows :
  frames aggregationEvent (projectLoop cloud projects rows).
Proof.
  revert rows. induction projects as [|p projects IH]; intros rows; simpl.
  - apply frames_ret.
  - apply frames_bind; [apply GetIamPolicyForProject_frames|].
    intros [policy [e|]]; [apply frames_log | apply IH].
Qed.

Lemma GetAllPolicyRows_frames : frames aggregationEvent (GetAllPolicyRows cloud).
Proof.
  unfold GetAllPolicyRows.
  apply frames_bind.
  { apply frames_exact. intros w. eexists _, _. split; [apply GetOrgPolicyRows_exact|].
    constructor; [now left | constructor]. }
  intros [orgRows [e|]]; [apply frames_ret|].
  apply frames_bind.
  { unfold GetFolderPolicyRows. apply frames_getRm. intros r. apply frames_bind.
    - apply frames_exact. intros w. eexists _, _. split; [apply FoldersList_exact|].
      constructor; [now left | constructor].
    - intros [folders [e|]]; [apply frames_ret | apply folderLoop_frames]. }
  intros [folderRows [e|]]; [apply frames_ret|].
  apply frames_bind.
  { unfold GetProjectPolicyRows. apply frames_bind.
    - apply frames_exact. intros w. eexists _, _. split; [apply ProjectsList_exact|].
      constructor; [now left | constructor].
    - intros [projects [e|]]; [apply frames_ret | apply projectLoop_frames]. }
  intros [projectRows [e|]]; apply frames_ret.
Qed.

End WholeAggregation.

(** X21. When the policy of the organization, the two listings and the policy
    of every folder and project listed are all retrieved, [GetAllPolicyRows]
    returns the rows of the organization, then the rows of the folders in the
    order of the listing, then the rows of the projects in the order of the
    listing; the calls are made in that order, one policy call per
    resource. *)
Theorem GetAllPolicyRows_success (cloud : Cloud) (w : World) (policy : v1beta1.Policy) :
  let orgId := rm_orgId (rm w) in
  Organizations_GetIamPolicy cloud ("organizations/" +:+ orgId) = OK policy ->
  snd (Folders_List cloud ("organizations/" +:+ orgId)) = None ->
  Forall (folderPolicyOK cloud) (listedFolders cloud orgId) ->
  snd (Projects_List cloud ("parent.type:organization parent.id:" +:+ orgId)) = None ->
  Forall (projectPolicyOK cloud) (listedProjects cloud orgId) ->
  GetAllPolicyRows cloud w
  = Done (Some (orgPolicyRows cloud orgId
                ++ flat_map (folderPolicyRows cloud) (listedFolders cloud orgId)
                ++ flat_map (projectPolicyRows cloud) (listedProjects cloud orgId)), None)
      (mkWorld (rm w) (written w)
         (trace w
          ++ EvOrganizationsGetIamPolicy ("organizations/" +:+ orgId)
             :: EvFoldersList ("organizations/" +:+ orgId)
             :: folderPolicyCalls (listedFolders cloud orgId)
             ++ EvProjectsList ("parent.type:organization parent.id:" +:+ orgId)
                :: projectPolicyCalls (listedProjects cloud orgId))).
Proof.
  intros orgId Horg Hfl Hfok Hpl Hpok. subst orgId. unfold GetAllPolicyRows.
  rewrite (bind_Done _ _ _ _ _ (GetOrgPolicyRows_exact cloud w)). rewrite Horg.
  cbn beta iota.
  erewrite bind_Done; [|apply GetFolderPolicyRows_all; [exact Hfl | exact Hfok]].
  cbn beta iota.
  erewrite bind_Done; [|apply GetProjectPolicyRows_all; [exact Hpl | exact Hpok]].
  cbn beta iota. unfold ret, mret, M_ret. cbn [rm written trace].
  rewrite app_nil_l, <- !app_assoc. reflexivity.
Qed.

Lemma GetAllPolicyRows_success_witness :
  GetAllPolicyRows demoCloud (worldOfOrg "O")
  = Done (Some [mkRow "O" "organization" "roles/viewer" "user:a@x.com";
                mkRow "O" "organization" "roles/viewer" "group:g@x.com";
                mkRow "P" "project" "roles/editor" "user:b@x.com"], None)
      (mkWorld (mkResourceManager "O" ∅) []
         [EvOrganizationsGetIamPolicy "organizations/O"; EvFoldersList "organizations/O";
          EvFoldersGetIamPolicy "F"; EvProjectsList "parent.type:organization parent.id:O";
          EvProjectsGetIamPolicy "P"]).
Proof.
  apply (GetAllPolicyRows_success demoCloud (worldOfOrg "O")
           (v1beta1.mkPolicy
              [v1beta1.mkBinding None ["user:a@x.com"; "group:g@x.com"] "roles/viewer"] "BwWW")).
  - reflexivity.
  - reflexivity.
  - constructor; [|constructor]. eexists. reflexivity.
  - reflexivity.
  - constructor; [|constructor]. eexists. reflexivity.
Defined.

(** X22. The aggregation does not resolve roles and writes nothing: whatever
    the services answer, [GetAllPolicyRows] leaves the manager (organization
    id and memo table) and the writer as they were, and everything it does
    is a listing call, a policy call or a line of the error log; the role
    service is never called. *)
Theorem GetAllPolicyRows_no_resolution (cloud : Cloud) (w : World) :
  rm (outWorld (GetAllPolicyRows cloud w)) = rm w
  /\ written (outWorld (GetAllPolicyRows cloud w)) = written w
  /\ exists evs,
       trace (outWorld (GetAllPolicyRows cloud w)) = trace w ++ evs
       /\ Forall (fun ev => isListingEvent ev = true \/ exists text, ev = EvLogErr text) evs
       /\ forall uri, ~ In (EvRolesGet uri) evs.
Proof.
  destruct (GetAllPolicyRows_frames cloud w) as (Hrm & Hwr & evs & Htr & HP).
  split; [exact Hrm|]. split; [exact Hwr|]. exists evs. split; [exact Htr|].
  split; [exact HP|]. intros uri Hin. rewrite Forall_forall in HP.
  apply list_elem_of_In in Hin. destruct (HP _ Hin) as [H|[text H]]; discriminate.
Qed.

(** ** Normalizing, further *)



(** X24. [Binding.convertV1] and [Binding.convertV2] on any receiver: role
    and members are always taken from the source. The condition of the
    result depends on the receiver: a receiver without a condition gives a
    result without one; a receiver with a condition gives the four fields of
    the source condition, and a nil dereference (a panic) when the source has
    no condition. *)
Theorem Binding_convert_receiver (b : Binding) (b1 : v1beta1.Binding) (b2 : v2beta1.Binding)
    (w : World) :
  (Binding_Condition b = None ->
   Binding_convertV1 b b1 w
   = Done (mkBinding None (v1beta1.Binding_Members b1) (v1beta1.Binding_Role b1)) w
   /\ Binding_convertV2 b b2 w
      = Done (mkBinding None (v2beta1.Binding_Members b2) (v2beta1.Binding_Role b2)) w)
  /\ (Binding_Condition b <> None ->
      Binding_convertV1 b b1 w
      = match v1beta1.Binding_Condition b1 with
        | Some x =>
            Done (mkBinding (Some (canonicalExprV1 x)) (v1beta1.Binding_Members b1)
                            (v1beta1.Binding_Role b1)) w
        | None => Panic "invalid memory address or nil pointer dereference" w
        end
      /\ Binding_convertV2 b b2 w
         = match v2beta1.Binding_Condition b2 with
           | Some x =>
               Done (mkBinding (Some (canonicalExprV2 x)) (v2beta1.Binding_Members b2)
                               (v2beta1.Binding_Role b2)) w
           | None => Panic "invalid memory address or nil pointer dereference" w
           end).
Proof.
  unfold Binding_convertV1, Binding_convertV2. cbn [Binding_Condition Binding_Members Binding_Role].
  split.
  - intros ->. split; reflexivity.
  - intros Hc. destruct (Binding_Condition b) as [c|]; [|now destruct Hc]. split.
    + destruct (v1beta1.Binding_Condition b1); reflexivity.
    + destruct (v2beta1.Binding_Condition b2); reflexivity.
Qed.

Lemma Binding_convert_receiver_witness :
  Binding_convertV1 (mkBinding (Some zeroExpr) [] "")
    (v1beta1.mkBinding (Some (v1beta1.mkExpr "d" "e" "l" "t")) ["user:a"] "roles/viewer")
    emptyWorld
  = Done (mkBinding (Some (mkExpr "d" "e" "l" "t")) ["user:a"] "roles/viewer") emptyWorld
  /\ Binding_convertV2 (mkBinding (Some zeroExpr) [] "")
       (v2beta1.mkBinding None ["user:a"] "roles/viewer") emptyWorld
     = Panic "invalid memory address or nil pointer dereference" emptyWorld.
Proof.
  split.
  - apply (proj1 (proj2 (Binding_convert_receiver (mkBinding (Some zeroExpr) [] "")
             (v1beta1.mkBinding (Some (v1beta1.mkExpr "d" "e" "l" "t")) ["user:a"] "roles/viewer")
             (v2beta1.mkBinding None ["user:a"] "roles/viewer") emptyWorld)
             ltac:(discriminate))).
  - apply (proj2 (proj2 (Binding_convert_receiver (mkBinding (Some zeroExpr) [] "")
             (v1beta1.mkBinding (Some (v1beta1.mkExpr "d" "e" "l" "t")) ["user:a"] "roles/viewer")
             (v2beta1.mkBinding None ["user:a"] "roles/viewer") emptyWorld)
             ltac:(discriminate))).
Defined.

(** ** The driver *)

Section Driver.

Variable cloud : Cloud.

Lemma printToCsv_setup filename credentialsPath orgId projectId w s :
  Stat cloud filename = Some s ->
  Create cloud ("tmp." +:+ filename) = None ->
  Fprintf cloud (written w) csvHeader = None ->
  orgId <> "" -> servicesUp cloud ->
  forall res w2,
    GetAllPolicyRows cloud (afterSetup filename orgId w) = Done res w2 ->
    printToCsv cloud filename credentialsPath orgId projectId w
    = match res with
      | (_, Some e) => Done (Some e) w2
      | (None, None) => Panic "invalid memory address or nil pointer dereference" w2
      | (Some allRows, None) =>
          match printRows cloud allRows
                  (mkWorld (rm w2) (written w2) (trace w2 ++ [EvStdout ("Printing CSV" +:+ nl)]))
          with
          | Panic msg w3 => Panic msg w3
          | Done _ w3 =>
              match Rename cloud ("tmp." +:+ filename) filename with
              | Some e =>
                  Done (Some ("Unable to move tmp." +:+ filename +:+ " to " +:+ filename
                              +:+ ": " +:+ e))
                    (mkWorld (rm w3) (written w3)
                       (trace w3 ++ [EvRename ("tmp." +:+ filename) filename;
                                     EvLog "Printing CSV took"]))
              | None =>
                  match Flush cloud (written w3) with
                  | Some e =>
                      Done (Some ("Error flushing writer: " +:+ e))
                        (mkWorld (rm w3) (written w3)
                           (trace w3 ++ [EvRename ("tmp." +:+ filename) filename; EvFlush;
                                         EvLog "Printing CSV took"]))
                  | None =>
                      Done (match Close cloud with
                            | Some e => Some ("Error closing file: " +:+ e)
                            | None => None
                            end)
                        (mkWorld (rm w3) (written w3)
                           (trace w3 ++ [EvRename ("tmp." +:+ filename) filename; EvFlush;
                                         EvClose; EvLog "Printing CSV took"]))
                  end
              end
          end
      end.
Proof.
  intros Hstat Hcreate Hhead Horg Hup res w2 Hagg.
  unfold printToCsv.
  unfold mbind, M_bind, emit, fmt_Fprintf, fmt_Println, timeTrack, ret, mret, M_ret.
  rewrite Hstat, Hcreate. cbn [rm written trace]. fold csvHeader. rewrite Hhead.
  rewrite (NewResourceManager_given_OK cloud _ _ _ _ Horg Hup). cbn [written rm trace].
  replace (mkWorld (mkResourceManager orgId ∅) (written w ++ [csvHeader]) _)
    with (afterSetup filename orgId w)
    by (unfold afterSetup; now rewrite <- !app_assoc).
  rewrite Hagg. destruct res as [[allRows|] [e|]]; try reflexivity.
  unfold emit. cbn [written rm trace].
  destruct (printRows cloud allRows _) as [[] w3|msg w3]; [|reflexivity].
  cbn [written rm trace].
  destruct (Rename cloud _ filename) as [e|]; cbn [written rm trace].
  { now rewrite <- !app_assoc. }
  destruct (Flush cloud (written w3)) as [e|]; cbn [written rm trace].
  { now rewrite <- !app_assoc. }
  destruct (Close cloud) as [e|]; cbn [written rm trace]; now rewrite <- !app_assoc.
Qed.

End Driver.

(** X25. When the output file exists already, [printToCsv] does nothing: it
    creates no file, builds no manager, calls no service, writes nothing,
    logs that the export is skipped and returns no error. *)
Theorem printToCsv_existing_file (cloud : Cloud)
    (filename credentialsPath orgId projectId : string) (w : World) :
  Stat cloud filename = None ->
  printToCsv cloud filename credentialsPath orgId projectId w
  = Done None
      (mkWorld (rm w) (written w)
         (trace w ++ [EvStat filename;
                      EvLog ("Fils " +:+ filename +:+ " found, skipping export roles")])).
Proof.
  intros H. unfold printToCsv. msimpl. rewrite H. msimpl. now rewrite <- app_assoc.
Qed.

Lemma printToCsv_existing_file_witness :
  printToCsv credentialsFileCloud "creds.json" "" "O" "" emptyWorld
  = Done None
      (mkWorld zeroResourceManager []
         [EvStat "creds.json"; EvLog "Fils creds.json found, skipping export roles"]).
Proof.
  apply (printToCsv_existing_file credentialsFileCloud "creds.json" "" "O" "" emptyWorld).
  reflexivity.
Defined.

(** X26. When the temporary file cannot be created, or the writer refuses the
    header, [printToCsv] returns that error as it is; nothing has been
    written, no manager is built and no service is called. *)
Theorem printToCsv_cannot_start (cloud : Cloud)
    (filename credentialsPath orgId projectId : string) (w : World) (s e : error) :
  Stat cloud filename = Some s ->
  (Create cloud ("tmp." +:+ filename) = Some e ->
   printToCsv cloud filename credentialsPath orgId projectId w
   = Done (Some e)
       (mkWorld (rm w) (written w)
          (trace w ++ [EvStat filename; EvCreate ("tmp." +:+ filename)])))
  /\ (Create cloud ("tmp." +:+ filename) = None ->
      Fprintf cloud (written w) (csvLine "Resource" "Type" "Member" "Role" "Permission")
      = Some e ->
      printToCsv cloud filename credentialsPath orgId projectId w
      = Done (Some e)
          (mkWorld (rm w) (written w)
             (trace w ++ [EvStat filename; EvCreate ("tmp." +:+ filename)]))).
Proof.
  intros Hstat. split.
  - intros Hc. unfold printToCsv.
    unfold mbind, M_bind, emit, ret, mret, M_ret. rewrite Hstat, Hc. cbn [rm written trace].
    now rewrite <- app_assoc.
  - intros Hc Hh. unfold printToCsv.
    unfold mbind, M_bind, emit, fmt_Fprintf, ret, mret, M_ret. rewrite Hstat, Hc.
    cbn [rm written trace]. rewrite Hh. now rewrite <- app_assoc.
Qed.

Lemma printToCsv_cannot_start_witness :
  printToCsv brokenListingCloud "out.csv" "" "O" "" emptyWorld
  = Done (Some "permission denied")
      (mkWorld zeroResourceManager [] [EvStat "out.csv"; EvCreate "tmp.out.csv"])
  /\ printToCsv smallWriterCloud "out.csv" "" "O" "" (mkWorld zeroResourceManager ["a"; "b"] [])
     = Done (Some "short write")
         (mkWorld zeroResourceManager ["a"; "b"] [EvStat "out.csv"; EvCreate "tmp.out.csv"]).
Proof.
  split.
  - apply (proj1 (printToCsv_cannot_start brokenListingCloud "out.csv" "" "O" "" emptyWorld
                    "no such file or directory" "permission denied" eq_refl)).
    reflexivity.
  - apply (proj2 (printToCsv_cannot_start smallWriterCloud "out.csv" "" "O" ""
                    (mkWorld zeroResourceManager ["a"; "b"] [])
                    "no such file or directory" "short write" eq_refl)); reflexivity.
Defined.

(** X27. When the aggregation fails, [printToCsv] returns its error as it
    is; only the header has been written, no role has been resolved, and the
    temporary file is neither renamed, flushed nor closed. *)
Theorem printToCsv_aggregation_failure (cloud : Cloud)
    (filename credentialsPath orgId projectId : string) (w w2 : World) (s e : error)
    (rows : option (list Row)) :
  Stat cloud filename = Some s ->
  Create cloud ("tmp." +:+ filename) = None ->
  Fprintf cloud (written w) csvHeader = None ->
  orgId <> "" -> servicesUp cloud ->
  GetAllPolicyRows cloud (afterSetup filename orgId w) = Done (rows, Some e) w2 ->
  printToCsv cloud filename credentialsPath orgId projectId w = Done (Some e) w2
  /\ written w2 = written w ++ [csvHeader]
  /\ rm_roleMap (rm w2) = ∅
  /\ exists evs,
       trace w2 = trace (afterSetup filename orgId w) ++ evs
       /\ Forall (fun ev => isListingEvent ev = true \/ exists text, ev = EvLogErr text) evs.
Proof.
  intros Hstat Hcreate Hhead Horg Hup Hagg.
  rewrite (printToCsv_setup cloud _ credentialsPath _ projectId _ _
             Hstat Hcreate Hhead Horg Hup _ _ Hagg).
  split; [now destruct rows|].
  destruct (GetAllPolicyRows_frames cloud (afterSetup filename orgId w))
    as (Hrm & Hwr & evs & Htr & HP).
  rewrite Hagg in Hrm, Hwr, Htr. simpl in Hrm, Hwr, Htr.
  split; [exact Hwr|]. split; [now rewrite Hrm|]. exists evs. split; [exact Htr | exact HP].
Qed.

Lemma printToCsv_aggregation_failure_witness :
  exists w2,
    printToCsv brokenFolderCloud "out.csv" "" "O" "" emptyWorld = Done (Some "503") w2
    /\ written w2 = [csvHeader].
Proof.
  pose (w2 := outWorld (GetAllPolicyRows brokenFolderCloud (afterSetup "out.csv" "O" emptyWorld))).
  destruct (printToCsv_aggregation_failure brokenFolderCloud "out.csv" "" "O" "" emptyWorld w2
              "no such file or directory" "503" None) as (Hrun & Hwr & _).
  - reflexivity.
  - reflexivity.
  - reflexivity.
  - discriminate.
  - repeat split.
  - vm_compute. reflexivity.
  - exists w2. split; [exact Hrun | exact Hwr].
Defined.

(** X28. A whole run with the organization id given: when the file system
    and the writer do their work, the API clients are built and the
    aggregation returns its rows, [printToCsv] returns no error and has
    written the header followed by the lines of the rows, in order: for each
    row one line per permission of its role, or the line with [UNKNOWN] when
    the role does not resolve. An unresolved role does not make the run
    fail. *)
Theorem printToCsv_output (cloud : Cloud)
    (filename credentialsPath orgId projectId : string) (w w2 : World) (rows : list Row) :
  fileSystemUp cloud filename ->
  writerAccepts cloud ->
  orgId <> "" -> servicesUp cloud ->
  GetAllPolicyRows cloud (afterSetup filename orgId w) = Done (Some rows, None) w2 ->
  exists w',
    printToCsv cloud filename credentialsPath orgId projectId w = Done None w'
    /\ written w' = written w ++ csvHeader :: flat_map (rowLines cloud) rows.
Proof.
  intros (Hstat & Hcreate & Hren & Hflush & Hclose) Hwa Horg Hup Hagg.
  destruct (Stat cloud filename) as [s|] eqn:Hs; [clear Hstat|now destruct Hstat].
  rewrite (printToCsv_setup cloud _ credentialsPath _ projectId _ _
             Hs Hcreate (Hwa _ _) Horg Hup _ _ Hagg).
  destruct (GetAllPolicyRows_frames cloud (afterSetup filename orgId w))
    as (Hrm & Hwr & _).
  rewrite Hagg in Hrm, Hwr. simpl in Hrm, Hwr.
  assert (Hsound : cacheSound cloud
                     (mkWorld (rm w2) (written w2)
                        (trace w2 ++ [EvStdout ("Printing CSV" +:+ nl)])))
    by (apply cacheSound_empty; simpl; now rewrite Hrm).
  destruct (printRows_output cloud rows _ Hsound Hwa) as (w3 & -> & Hw3 & _).
  rewrite Hren, Hflush, Hclose. eexists. split; [reflexivity|].
  cbn [written] in *. rewrite Hw3, Hwr, <- app_assoc. reflexivity.
Qed.

Lemma printToCsv_output_witness :
  exists w',
    printToCsv demoCloud "out.csv" "" "O" "" emptyWorld = Done None w'
    /\ written w'
       = [csvHeader;
          csvLine "O" "organization" "user:a@x.com" "roles/viewer" "permA";
          csvLine "O" "organization" "user:a@x.com" "roles/viewer" "permB";
          csvLine "O" "organization" "group:g@x.com" "roles/viewer" "permA";
          csvLine "O" "organization" "group:g@x.com" "roles/viewer" "permB";
          csvLine "P" "project" "user:b@x.com" "roles/editor" "permC"].
Proof.
  pose (w2 := outWorld (GetAllPolicyRows demoCloud (afterSetup "out.csv" "O" emptyWorld))).
  apply (printToCsv_output demoCloud "out.csv" "" "O" "" emptyWorld w2
           [mkRow "O" "organization" "roles/viewer" "user:a@x.com";
            mkRow "O" "organization" "roles/viewer" "group:g@x.com";
            mkRow "P" "project" "roles/editor" "user:b@x.com"]).
  - repeat split. discriminate.
  - intros accepted line. reflexivity.
  - discriminate.
  - repeat split.
  - vm_compute. reflexivity.
Defined.

(** X29. How a run ends once the rows are aggregated: the temporary file is
    renamed first, then the writer is flushed, then the file is closed. When
    the renaming fails the writer is never flushed and the file never
    closed; when the flush fails the file is never closed; each failure is
    returned with a message naming the step, and the run returns no error
    only when the three steps succeed. *)
Theorem printToCsv_finish (cloud : Cloud)
    (filename credentialsPath orgId projectId : string) (w w2 : World) (s : error)
    (rows : list Row) :
  Stat cloud filename = Some s ->
  Create cloud ("tmp." +:+ filename) = None ->
  Fprintf cloud (written w) csvHeader = None ->
  orgId <> "" -> servicesUp cloud ->
  GetAllPolicyRows cloud (afterSetup filename orgId w) = Done (Some rows, None) w2 ->
  exists w3 res evs,
    printRows cloud rows
      (mkWorld (rm w2) (written w2) (trace w2 ++ [EvStdout ("Printing CSV" +:+ nl)]))
    = Done tt w3
    /\ printToCsv cloud filename credentialsPath orgId projectId w
       = Done res (mkWorld (rm w3) (written w3)
                     (trace w3 ++ EvRename ("tmp." +:+ filename) filename
                                  :: evs ++ [EvLog "Printing CSV took"]))
    /\ (res, evs)
       = match Rename cloud ("tmp." +:+ filename) filename with
         | Some e =>
             (Some ("Unable to move tmp." +:+ filename +:+ " to " +:+ filename +:+ ": " +:+ e),
              [])
         | None =>
             match Flush cloud (written w3) with
             | Some e => (Some ("Error flushing writer: " +:+ e), [EvFlush])
             | None =>
                 match Close cloud with
                 | Some e => (Some ("Error closing file: " +:+ e), [EvFlush; EvClose])
                 | None => (None, [EvFlush; EvClose])
                 end
             end
         end.
Proof.
  intros Hstat Hcreate Hhead Horg Hup Hagg.
  rewrite (printToCsv_setup cloud _ credentialsPath _ projectId _ _
             Hstat Hcreate Hhead Horg Hup _ _ Hagg).
  destruct (printRows_total cloud rows
              (mkWorld (rm w2) (written w2) (trace w2 ++ [EvStdout ("Printing CSV" +:+ nl)])))
    as (w3 & Hrun & _).
  exists w3. rewrite Hrun.
  destruct (Rename cloud ("tmp." +:+ filename) filename) as [e1|];
    [eexists _, []; split; [reflexivity|]; split; reflexivity|].
  destruct (Flush cloud (written w3)) as [e2|];
    [eexists _, [EvFlush]; split; [reflexivity|]; split; reflexivity|].
  destruct (Close cloud) as [e3|]; eexists _, [EvFlush; EvClose];
    (split; [reflexivity|]); split; reflexivity.
Qed.

Lemma printToCsv_finish_witness :
  exists w',
    printToCsv (withAncestry (fun _ => Fail "403") demoCloud) "out.csv" "" "O" "" emptyWorld
    = Done None w'.
Proof.
  pose (c := withAncestry (fun _ => Fail "403") demoCloud).
  pose (w2 := outWorld (GetAllPolicyRows c (afterSetup "out.csv" "O" emptyWorld))).
  destruct (printToCsv_finish c "out.csv" "" "O" "" emptyWorld w2 "no such file or directory"
              [mkRow "O" "organization" "roles/viewer" "user:a@x.com";
               mkRow "O" "organization" "roles/viewer" "group:g@x.com";
               mkRow "P" "project" "roles/editor" "user:b@x.com"])
    as (w3 & res & evs & _ & Hrun & Hres).
  - reflexivity.
  - reflexivity.
  - reflexivity.
  - discriminate.
  - repeat split.
  - vm_compute. reflexivity.
  - simpl in Hres. injection Hres as -> ->. eexists. exact Hrun.
Defined.

Example FoldersList_drops_delivered_pages :
  FoldersList brokenListingCloud "organizations/O" emptyWorld
  = Done ([], Some "503") (mkWorld zeroResourceManager [] [EvFoldersList "organizations/O"]).
Proof. reflexivity. Qed.

Example FoldersList_keeps_page_order :
  FoldersList brokenFolderCloud "organizations/O" emptyWorld
  = Done ([v2beta1.mkFolder "F1" "one"; v2beta1.mkFolder "F2" "two";
           v2beta1.mkFolder "F3" "three"], None)
      (mkWorld zeroResourceManager [] [EvFoldersList "organizations/O"]).
Proof. reflexivity. Qed.
